(** * Local credential authentication of s3-minio-manager

    A shallow embedding of the authentication core of the application:
    - [src/auth_store.py]: the SQLite user store and the PBKDF2 password policy;
    - [src/s3.py]: [load_settings] and [save_settings] of the JSON settings
      document, [get_client3] and the object and bucket deletions
      ([empty_bucket], [cmd_delete_file], [cmd_delete_bucket]);
    - [src/app.py]: [LoginFrame] ([_submit], [_finalize], [_toggle_mode],
      [_toggle_theme], the password strength score), [_start_login] with its
      session fast path, the connection settings form
      ([_collect_settings] to [_on_settings_save],
      [_require_saved_credentials]), [is_valid_bucket_name], [human_eta],
      [_truncate_middle] and the Start Upload button of the upload form.

    Modelling choices.
    - Python [str] values are strings of code points; characters are modelled
      as the 256 code points U+0000..U+00FF (Latin-1), one Rocq [ascii] each.
      [str.strip], [str.lower] and [str.isalnum] are written out on that range.
    - Exceptions are a Python exception class; store operations run in a
      small state-and-exception monad over the database.
    - [hashlib.pbkdf2_hmac], [base64.b64encode] and [base64.b64decode] are
      section variables; [secrets.token_bytes] and [time.strftime] are inputs
      of the operations that call them. *)

From Stdlib Require Import String Ascii List ZArith Bool Lia Sorting.Sorted QArith Qround.
From Stdlib Require Import Init.Byte.
From Stdlib Require Strings.Byte.
Import ListNotations.

Local Open Scope Z_scope.

(** ** Python exceptions raised on the modelled paths *)
Inductive exc :=
| OperationalError   (** sqlite3: database cannot be opened or written *)
| IntegrityError     (** sqlite3: UNIQUE constraint failed *)
| AttributeError
| TypeError
| ValueError
| OverflowError
| OSError.

Inductive result (A : Type) :=
| Ok (a : A)
| Raise (e : exc).
Arguments Ok {A} a.
Arguments Raise {A} e.

(** ** Characters and [str] methods (code points 0..255) *)
Module PyStr.

Definition code (c : ascii) : nat := nat_of_ascii c.

(** [str.isspace] on U+0000..U+00FF. *)
Definition isspace (c : ascii) : bool :=
  let n := code c in
  ((9 <=? n) && (n <=? 13))%nat || ((28 <=? n) && (n <=? 32))%nat
  || (n =? 133)%nat || (n =? 160)%nat.

Fixpoint drop_space (l : list ascii) : list ascii :=
  match l with
  | [] => []
  | c :: r => if isspace c then drop_space r else l
  end.

(** [str.strip()] *)
Definition strip (s : string) : string :=
  string_of_list_ascii
    (rev (drop_space (rev (drop_space (list_ascii_of_string s))))).

(** [str.lower()] on U+0000..U+00FF: A..Z and U+00C0..U+00DE except U+00D7. *)
Definition lower_char (c : ascii) : ascii :=
  let n := code c in
  if ((65 <=? n) && (n <=? 90))%nat
     || ((192 <=? n) && (n <=? 222) && negb (n =? 215))%nat
  then ascii_of_nat (n + 32) else c.

Definition lower (s : string) : string :=
  string_of_list_ascii (map lower_char (list_ascii_of_string s)).

(** [str.isalnum()] of a single code point in U+0000..U+00FF: letters
    (isalpha) and numeric characters (isdecimal/isdigit/isnumeric). *)
Definition isalnum_char (c : ascii) : bool :=
  let n := code c in
  ((48 <=? n) && (n <=? 57))%nat || ((65 <=? n) && (n <=? 90))%nat
  || ((97 <=? n) && (n <=? 122))%nat
  || (n =? 170)%nat || (n =? 178)%nat || (n =? 179)%nat || (n =? 181)%nat
  || (n =? 185)%nat || (n =? 186)%nat
  || ((188 <=? n) && (n <=? 190))%nat
  || ((192 <=? n) && (n <=? 214))%nat
  || ((216 <=? n) && (n <=? 246))%nat
  || ((248 <=? n) && (n <=? 255))%nat.

(** [str.isalnum()]: non-empty and every character alphanumeric. *)
Definition isalnum (s : string) : bool :=
  match s with
  | EmptyString => false
  | _ => forallb isalnum_char (list_ascii_of_string s)
  end.

(** [str.replace("_", "")] *)
Definition remove_underscores (s : string) : string :=
  string_of_list_ascii
    (filter (fun c => negb (Ascii.eqb c "_"%char)) (list_ascii_of_string s)).

(** [len(s)] *)
Definition len (s : string) : Z := Z.of_nat (String.length s).

Definition byte_of_code (n : nat) : byte :=
  match Strings.Byte.of_nat n with Some b => b | None => x00 end.

(** [s.encode("utf-8")] for code points below 256. *)
Definition utf8_char (c : ascii) : list byte :=
  let n := code c in
  if (n <? 128)%nat then [byte_of_code n]
  else [byte_of_code (192 + n / 64); byte_of_code (128 + n mod 64)].

Definition encode_utf8 (s : string) : list byte :=
  flat_map utf8_char (list_ascii_of_string s).

End PyStr.

(** ** The SQLite store: [users] table and a state/exception monad *)

(** A row of [users] (schema of [_ensure_db]). *)
Record user_row := mk_row {
  row_id : Z;
  row_username : string;
  row_password_hash : string;
  row_salt : string;
  row_iterations : Z;
  row_created_at : string;
  row_updated_at : string;
  row_last_login : option string
}.

(** The database file [auth.db]: whether it can be opened, whether it can
    be written, the rows of [users] in storage order, and the
    [sqlite_sequence] entry of the AUTOINCREMENT key. *)
Record db := mk_db {
  db_open : bool;
  db_writable : bool;
  db_rows : list user_row;
  db_seq : Z
}.

Definition st (A : Type) : Type := db -> result A * db.

Definition ret {A} (a : A) : st A := fun d => (Ok a, d).
Definition raise {A} (e : exc) : st A := fun d => (Raise e, d).
Definition bind {A B} (m : st A) (k : A -> st B) : st B :=
  fun d => match m d with
           | (Ok a, d') => k a d'
           | (Raise e, d') => (Raise e, d')
           end.
Definition get_db : st db := fun d => (Ok d, d).
Definition put_db (d : db) : st unit := fun _ => (Ok tt, d).
Definition lift {A} (r : result A) : st A := fun d => (r, d).

Notation "x <- m ;; k" := (bind m (fun x => k))
  (at level 61, m at next level, right associativity).
Notation "' p <- m ;; k" := (bind m (fun x => match x with p => k end))
  (at level 61, p pattern, m at next level, right associativity).
Notation "m ;;; k" := (bind m (fun _ => k))
  (at level 61, right associativity).

Definition CONFIG_DIR := "~/.s3_minio_manager"%string.
Definition PBKDF2_ITERATIONS : Z := 240000.
Definition SALT_BYTES : Z := 16.
Definition INT_MAX : Z := 2147483647.

(** [_ensure_db]: connect and [CREATE TABLE IF NOT EXISTS users]. *)
Definition _ensure_db : st unit :=
  d <- get_db ;;
  if db_open d then ret tt else raise OperationalError.

(** [SELECT ... FROM users WHERE username = ?] followed by [fetchone()]. *)
Definition select_by_username (n : string) (rows : list user_row) : option user_row :=
  find (fun r => String.eqb (row_username r) n) rows.

Definition max_id (rows : list user_row) : Z :=
  fold_right (fun r m => Z.max (row_id r) m) 0 rows.

(** The rowid AUTOINCREMENT gives the next row: one more than the largest
    id ever used. *)
Definition next_rowid (d : db) : Z := 1 + Z.max (db_seq d) (max_id (db_rows d)).

(** [INSERT INTO users ...]: a read-only database refuses the write; the
    UNIQUE constraint on [username] refuses a duplicate. *)
Definition sql_insert_user (username password_hash salt : string) (iterations : Z)
    (created_at updated_at : string) : st Z :=
  d <- get_db ;;
  if negb (db_writable d) then raise OperationalError
  else if existsb (fun r => String.eqb (row_username r) username) (db_rows d)
  then raise IntegrityError
  else
    let id := next_rowid d in
    put_db (mk_db (db_open d) (db_writable d)
              (db_rows d ++ [mk_row id username password_hash salt iterations
                                    created_at updated_at None])
              id) ;;;
    ret id.

(** [UPDATE users SET last_login = ?, updated_at = ? WHERE id = ?] *)
Definition sql_touch_login (now : string) (user_id : Z) : st unit :=
  d <- get_db ;;
  if negb (db_writable d) then raise OperationalError
  else
    put_db (mk_db (db_open d) (db_writable d)
              (map (fun r => if Z.eqb (row_id r) user_id
                             then mk_row (row_id r) (row_username r)
                                    (row_password_hash r) (row_salt r)
                                    (row_iterations r) (row_created_at r)
                                    now (Some now)
                             else r) (db_rows d))
              (db_seq d)).

(** ** The password hashing policy *)
Section Auth.

(** [hashlib.pbkdf2_hmac("sha256", password, salt, iterations)] once its
    argument checks have passed; bytes are [byte]s. *)
Variable pbkdf2_hmac_sha256 : list byte -> list byte -> Z -> list byte.
(** [base64.b64encode(b).decode("ascii")] *)
Variable b64encode : list byte -> string.
(** [base64.b64decode(s)]; [None] when it raises [binascii.Error]. *)
Variable b64decode : string -> option (list byte).

(** The [salt] argument of [_hash_password]: [None], [bytes] or [str]. *)
Inductive salt_arg :=
| SaltNone
| SaltBytes (b : list byte)
| SaltText (s : string).

(** [_hash_password(password, salt, iterations)]; [fresh] is what
    [secrets.token_bytes(SALT_BYTES)] returns when [salt is None]. *)
Definition _hash_password (fresh : list byte) (password : string) (salt : salt_arg)
    (iterations : Z) : result (string * string * Z) :=
  let salt_bytes :=
    match salt with
    | SaltNone => Some fresh
    | SaltBytes b => Some b
    | SaltText s => b64decode s
    end in
  match salt_bytes with
  | None => Raise ValueError
  | Some sb =>
      if iterations <? 1 then Raise ValueError
      else if INT_MAX <? iterations then Raise OverflowError
      else
        let dk := pbkdf2_hmac_sha256 (PyStr.encode_utf8 password) sb iterations in
        Ok (b64encode dk, b64encode sb, iterations)
  end.

(** [secrets.compare_digest] on two [str]: equality (its timing is not
    part of the model). *)
Definition compare_digest (a b : string) : bool := String.eqb a b.

Definition normalize (username : string) : string :=
  PyStr.lower (PyStr.strip username).

(** ** [auth_store.py] operations *)

(** [get_user(username)] *)
Definition get_user (username : string) : st (option user_row) :=
  _ensure_db ;;;
  d <- get_db ;;
  ret (select_by_username (normalize username) (db_rows d)).

(** [create_user(username, password)]; [fresh] are the salt bytes drawn,
    [now] the [time.strftime] timestamp. *)
Definition create_user (fresh : list byte) (now : string) (username password : string)
    : st unit :=
  let username_norm := normalize username in
  '(password_hash, salt, iterations) <- lift (_hash_password fresh password SaltNone PBKDF2_ITERATIONS) ;;
  _ensure_db ;;;
  _ <- sql_insert_user username_norm password_hash salt iterations now now ;;
  ret tt.

(** [verify_user(username, password)] *)
Definition verify_user (now : string) (username password : string) : st (option Z) :=
  let username_norm := normalize username in
  _ensure_db ;;;
  d <- get_db ;;
  match select_by_username username_norm (db_rows d) with
  | None => ret None
  | Some r =>
      '(computed, _, _) <- lift (_hash_password [] password (SaltText (row_salt r)) (row_iterations r)) ;;
      if negb (compare_digest computed (row_password_hash r)) then ret None
      else sql_touch_login now (row_id r) ;;; ret (Some (row_id r))
  end.

(** ** [LoginFrame._submit] *)

Inductive mode := Login | Register.

(** The form: [self.mode] and the values of the three entry variables. *)
Record login_form := mk_form {
  form_mode : mode;
  username_var : string;
  password_var : string;
  confirm_var : string
}.

(** How a call of [_submit] that returns normally ends: with
    [self.message_var.set(m)] and [return], or with [_success_pulse], which
    runs [self._finalize(user_id, username)]. *)
Inductive submit_outcome :=
| Message (m : string)
| Authenticated (user_id : Z) (username : string).

Definition _submit (fresh : list byte) (now : string) (f : login_form) : st submit_outcome :=
  let username := PyStr.lower (PyStr.strip (username_var f)) in
  let password := password_var f in
  match form_mode f with
  | Login =>
      if String.eqb username "" || String.eqb password "" then
        ret (Message "Enter both username and password.")
      else
        user_id <- verify_user now username password ;;
        match user_id with
        | None => ret (Message "Invalid username or password.")
        | Some uid => ret (Authenticated uid username)
        end
  | Register =>
      let confirm := confirm_var f in
      if PyStr.len username <? 3 then
        ret (Message "Username must be at least 3 characters.")
      else if negb (PyStr.isalnum (PyStr.remove_underscores username)) then
        ret (Message "Use letters, numbers, and underscores only.")
      else if PyStr.len password <? 8 then
        ret (Message "Password must be at least 8 characters.")
      else if negb (String.eqb password confirm) then
        ret (Message "Passwords do not match.")
      else
        existing <- get_user username ;;
        match existing with
        | Some _ => ret (Message "Username already exists. Choose another.")
        | None =>
            create_user fresh now username password ;;;
            user_id <- verify_user now username password ;;
            match user_id with
            | None => ret (Message "Unexpected error during registration.")
            | Some uid => ret (Authenticated uid username)
            end
        end
  end.

End Auth.

(** ** [datetime] and [datetime.fromisoformat] *)
Module DateTime.

(** A [datetime]; [tzoffset] is [utcoffset()] in minutes, [None] for a
    naive value. *)
Record datetime := mk_dt {
  year : Z; month : Z; day : Z;
  hour : Z; minute : Z; second : Z; microsecond : Z;
  tzoffset : option Z
}.

Definition digit (c : ascii) : option Z :=
  let n := nat_of_ascii c in
  if ((48 <=? n) && (n <=? 57))%nat then Some (Z.of_nat n - 48) else None.

(** Exactly [k] decimal digits. *)
Fixpoint digits (k : nat) (l : list ascii) (acc : Z) : option (Z * list ascii) :=
  match k with
  | O => Some (acc, l)
  | S k' =>
      match l with
      | [] => None
      | c :: r => match digit c with
                  | Some v => digits k' r (acc * 10 + v)
                  | None => None
                  end
      end
  end.

Definition expect (c : ascii) (l : list ascii) : option (list ascii) :=
  match l with
  | c' :: r => if Ascii.eqb c c' then Some r else None
  | [] => None
  end.

Definition is_leap (y : Z) : bool :=
  (y mod 4 =? 0) && (negb (y mod 100 =? 0) || (y mod 400 =? 0)).

Definition days_in_month (y m : Z) : Z :=
  if m =? 2 then (if is_leap y then 29 else 28)
  else if (m =? 4) || (m =? 6) || (m =? 9) || (m =? 11) then 30
  else 31.

(** [YYYY-MM-DD] *)
Definition parse_date (l : list ascii) : option (Z * Z * Z * list ascii) :=
  match digits 4 l 0 with
  | Some (y, r1) =>
    match expect "-" r1 with
    | Some r2 =>
      match digits 2 r2 0 with
      | Some (m, r3) =>
        match expect "-" r3 with
        | Some r4 =>
          match digits 2 r4 0 with
          | Some (d, r5) => Some (y, m, d, r5)
          | None => None
          end
        | None => None
        end
      | None => None
      end
    | None => None
    end
  | None => None
  end.

(** [.fff] or [.ffffff], as microseconds. *)
Definition parse_fraction (l : list ascii) : option Z :=
  match digits 6 l 0 with
  | Some (us, []) => Some us
  | _ => match digits 3 l 0 with
         | Some (ms, []) => Some (ms * 1000)
         | _ => None
         end
  end.

(** [HH[:MM[:SS[.fff|.ffffff]]]] with nothing left over. *)
Definition parse_hms (l : list ascii) : option (Z * Z * Z * Z) :=
  match digits 2 l 0 with
  | Some (h, []) => Some (h, 0, 0, 0)
  | Some (h, r1) =>
    match expect ":" r1 with
    | None => None
    | Some r2 =>
      match digits 2 r2 0 with
      | Some (mi, []) => Some (h, mi, 0, 0)
      | Some (mi, r3) =>
        match expect ":" r3 with
        | None => None
        | Some r4 =>
          match digits 2 r4 0 with
          | Some (s, []) => Some (h, mi, s, 0)
          | Some (s, r5) =>
            match expect "." r5 with
            | None => None
            | Some r6 =>
              match parse_fraction r6 with
              | Some us => Some (h, mi, s, us)
              | None => None
              end
            end
          | None => None
          end
        end
      | None => None
      end
    end
  | None => None
  end.

(** Split the time part at the first [+] or [-]: the UTC offset follows. *)
Fixpoint split_tz (l : list ascii) : list ascii * option (Z * list ascii) :=
  match l with
  | [] => ([], None)
  | c :: r =>
      if Ascii.eqb c "+" then ([], Some (1, r))
      else if Ascii.eqb c "-" then ([], Some (-1, r))
      else let '(t, z) := split_tz r in (c :: t, z)
  end.

(** The time part after the separator, with its optional [+HH:MM] or
    [-HH:MM] offset (in minutes). *)
Definition parse_time (l : list ascii) : option (Z * Z * Z * Z * option Z) :=
  let '(t, z) := split_tz l in
  match parse_hms t with
  | None => None
  | Some (h, mi, s, us) =>
    match z with
    | None => Some (h, mi, s, us, None)
    | Some (sign, zl) =>
      match parse_hms zl with
      | Some (zh, zm, 0, 0) =>
          if (zm <? 60) && (zh * 60 + zm <? 24 * 60)
          then Some (h, mi, s, us, Some (sign * (zh * 60 + zm)))
          else None
      | _ => None
      end
    end
  end.

Definition valid (dt : datetime) : bool :=
  (1 <=? year dt) && (1 <=? month dt) && (month dt <=? 12)
  && (1 <=? day dt) && (day dt <=? days_in_month (year dt) (month dt))
  && (hour dt <? 24) && (minute dt <? 60) && (second dt <? 60).

(** [datetime.fromisoformat(s)] in the grammar of Python 3.7 to 3.10:
    [YYYY-MM-DD], optionally followed by one separator character and a
    time; [None] where it raises [ValueError]. *)
Definition fromisoformat (s : string) : option datetime :=
  let l := list_ascii_of_string s in
  match parse_date l with
  | None => None
  | Some (y, m, d, rest) =>
    let parsed :=
      match rest with
      | [] => Some (mk_dt y m d 0 0 0 0 None)
      | _ :: tl =>
          match parse_time tl with
          | Some (h, mi, sec, us, tz) => Some (mk_dt y m d h mi sec us tz)
          | None => None
          end
      end in
    match parsed with
    | Some dt => if valid dt then Some dt else None
    | None => None
    end
  end.

(** Days since 0001-01-01 (proleptic Gregorian), plus one. *)
Definition ordinal (y m d : Z) : Z :=
  let y1 := y - 1 in
  365 * y1 + y1 / 4 - y1 / 100 + y1 / 400
  + fold_right Z.add 0 (map (fun k => days_in_month y k)
                           (map Z.of_nat (seq 1 (Z.to_nat (m - 1)))))
  + d.

(** Wall-clock microseconds since the start of the calendar. *)
Definition wall_us (dt : datetime) : Z :=
  ((((ordinal (year dt) (month dt) (day dt)) * 24 + hour dt) * 60 + minute dt) * 60
   + second dt) * 1000000 + microsecond dt.

(** [a > b]: naive values compare by wall clock, aware values as UTC
    instants, and a naive value with an aware one raises [TypeError]. *)
Definition gt (a b : datetime) : result bool :=
  match tzoffset a, tzoffset b with
  | None, None => Ok (wall_us b <? wall_us a)
  | Some oa, Some ob =>
      Ok (wall_us b - ob * 60000000 <? wall_us a - oa * 60000000)
  | _, _ => Raise TypeError
  end.

End DateTime.

(** ** The JSON settings document *)

#[local] Set Warnings "-register-all".

(** A JSON value as [json.loads] returns it; numbers are kept as integers
    (only their truthiness matters to the code modelled here). *)
Inductive json :=
| JNull
| JBool (b : bool)
| JNum (n : Z)
| JStr (s : string)
| JArr (l : list json)
| JObj (kvs : list (string * json)).

(** A Python [dict] with string keys, in insertion order. *)
Definition dict := list (string * json).

(** [d.get(k)] *)
Fixpoint dict_get (k : string) (d : dict) : option json :=
  match d with
  | [] => None
  | (k', v) :: r => if String.eqb k' k then Some v else dict_get k r
  end.

Definition has_key (k : string) (d : dict) : bool :=
  existsb (fun kv => String.eqb (fst kv) k) d.

(** [d[k] = v]: an existing key keeps its place, a new key goes last. *)
Definition dict_set (k : string) (v : json) (d : dict) : dict :=
  if has_key k d
  then map (fun kv => if String.eqb (fst kv) k then (fst kv, v) else kv) d
  else d ++ [(k, v)].

(** [d.pop(k, None)] *)
Definition dict_pop (k : string) (d : dict) : dict :=
  filter (fun kv => negb (String.eqb (fst kv) k)) d.

(** Python truthiness of a JSON value. *)
Definition truthy (j : json) : bool :=
  match j with
  | JNull => false
  | JBool b => b
  | JNum n => negb (n =? 0)
  | JStr s => negb (String.eqb s "")
  | JArr l => negb (match l with [] => true | _ => false end)
  | JObj kvs => negb (match kvs with [] => true | _ => false end)
  end.

(** Truthiness of [d.get(k)], where a missing key gives [None]. *)
Definition truthy_opt (o : option json) : bool :=
  match o with Some j => truthy j | None => false end.

(** The settings file at [CONFIG_PATH]: not a regular file, a file whose
    [read_text] raises, or a file with its text. *)
Inductive settings_file :=
| FileAbsent
| FileUnreadable
| FileText (raw : string).

Record settings_fs := mk_fs {
  cfg_file : settings_file;
  cfg_writable : bool   (** [mkdir] and [write_text] succeed *)
}.

Section Settings.

(** [json.loads(raw)]; [None] where it raises. *)
Variable json_loads : string -> option json.
(** [json.dumps(data, indent=2)] *)
Variable json_dumps : json -> string.

(** The body of the [try] in [load_settings]: [Ok (Some data)] is the early
    [return data]. *)
Definition load_settings_try (f : settings_file) : result (option dict) :=
  match f with
  | FileAbsent => Ok None
  | FileUnreadable => Raise OSError
  | FileText raw =>
      let data :=
        if String.eqb (PyStr.strip raw) "" then Ok (JObj [])
        else match json_loads raw with
             | Some j => Ok j
             | None => Raise ValueError
             end in
      match data with
      | Ok (JObj d) => Ok (Some d)
      | Ok _ => Ok None
      | Raise e => Raise e
      end
  end.

(** [load_settings()]: exceptions are swallowed, and anything but a dict
    gives [{}]. *)
Definition load_settings (f : settings_file) : dict :=
  match load_settings_try f with
  | Ok (Some d) => d
  | Ok None => []
  | Raise _ => []
  end.

(** [save_settings(data)]; a failing [chmod] is ignored. *)
Definition save_settings (fs : settings_fs) (data : dict) : result settings_fs :=
  if cfg_writable fs
  then Ok (mk_fs (FileText (json_dumps (JObj data))) (cfg_writable fs))
  else Raise OSError.

(** [LoginFrame._finalize(user_id, username)]: [keep] is the value of
    [keep_signed_var] ([None] without the attribute), [token] and
    [expires] what [secrets.token_hex(16)] and the [isoformat] of
    now + 7 days return. Exceptions are swallowed; [on_success] follows in
    every case. The result is the settings file afterwards. *)
Definition _finalize (keep : option bool) (token expires : string)
    (username : string) (fs : settings_fs) : settings_fs :=
  let cfg := load_settings (cfg_file fs) in
  let cfg' :=
    match keep with
    | Some true =>
        dict_set "SESSION"
          (JObj [("username"%string, JStr username); ("token"%string, JStr token);
                 ("expires_at"%string, JStr expires)]) cfg
    | _ => dict_pop "SESSION" cfg
    end in
  match save_settings fs cfg' with
  | Ok fs' => fs'
  | Raise _ => fs
  end.

(** [datetime.fromisoformat(exp)] on a JSON value. *)
Definition fromisoformat_json (o : option json) : result DateTime.datetime :=
  match o with
  | Some (JStr s) =>
      match DateTime.fromisoformat s with
      | Some dt => Ok dt
      | None => Raise ValueError
      end
  | _ => Raise TypeError
  end.

(** The body of the [try] of the session fast path in [_start_login]:
    [Some (id, username)] is the [return True] branch. *)
Definition session_fast_path (now : DateTime.datetime) (cfg : dict)
    : st (option (Z * string)) :=
  let sess :=
    match dict_get "SESSION" cfg with
    | Some v => if truthy v then v else JObj []
    | None => JObj []
    end in
  match sess with
  | JObj s =>
      let username := dict_get "username" s in
      let exp := dict_get "expires_at" s in
      if truthy_opt username && truthy_opt exp then
        dt <- lift (fromisoformat_json exp) ;;
        later <- lift (DateTime.gt dt now) ;;
        if later then
          match username with
          | Some (JStr u) =>
              row <- get_user u ;;
              match row with
              | Some r => ret (Some (row_id r, u))
              | None => ret None
              end
          | _ => raise AttributeError
          end
        else ret None
      else ret None
  | _ => raise AttributeError
  end.

Inductive start_outcome :=
| AutoLogin (user_id : Z) (username : string)  (** [return True] *)
| ShowLoginCard.                               (** the login overlay is built *)

(** The fast path of [_start_login] on an already loaded settings dict. *)
Definition session_check (now : DateTime.datetime) (cfg : dict) (d : db) : start_outcome :=
  match fst (session_fast_path now cfg d) with
  | Ok (Some (uid, u)) => AutoLogin uid u
  | _ => ShowLoginCard
  end.

(** [_start_login] up to the login overlay: [load_s3_settings()] and the
    session fast path inside [try ... except Exception: pass]. *)
Definition _start_login (now : DateTime.datetime) (f : settings_file) (d : db) : start_outcome :=
  session_check now (load_settings f) d.

End Settings.

(** ** The rest of [auth_store.py] and the account parts of [LoginFrame] *)

(** [user_count()]: the number of rows of [users] ([SELECT COUNT] of all rows). *)
Definition user_count : st Z :=
  _ensure_db ;;;
  d <- get_db ;;
  ret (Z.of_nat (length (db_rows d))).

(** [UPDATE users SET password_hash = ?, salt = ?, iterations = ?,
    updated_at = ? WHERE id = ?] *)
Definition sql_update_password (password_hash salt : string) (iterations : Z)
    (now : string) (user_id : Z) : st unit :=
  d <- get_db ;;
  if negb (db_writable d) then raise OperationalError
  else
    put_db (mk_db (db_open d) (db_writable d)
              (map (fun r => if Z.eqb (row_id r) user_id
                             then mk_row (row_id r) (row_username r) password_hash salt
                                    iterations (row_created_at r) now (row_last_login r)
                             else r) (db_rows d))
              (db_seq d)).

(** The byte order of SQLite's BINARY collation ([memcmp], then length). *)
Fixpoint bytes_leb (a b : list byte) : bool :=
  match a, b with
  | [], _ => true
  | _ :: _, [] => false
  | x :: a', y :: b' =>
      let n := Strings.Byte.to_nat x in
      let m := Strings.Byte.to_nat y in
      if (n <? m)%nat then true else if (m <? n)%nat then false else bytes_leb a' b'
  end.

(** [ORDER BY username ASC] on TEXT stored as UTF-8. *)
Definition text_leb (s t : string) : bool :=
  bytes_leb (PyStr.encode_utf8 s) (PyStr.encode_utf8 t).

Fixpoint insert_text (s : string) (l : list string) : list string :=
  match l with
  | [] => [s]
  | t :: r => if text_leb s t then s :: l else t :: insert_text s r
  end.

Definition sort_text (l : list string) : list string := fold_right insert_text [] l.

(** [list_usernames()]: [SELECT username FROM users ORDER BY username ASC]. *)
Definition list_usernames : st (list string) :=
  _ensure_db ;;;
  d <- get_db ;;
  ret (sort_text (map row_username (db_rows d))).

Section AuthMore.

Variable pbkdf2_hmac_sha256 : list byte -> list byte -> Z -> list byte.
Variable b64encode : list byte -> string.
Variable b64decode : string -> option (list byte).

(** [change_password(user_id, new_password)]; [fresh] are the salt bytes
    drawn, [now] the [time.strftime] timestamp. *)
Definition change_password (fresh : list byte) (now : string) (user_id : Z)
    (new_password : string) : st unit :=
  '(new_hash, salt, iterations) <-
    lift (_hash_password pbkdf2_hmac_sha256 b64encode b64decode fresh new_password
            SaltNone PBKDF2_ITERATIONS) ;;
  _ensure_db ;;;
  sql_update_password new_hash salt iterations now user_id.

End AuthMore.

(** [self.mode] as [LoginFrame.__init__] sets it:
    ["register" if auth_user_count() == 0 else "login"]. *)
Definition initial_mode : st mode :=
  n <- user_count ;;
  ret (if n =? 0 then Register else Login).

(** [LoginFrame._toggle_mode] on the form: the mode flips, both password
    entries are cleared, and [_refresh_usernames] clears the username when
    the new mode is [register]. *)
Definition _toggle_mode (f : login_form) : login_form :=
  let m := match form_mode f with Login => Register | Register => Login end in
  mk_form m (match m with Register => ""%string | Login => username_var f end) "" "".

(** Character classes of the patterns of [_password_strength_score] on
    U+0000..U+00FF: [[A-Z]], [[a-z]], [\d] (Unicode decimal digits, here
    0-9) and [[^\w\s]] ([\w]: [str.isalnum] or [_]; [\s]: [str.isspace]). *)
Definition re_upper (c : ascii) : bool :=
  let n := PyStr.code c in ((65 <=? n) && (n <=? 90))%nat.
Definition re_lower (c : ascii) : bool :=
  let n := PyStr.code c in ((97 <=? n) && (n <=? 122))%nat.
Definition re_digit (c : ascii) : bool :=
  let n := PyStr.code c in ((48 <=? n) && (n <=? 57))%nat.
Definition re_word (c : ascii) : bool := PyStr.isalnum_char c || Ascii.eqb c "_".
Definition re_symbol (c : ascii) : bool := negb (re_word c) && negb (PyStr.isspace c).

(** [re.search(pattern, password)] for a one-character class. *)
Definition re_search (cls : ascii -> bool) (s : string) : bool :=
  existsb cls (list_ascii_of_string s).

(** [LoginFrame._password_strength_score(password)] *)
Definition _password_strength_score (password : string) : Z :=
  if String.eqb password "" then 0
  else
    let length := PyStr.len password in
    let score := Z.min (length * 6) 40 in
    let score := if re_search re_upper password then score + 15 else score in
    let score := if re_search re_lower password then score + 15 else score in
    let score := if re_search re_digit password then score + 15 else score in
    let score := if re_search re_symbol password then score + 15 else score in
    let score := if 12 <=? length then score + 10 else score in
    Z.min score 100.

(** ** [str()] and [repr()] of JSON values (code points 0..255) *)
Module PyRepr.

Fixpoint dec_digits (fuel : nat) (n : N) (acc : list ascii) : list ascii :=
  match fuel with
  | O => acc
  | S f =>
      let acc' := ascii_of_N (48 + N.modulo n 10) :: acc in
      if N.eqb (N.div n 10) 0 then acc' else dec_digits f (N.div n 10) acc'
  end.

(** [str(n)] of a non-negative integer. *)
Definition str_N (n : N) : string :=
  string_of_list_ascii (dec_digits (S (N.size_nat n)) n []).

(** [str(n)] of an integer. *)
Definition str_Z (z : Z) : string :=
  if z <? 0 then String "-" (str_N (Z.to_N (- z))) else str_N (Z.to_N z).

Definition hex_digit (n : nat) : ascii :=
  if (n <? 10)%nat then ascii_of_nat (48 + n) else ascii_of_nat (87 + n).

(** [str.isprintable()] of one code point: U+0020..U+007E, and
    U+00A1..U+00FF except U+00AD. *)
Definition isprintable (c : ascii) : bool :=
  let n := PyStr.code c in
  ((32 <=? n) && (n <=? 126))%nat || ((161 <=? n) && negb (n =? 173))%nat.

Definition dquote : ascii := ascii_of_nat 34.
Definition backslash : ascii := ascii_of_nat 92.

(** One character of [repr(s)] inside the quote [q]. *)
Definition repr_char (q c : ascii) : list ascii :=
  let n := PyStr.code c in
  if Ascii.eqb c q || Ascii.eqb c backslash then [backslash; c]
  else if (n =? 9)%nat then [backslash; "t"%char]
  else if (n =? 10)%nat then [backslash; "n"%char]
  else if (n =? 13)%nat then [backslash; "r"%char]
  else if isprintable c then [c]
  else [backslash; "x"%char; hex_digit (n / 16); hex_digit (n mod 16)].

(** [repr(s)] of a [str]: single quotes unless the text has a single quote
    and no double quote. *)
Definition repr_str (s : string) : string :=
  let l := list_ascii_of_string s in
  let q := if existsb (Ascii.eqb "'"%char) l && negb (existsb (Ascii.eqb dquote) l)
           then dquote else "'"%char in
  string_of_list_ascii (q :: flat_map (repr_char q) l ++ [q]).

(** [repr()] of a JSON value as Python holds it. *)
Fixpoint py_repr (j : json) : string :=
  match j with
  | JNull => "None"
  | JBool true => "True"
  | JBool false => "False"
  | JNum n => str_Z n
  | JStr s => repr_str s
  | JArr l => "[" ++ String.concat ", " (map py_repr l) ++ "]"
  | JObj kvs =>
      "{" ++ String.concat ", "
               (map (fun kv => match kv with (k, v) => repr_str k ++ ": " ++ py_repr v end) kvs)
      ++ "}"
  end%string.

(** [str()] of a JSON value. *)
Definition py_str (j : json) : string :=
  match j with
  | JStr s => s
  | _ => py_repr j
  end.

End PyRepr.

(** ** The settings document as the rest of [app.py] and [s3.py] use it *)

(** [os.environ] *)
Definition environ := list (string * string).

Fixpoint env_get (k : string) (e : environ) : option string :=
  match e with
  | [] => None
  | (k', v) :: r => if String.eqb k' k then Some v else env_get k r
  end.

(** [os.environ.pop(k, None)] *)
Definition env_pop (k : string) (e : environ) : environ :=
  filter (fun kv => negb (String.eqb (fst kv) k)) e.

(** [os.environ[k] = v] *)
Definition env_set (k v : string) (e : environ) : environ := (k, v) :: env_pop k e.

(** [d.get(k, default)] *)
Definition dict_get_or (k : string) (d : dict) (default : json) : json :=
  match dict_get k d with Some v => v | None => default end.

(** [v == s] for a JSON value and a [str] constant. *)
Definition json_is (v : json) (s : string) : bool :=
  match v with JStr t => String.eqb t s | _ => false end.

Definition PROVIDER_AWS := "aws"%string.
Definition PROVIDER_MINIO := "minio"%string.

(** [str(value).lower() not in ("0", "false", "no")] is the negation of
    this test. *)
Definition falsey_word (s : string) : bool :=
  String.eqb s "0" || String.eqb s "false" || String.eqb s "no".

(** [_settings_bool(value, default)] *)
Definition _settings_bool (value : option json) (default : bool) : bool :=
  match value with
  | None | Some JNull => default
  | Some v => negb (falsey_word (PyStr.lower (PyRepr.py_str v)))
  end.

(** [_default_endpoint(region)] *)
Definition _default_endpoint (region : string) : string :=
  let region := PyStr.strip region in
  if String.eqb region "" then "" else "s3." ++ region ++ ".amazonaws.com".

(** The Tk variables of the settings form. *)
Record settings_vars := mk_vars {
  cfg_region : string;
  cfg_access_key : string;
  cfg_secret_key : string;
  cfg_endpoint : string;
  cfg_custom_endpoint : bool;
  cfg_secure : bool;
  cfg_path_style : bool;
  cfg_provider : string
}.

(** [_collect_settings()] *)
Definition _collect_settings (v : settings_vars) : dict :=
  let region := PyStr.strip (cfg_region v) in
  let provider := cfg_provider v in
  let use_custom := String.eqb provider PROVIDER_MINIO || cfg_custom_endpoint v in
  let endpoint_val := if use_custom then PyStr.strip (cfg_endpoint v) else ""%string in
  [("AWS_REGION"%string, JStr region);
   ("AWS_ACCESS_KEY_ID"%string, JStr (PyStr.strip (cfg_access_key v)));
   ("AWS_SECRET_ACCESS_KEY"%string, JStr (PyStr.strip (cfg_secret_key v)));
   ("AWS_S3_ENDPOINT"%string, JStr endpoint_val);
   ("AWS_S3_SECURE"%string, JStr (if cfg_secure v then "true" else "false"));
   ("PROVIDER"%string, JStr provider);
   ("USE_CUSTOM_ENDPOINT"%string, JBool use_custom);
   ("AWS_S3_PATH_STYLE"%string, JStr (if cfg_path_style v then "true" else "false"))].

(** [(settings.get(k) or "").strip()] *)
Definition get_stripped (k : string) (settings : dict) : result string :=
  match dict_get k settings with
  | Some v =>
      if truthy v
      then match v with JStr s => Ok (PyStr.strip s) | _ => Raise AttributeError end
      else Ok ""%string
  | None => Ok ""%string
  end.

(** [_effective_endpoint(settings)] *)
Definition _effective_endpoint (settings : dict) : result string :=
  let provider := dict_get_or "PROVIDER" settings (JStr PROVIDER_AWS) in
  match get_stripped "AWS_REGION" settings with
  | Raise e => Raise e
  | Ok region =>
    match get_stripped "AWS_S3_ENDPOINT" settings with
    | Raise e => Raise e
    | Ok endpoint =>
      let use_custom := truthy_opt (dict_get "USE_CUSTOM_ENDPOINT" settings) in
      if json_is provider PROVIDER_MINIO then Ok endpoint
      else if negb (String.eqb endpoint "") then Ok endpoint
      else if negb use_custom && json_is provider PROVIDER_AWS && negb (String.eqb region "")
      then Ok (_default_endpoint region)
      else Ok ""%string
    end
  end.

(** The [os.environ] updates of [_apply_env_from_settings(settings)]
    (the Tk variables it sets afterwards are not modelled):
    [os.environ[k] = value] needs a [str] and raises [TypeError] otherwise. *)
Fixpoint apply_env_keys (keys : list string) (settings : dict) (e : environ) : result environ :=
  match keys with
  | [] => Ok e
  | k :: r =>
      let value := dict_get_or k settings (JStr "") in
      if truthy value
      then match value with
           | JStr s => apply_env_keys r settings (env_set k s e)
           | _ => Raise TypeError
           end
      else apply_env_keys r settings (env_pop k e)
  end.

Definition env_mapping : list string :=
  ["AWS_REGION"; "AWS_ACCESS_KEY_ID"; "AWS_SECRET_ACCESS_KEY"; "AWS_S3_ENDPOINT";
   "AWS_S3_PATH_STYLE"]%string.

Definition _apply_env_from_settings (settings : dict) (e : environ) : result environ :=
  match apply_env_keys env_mapping settings e with
  | Raise x => Raise x
  | Ok e' =>
      match dict_get_or "AWS_S3_SECURE" settings (JStr "true") with
      | JStr s => Ok (env_set "AWS_S3_SECURE" s e')
      | _ => Raise TypeError
      end
  end.

(** The fields [_on_settings_save] insists on, as (label, key) pairs. *)
Definition save_required (v : settings_vars) (data : dict) : list (string * string) :=
  let provider := dict_get_or "PROVIDER" data (JStr (cfg_provider v)) in
  (if json_is provider PROVIDER_AWS then [("AWS Region", "AWS_REGION")]%string else [])
  ++ [("Access Key ID", "AWS_ACCESS_KEY_ID"); ("Secret Access Key", "AWS_SECRET_ACCESS_KEY")]%string
  ++ (if truthy_opt (dict_get "USE_CUSTOM_ENDPOINT" data)
      then [("Endpoint", "AWS_S3_ENDPOINT")]%string else []).

Definition save_missing (v : settings_vars) (data : dict) : list string :=
  map fst (filter (fun lk => negb (truthy_opt (dict_get (snd lk) data))) (save_required v data)).

(** [_require_saved_credentials(action_text)] on the loaded settings;
    [cur_provider] is [cfg_provider.get()]. *)
Definition _require_saved_credentials (cur_provider : string) (settings : dict) : bool :=
  let provider := dict_get_or "PROVIDER" settings
                    (JStr (if String.eqb cur_provider "" then PROVIDER_AWS else cur_provider)) in
  let provider := if json_is provider PROVIDER_AWS || json_is provider PROVIDER_MINIO
                  then provider else JStr PROVIDER_AWS in
  let required :=
    if json_is provider PROVIDER_AWS
    then [("AWS Region", "AWS_REGION"); ("Access Key ID", "AWS_ACCESS_KEY_ID");
          ("Secret Access Key", "AWS_SECRET_ACCESS_KEY")]%string
    else [("Access Key ID", "AWS_ACCESS_KEY_ID"); ("Secret Access Key", "AWS_SECRET_ACCESS_KEY");
          ("Endpoint", "AWS_S3_ENDPOINT")]%string in
  let missing :=
    filter (fun lk => String.eqb (PyStr.strip (PyRepr.py_str (dict_get_or (snd lk) settings (JStr ""))))
                                 "")
           required in
  match missing with [] => true | _ => false end.

(** [_resolve_setting(env_key, settings, default)] *)
Definition _resolve_setting (e : environ) (key : string) (settings : dict)
    (default : option string) : option string :=
  let from_settings :=
    match dict_get key settings with
    | Some v => if truthy v then Some (PyRepr.py_str v) else default
    | None => default
    end in
  match env_get key e with
  | Some v => if String.eqb v "" then from_settings else Some v
  | None => from_settings
  end.

(** How [get_client3()] ends: [sys.exit(2)] with the missing keys, or the
    arguments of the [Minio] constructor. *)
Inductive client3_outcome :=
| Exit2 (missing : list string)
| MinioArgs (endpoint access_key secret_key : string) (secure : bool)
            (region : option string) (bucket_lookup : string).

Definition opt_truthy (o : option string) : bool :=
  match o with Some s => negb (String.eqb s "") | None => false end.

Definition opt_str (o : option string) : string :=
  match o with Some s => s | None => "None" end.

Section AppSettings.

Variable json_loads : string -> option json.
Variable json_dumps : json -> string.

(** [get_client3()] after [load_settings()]. *)
Definition get_client3 (e : environ) (f : settings_file) : client3_outcome :=
  let settings := load_settings json_loads f in
  let provider := dict_get_or "PROVIDER" settings (JStr PROVIDER_AWS) in
  let region := _resolve_setting e "AWS_REGION" settings None in
  let endpoint_default :=
    if opt_truthy region then Some ("s3." ++ opt_str region ++ ".amazonaws.com")%string else None in
  let endpoint := _resolve_setting e "AWS_S3_ENDPOINT" settings endpoint_default in
  let access_key := _resolve_setting e "AWS_ACCESS_KEY_ID" settings None in
  let secret_key := _resolve_setting e "AWS_SECRET_ACCESS_KEY" settings None in
  let secure_setting := _resolve_setting e "AWS_S3_SECURE" settings (Some "true"%string) in
  let secure := negb (falsey_word (PyStr.lower (opt_str secure_setting))) in
  let path_setting := PyStr.lower (opt_str (_resolve_setting e "AWS_S3_PATH_STYLE" settings
                                             (Some "false"%string))) in
  let path_style := String.eqb path_setting "1" || String.eqb path_setting "true"
                    || String.eqb path_setting "yes" in
  let required :=
    [("AWS_ACCESS_KEY_ID"%string, access_key); ("AWS_SECRET_ACCESS_KEY"%string, secret_key);
     ("AWS_S3_ENDPOINT"%string, endpoint)]
    ++ (if json_is provider PROVIDER_AWS then [("AWS_REGION"%string, region)] else []) in
  let missing := map fst (filter (fun kv => negb (opt_truthy (snd kv))) required) in
  match missing with
  | _ :: _ => Exit2 missing
  | [] =>
      MinioArgs (opt_str endpoint) (opt_str access_key) (opt_str secret_key) secure
        (if opt_truthy region then region else None)
        (if path_style then "path" else "auto")
  end.

(** [_on_settings_save()]: the status bar text, the settings file and the
    environment afterwards. With every required field it runs
    [_persist_settings()]: [save_s3_settings(_collect_settings())], whose
    errors propagate, then [_apply_env_from_settings]. *)
Definition _on_settings_save (v : settings_vars) (fs : settings_fs) (e : environ)
    : result (string * settings_fs * environ) :=
  let data := _collect_settings v in
  match save_missing v data with
  | _ :: _ as missing =>
      Ok ("Cannot save: missing " ++ String.concat ", " missing, fs, e)%string
  | [] =>
      match save_settings json_dumps fs data with
      | Raise x => Raise x
      | Ok fs' =>
          match _apply_env_from_settings data e with
          | Raise x => Raise x
          | Ok e' => Ok ("Connection settings saved."%string, fs', e')
          end
      end
  end.

(** [LoginFrame._toggle_theme] on [os.environ], [_initial_settings] and
    the settings file. *)
Definition _toggle_theme (e : environ) (initial : dict) (fs : settings_fs)
    : environ * dict * settings_fs :=
  let current :=
    match env_get "UI_DARK" e with
    | Some v => v
    | None => PyRepr.py_str (dict_get_or "UI_DARK" initial (JStr "1"))
    end in
  let current_dark := negb (falsey_word (PyStr.lower current)) in
  let new_dark := negb current_dark in
  let flag := if new_dark then "1"%string else "0"%string in
  let e' := env_set "UI_DARK" flag e in
  let cfg := dict_set "UI_DARK" (JStr flag) (load_settings json_loads (cfg_file fs)) in
  match save_settings json_dumps fs cfg with
  | Ok fs' => (e', cfg, fs')
  | Raise _ => (e', initial, fs)
  end.

End AppSettings.

(** The [current_dark] test of [_toggle_theme]: [UI_DARK] from the
    environment, else from [_initial_settings], defaulting to ["1"]. *)
Definition theme_is_dark (e : environ) (initial : dict) : bool :=
  negb (falsey_word (PyStr.lower
    (match env_get "UI_DARK" e with
     | Some v => v
     | None => PyRepr.py_str (dict_get_or "UI_DARK" initial (JStr "1"))
     end))).

(** ** Deletion helpers and commands of [s3.py] *)

(** An object as [iter_objects] yields it. *)
Record s3obj := mk_obj { object_name : string; version_id : option string }.

(** What [iter_objects] produces: the objects it yields, in order, then
    [None] when the listing ends or [Some (str(e))] when
    [client.list_objects], which lists lazily, raises [S3Error e] while it
    is iterated. *)
Record s3listing := mk_listing { listed : list s3obj; list_error : option string }.

(** How a call ends: it returns a value, or an [S3Error] propagates out of
    it. *)
Inductive s3outcome (A : Type) :=
| S3Returns (a : A)
| S3Raises (e : string).
Arguments S3Returns {A} a.
Arguments S3Raises {A} e.

(** The calls made on the Minio client, in order. *)
Inductive s3call :=
| RemoveObject (name : string) (version : option string)
| RemoveBucket.

(** What a command leaves: the lines printed on stdout and on stderr, the
    [sys.exit] status ([None] when it returns) and the client calls. *)
Record cli_out := mk_out {
  out_stdout : list string;
  out_stderr : list string;
  out_exit : option Z;
  out_calls : list s3call
}.

Section Deletion.

(** [client.remove_object(bucket, name, version_id=v)]: [None] when it
    returns, [Some (str(e))] when it raises [S3Error e]. Other exceptions
    are not modelled. *)
Variable remove_object : string -> option string -> option string.

(** [client.remove_bucket(bucket)], in the same way. *)
Variable remove_bucket : option string.

(** The loop of [empty_bucket] over the objects [iter_objects] yields, with
    [removed], [errors], the calls made and the lines printed on stderr. *)
Fixpoint empty_loop (include_versions : bool) (objs : list s3obj)
    (removed errors : Z) (calls : list s3call) (err : list string)
    : Z * Z * list s3call * list string :=
  match objs with
  | [] => (removed, errors, calls, err)
  | obj :: rest =>
      let version_id := if include_versions then version_id obj else None in
      match remove_object (object_name obj) version_id with
      | None =>
          empty_loop include_versions rest (removed + 1) errors
            (calls ++ [RemoveObject (object_name obj) version_id]) err
      | Some e =>
          empty_loop include_versions rest removed (errors + 1)
            (calls ++ [RemoveObject (object_name obj) version_id])
            (err ++ ["Failed to delete " ++ object_name obj ++ " (version "
                     ++ opt_str version_id ++ "): " ++ e]%string)
      end
  end.

(** [empty_bucket(client, bucket, include_versions)]: how it ends and what
    it printed; [l] is what [iter_objects] produces. An [S3Error] of the
    listing propagates out of the loop, after the removals of the objects
    yielded before it, and the summary line is not printed. *)
Definition empty_bucket (include_versions : bool) (l : s3listing) : s3outcome bool * cli_out :=
  let '(removed, errors, calls, err) := empty_loop include_versions (listed l) 0 0 [] [] in
  match list_error l with
  | Some e => (S3Raises e, mk_out [] err None calls)
  | None =>
      (S3Returns (Z.eqb errors 0),
       mk_out ["Emptied objects: " ++ PyRepr.str_Z removed ++ ", errors: "
               ++ PyRepr.str_Z errors]%string err None calls)
  end.

(** The loop of [cmd_delete_file] with [--all-versions], with [count],
    [errs], the calls made and the lines printed on stderr. *)
Fixpoint versions_loop (key : string) (objs : list s3obj)
    (count errs : Z) (calls : list s3call) (err : list string)
    : Z * Z * list s3call * list string :=
  match objs with
  | [] => (count, errs, calls, err)
  | obj :: rest =>
      if negb (String.eqb (object_name obj) key)
      then versions_loop key rest count errs calls err
      else
        let vid := version_id obj in
        match remove_object key vid with
        | None => versions_loop key rest (count + 1) errs (calls ++ [RemoveObject key vid]) err
        | Some e =>
            versions_loop key rest count (errs + 1) (calls ++ [RemoveObject key vid])
              (err ++ ["Failed to delete version " ++ opt_str vid ++ " of " ++ key
                       ++ ": " ++ e]%string)
        end
  end.

(** [cmd_delete_file(args)] after [get_client()]; [l] is what
    [iter_objects(client, bucket, prefix=key, include_versions=True)]
    produces. An [S3Error] of the listing leaves the loop for the outer
    [except S3Error], which prints it and exits with status 1. *)
Definition cmd_delete_file (all_versions : bool) (key : string) (l : s3listing) : cli_out :=
  if all_versions then
    let '(count, errs, calls, err) := versions_loop key (listed l) 0 0 [] [] in
    match list_error l with
    | Some e => mk_out [] (err ++ ["Delete failed: " ++ e]%string) (Some 1) calls
    | None =>
        mk_out [if Z.eqb count 0 && Z.eqb errs 0
                then "No versions found for key: " ++ key
                else "Deleted " ++ PyRepr.str_Z count ++ " version(s) of " ++ key]%string
               err (if Z.eqb errs 0 then None else Some 1) calls
    end
  else
    match remove_object key None with
    | None => mk_out ["Deleted object: " ++ key]%string [] None [RemoveObject key None]
    | Some e => mk_out [] ["Delete failed: " ++ e]%string (Some 1) [RemoveObject key None]
    end.

(** [cmd_delete_bucket(args)] after [get_client()]: [exists_] is how
    [client.bucket_exists(bucket)] ends, [l] what [iter_objects] produces
    for [empty_bucket]. Every [S3Error] inside the [try] ends in the
    [except S3Error]: "Delete bucket failed" and status 1. *)
Definition cmd_delete_bucket (bucket : string) (exists_ : s3outcome bool)
    (force include_versions : bool) (l : s3listing) : cli_out :=
  let fail out0 err0 calls0 e :=
    mk_out out0 (err0 ++ ["Delete bucket failed: " ++ e]%string) (Some 1) calls0 in
  match exists_ with
  | S3Raises e => fail [] [] [] e
  | S3Returns false => mk_out [] ["Bucket does not exist: " ++ bucket]%string (Some 2) []
  | S3Returns true =>
      let finish out0 err0 calls0 :=
        match remove_bucket with
        | None => mk_out (out0 ++ ["Deleted bucket: " ++ bucket]%string) err0 None
                    (calls0 ++ [RemoveBucket])
        | Some e => fail out0 err0 (calls0 ++ [RemoveBucket]) e
        end in
      if force then
        let '(r, o) := empty_bucket include_versions l in
        match r with
        | S3Raises e => fail (out_stdout o) (out_stderr o) (out_calls o) e
        | S3Returns ok =>
            finish (out_stdout o)
              (out_stderr o ++ (if ok then [] else
                 ["Warning: some objects failed to delete; proceeding to remove bucket may fail."%string]))
              (out_calls o)
        end
      else finish [] [] []
  end.

End Deletion.

(** ** Small helpers of [app.py] *)

(** A character of the class [[a-z0-9-]]. *)
Definition is_bucket_char (c : ascii) : bool :=
  let n := nat_of_ascii c in
  ((97 <=? n) && (n <=? 122))%nat || ((48 <=? n) && (n <=? 57))%nat || (n =? 45)%nat.

(** A character matched by [\d]: the decimal digits of U+0000..U+00FF are
    0..9. *)
Definition is_digit (c : ascii) : bool :=
  let n := nat_of_ascii c in ((48 <=? n) && (n <=? 57))%nat.

(** Python's [$] (without MULTILINE) at position [k]: the end of the
    string, or just before a newline that ends it. *)
Definition dollar_at (l : list ascii) (k : nat) : bool :=
  (k =? length l)%nat || ((S k =? length l)%nat && Ascii.eqb (nth k l "a"%char) "010"%char).

(** [_BUCKET_RE.match(name)] for [^(?!-)[a-z0-9-]{3,63}(?<!-)$]: the
    match succeeds when, for some count [k] in 3..63 of class characters
    from the start (the greedy run backs off until one fits), the first
    character is not [-] (the lookahead), the [k]-th is not [-] (the
    lookbehind), and [$] holds after it. *)
Definition bucket_re_match (s : string) : bool :=
  let l := list_ascii_of_string s in
  existsb (fun k =>
             (k <=? length l)%nat && forallb is_bucket_char (firstn k l)
             && negb (Ascii.eqb (nth 0 l "-"%char) "-"%char)
             && negb (Ascii.eqb (nth (k - 1) l "-"%char) "-"%char)
             && dollar_at l k)
          (seq 3 61).

(** The pieces of a character list between the dots. *)
Fixpoint split_dots (l : list ascii) : list (list ascii) :=
  match l with
  | [] => [[]]
  | c :: r =>
      if Ascii.eqb c "."%char then [] :: split_dots r
      else match split_dots r with
           | p :: ps => (c :: p) :: ps
           | [] => [[c]]
           end
  end.

(** [\d{1,3}(\.\d{1,3}){3}] matching a whole character list. *)
Definition dotted_quad (l : list ascii) : bool :=
  match split_dots l with
  | [a; b; c; d] =>
      forallb (fun p => (1 <=? length p)%nat && (length p <=? 3)%nat && forallb is_digit p)
              [a; b; c; d]
  | _ => false
  end.

(** [re.match(r"^\d{1,3}(\.\d{1,3}){3}$", name)], with [$] as above. *)
Definition ip_re_match (s : string) : bool :=
  let l := list_ascii_of_string s in
  dotted_quad l
  || (match rev l with c :: r => Ascii.eqb c "010"%char && dotted_quad (rev r) | [] => false end).

(** [is_valid_bucket_name(name)] *)
Definition is_valid_bucket_name (name : string) : bool :=
  let n := String.length name in
  if String.eqb name "" || (n <? 3)%nat || (63 <? n)%nat then false
  else if negb (bucket_re_match name) then false
  else if ip_re_match name then false
  else true.

(** Text that may hold any code point, as a list of code points. *)
Definition zstr (s : string) : list Z :=
  map (fun c => Z.of_nat (nat_of_ascii c)) (list_ascii_of_string s).

(** [f"{n:02d}"] of a non-negative integer. *)
Definition pad2 (n : Z) : string :=
  let s := PyRepr.str_Z n in
  if (String.length s <? 2)%nat then String "0" s else s.

(** The argument of [human_eta]: [None], something [float()] refuses, or a
    float (finite, as its rational value, NaN or an infinity). *)
Inductive eta_arg :=
| EtaNone
| EtaNotNumber
| EtaFinite (q : Q)
| EtaNaN
| EtaInf (positive : bool).

(** [human_eta(seconds_or_none)]: U+2014 for a missing value; [nan <= 0] is
    false and [math.ceil(nan)] raises [ValueError], [math.ceil(inf)]
    raises [OverflowError]. *)
Definition human_eta (x : eta_arg) : result (list Z) :=
  match x with
  | EtaNone | EtaNotNumber => Ok [8212]
  | EtaNaN => Raise ValueError
  | EtaInf false => Ok (zstr "00:00:00")
  | EtaInf true => Raise OverflowError
  | EtaFinite val =>
      if Qle_bool val 0 then Ok (zstr "00:00:00")
      else
        let s := Qceiling val in
        Ok (zstr (pad2 (s / 3600) ++ ":" ++ pad2 ((s mod 3600) / 60) ++ ":" ++ pad2 (s mod 60)))
  end.

(** A slice bound [i] of a sequence of length [len], as Python normalises
    it. *)
Definition py_slice_index (len i : Z) : Z :=
  if i <? 0 then Z.max 0 (len + i) else Z.min i len.

(** [text[:i]] *)
Definition py_slice_to {A} (l : list A) (i : Z) : list A :=
  firstn (Z.to_nat (py_slice_index (Z.of_nat (length l)) i)) l.

(** [text[i:]] *)
Definition py_slice_from {A} (l : list A) (i : Z) : list A :=
  skipn (Z.to_nat (py_slice_index (Z.of_nat (length l)) i)) l.

(** U+2026 HORIZONTAL ELLIPSIS *)
Definition ELLIPSIS : Z := 8230.

(** [_truncate_middle(text, max_len)] on the code points of [text]. *)
Definition _truncate_middle (text : list Z) (max_len : Z) : list Z :=
  match text with
  | [] => []
  | _ =>
      if Z.of_nat (length text) <=? max_len then text
      else
        let keep := max_len - 1 in
        let left := keep / 2 in
        let right := keep - left in
        py_slice_to text left ++ [ELLIPSIS] ++ py_slice_from text (- right)
  end.

(** ** The Start Upload button *)

(** The upload form: the three Tk variables, the global [_upload_busy] and
    whether Start Upload and Cancel are enabled. *)
Record upload_ui := mk_ui {
  ui_bucket : string;
  ui_file : string;
  ui_key : string;
  ui_busy : bool;
  ui_start_enabled : bool;
  ui_cancel_enabled : bool
}.

Definition set_start (b : bool) (u : upload_ui) : upload_ui :=
  mk_ui (ui_bucket u) (ui_file u) (ui_key u) (ui_busy u) b (ui_cancel_enabled u).

Definition set_cancel (b : bool) (u : upload_ui) : upload_ui :=
  mk_ui (ui_bucket u) (ui_file u) (ui_key u) (ui_busy u) (ui_start_enabled u) b.

Definition set_busy (b : bool) (u : upload_ui) : upload_ui :=
  mk_ui (ui_bucket u) (ui_file u) (ui_key u) b (ui_start_enabled u) (ui_cancel_enabled u).

(** [_refresh_upload_button()]: Start Upload is enabled exactly when the
    three fields are non-blank and no upload is marked busy. *)
Definition _refresh_upload_button (u : upload_ui) : upload_ui :=
  let ok := negb (String.eqb (PyStr.strip (ui_bucket u)) "")
            && negb (String.eqb (PyStr.strip (ui_file u)) "")
            && negb (String.eqb (PyStr.strip (ui_key u)) "") in
  set_start (if ui_busy u then false else ok) u.

(** [_maybe_enable_upload()], run by [_on_upload_field_change]. *)
Definition _maybe_enable_upload (u : upload_ui) : upload_ui :=
  set_start (negb (String.eqb (PyStr.strip (ui_bucket u)) "")
             && negb (String.eqb (PyStr.strip (ui_file u)) "")) u.

(** Where [upload_start()] stops. *)
Inductive upload_start_end :=
| BadBucket | FileNotFound | NoCredentials | StatFailed | WorkerStarted.

(** [upload_start()] up to the start of the worker thread: [isfile] is
    [os.path.isfile], [creds_ok] what [_require_saved_credentials] returns
    and [stat_ok] whether [os.stat(path)] succeeds. *)
Definition upload_start (isfile : string -> bool) (creds_ok stat_ok : bool) (u : upload_ui)
    : upload_ui * upload_start_end :=
  let bucket := PyStr.strip (PyStr.lower (ui_bucket u)) in
  let path := PyStr.strip (ui_file u) in
  let u := set_busy true u in
  if negb (is_valid_bucket_name bucket) then (u, BadBucket)
  else if negb (isfile path) then (u, FileNotFound)
  else if negb creds_ok then (u, NoCredentials)
  else
    let u := set_cancel true (set_start false u) in
    if negb stat_ok then (set_cancel false (set_start true u), StatFailed)
    else (u, WorkerStarted).

(** [upload_cancel()] *)
Definition upload_cancel (u : upload_ui) : upload_ui :=
  _refresh_upload_button (set_busy false u).

(** [_rearm(start_btn, cancel_btn)], as it acts on the upload form: the
    download worker calls it with the download buttons ([upload = false]). *)
Definition _rearm (upload : bool) (u : upload_ui) : upload_ui :=
  let u := set_busy false u in
  let u := if upload then set_cancel false (set_start true u) else u in
  _refresh_upload_button u.

(** * Properties of the credential store *)
Module StoreFacts.

Section Hashing.

Variable kdf : list byte -> list byte -> Z -> list byte.
Variable enc : list byte -> string.
Variable dec : string -> option (list byte).

(** [base64.b64decode] inverts [base64.b64encode]. *)
Hypothesis b64_roundtrip : forall b, dec (enc b) = Some b.

Lemma enc_inj : forall a b, enc a = enc b -> a = b.
Proof.
  intros a b H. apply (f_equal dec) in H.
  rewrite !b64_roundtrip in H. now injection H.
Qed.

Lemma hash_password_none : forall fresh p,
  _hash_password kdf enc dec fresh p SaltNone PBKDF2_ITERATIONS
  = Ok (enc (kdf (PyStr.encode_utf8 p) fresh PBKDF2_ITERATIONS), enc fresh,
        PBKDF2_ITERATIONS).
Proof. reflexivity. Qed.

Lemma hash_password_text : forall fresh p salt s it,
  dec salt = Some s -> 1 <= it <= INT_MAX ->
  _hash_password kdf enc dec fresh p (SaltText salt) it
  = Ok (enc (kdf (PyStr.encode_utf8 p) s it), enc s, it).
Proof.
  intros fresh p salt s it Hs Hit. unfold _hash_password. rewrite Hs.
  destruct (it <? 1) eqn:E1; [apply Z.ltb_lt in E1; lia|].
  destruct (INT_MAX <? it) eqn:E2; [apply Z.ltb_lt in E2; lia|].
  reflexivity.
Qed.

(** A successful [create_user] appended one row under the next rowid. *)
Lemma create_user_ok : forall fresh now u p d d',
  create_user kdf enc dec fresh now u p d = (Ok tt, d') ->
  db_open d = true /\ db_writable d = true
  /\ existsb (fun r => String.eqb (row_username r) (normalize u)) (db_rows d) = false
  /\ d' = mk_db (db_open d) (db_writable d)
            (db_rows d ++ [mk_row (next_rowid d) (normalize u)
                             (enc (kdf (PyStr.encode_utf8 p) fresh PBKDF2_ITERATIONS))
                             (enc fresh) PBKDF2_ITERATIONS now now None])
            (next_rowid d).
Proof.
  intros fresh now u p d d' H.
  unfold create_user in H. rewrite hash_password_none in H.
  cbv [bind lift _ensure_db get_db ret raise sql_insert_user put_db] in H.
  destruct (db_open d) eqn:Eo; [|discriminate H].
  destruct (db_writable d) eqn:Ew; [|discriminate H].
  simpl in H.
  destruct (existsb _ (db_rows d)) eqn:Ex; [discriminate H|].
  injection H as <-. rewrite Eo. repeat split; reflexivity.
Qed.

Lemma select_app_fresh : forall n rows r,
  existsb (fun r' => String.eqb (row_username r') n) rows = false ->
  row_username r = n ->
  select_by_username n (rows ++ [r]) = Some r.
Proof.
  intros n rows r Hx Hr. induction rows as [|r0 rows IH]; simpl in *.
  - now rewrite Hr, String.eqb_refl.
  - apply orb_false_iff in Hx as [H0 H1]. rewrite H0. now apply IH.
Qed.

(** [verify_user] on a stored row: the hash is recomputed with the row's
    salt and iteration count and compared with the stored hash. *)
Lemma verify_user_row : forall now u p d r s,
  db_open d = true -> db_writable d = true ->
  select_by_username (normalize u) (db_rows d) = Some r ->
  dec (row_salt r) = Some s -> 1 <= row_iterations r <= INT_MAX ->
  fst (verify_user kdf enc dec now u p d)
  = Ok (if compare_digest (enc (kdf (PyStr.encode_utf8 p) s (row_iterations r)))
                          (row_password_hash r)
        then Some (row_id r) else None).
Proof.
  intros now u p d r s Ho Hw Hsel Hs Hit.
  unfold verify_user.
  cbv [bind lift _ensure_db get_db ret raise].
  rewrite Ho, Hsel. rewrite (hash_password_text [] p _ s _ Hs Hit).
  destruct (compare_digest _ _); simpl; [|reflexivity].
  cbv [sql_touch_login bind get_db put_db ret raise]. now rewrite Hw.
Qed.

(** On a mismatch the database is left as it was. *)
Lemma verify_user_mismatch : forall now u p d r s,
  db_open d = true ->
  select_by_username (normalize u) (db_rows d) = Some r ->
  dec (row_salt r) = Some s -> 1 <= row_iterations r <= INT_MAX ->
  compare_digest (enc (kdf (PyStr.encode_utf8 p) s (row_iterations r)))
                 (row_password_hash r) = false ->
  verify_user kdf enc dec now u p d = (Ok None, d).
Proof.
  intros now u p d r s Ho Hsel Hs Hit Hc.
  unfold verify_user.
  cbv [bind lift _ensure_db get_db ret raise].
  rewrite Ho, Hsel. rewrite (hash_password_text [] p _ s _ Hs Hit).
  now rewrite Hc.
Qed.

End Hashing.

End StoreFacts.

(** ** [str.encode("utf-8")] is injective *)
Module Utf8Facts.

(** Decoding of the first character of a UTF-8 encoded byte list. *)
Definition decode_first (l : list byte) : option (ascii * list byte) :=
  match l with
  | [] => None
  | b :: r =>
      let n := Strings.Byte.to_nat b in
      if (n <? 128)%nat then Some (ascii_of_nat n, r)
      else match r with
           | b2 :: r' =>
               Some (ascii_of_nat ((n - 192) * 64 + (Strings.Byte.to_nat b2 - 128)), r')
           | [] => None
           end
  end.

Lemma decode_first_utf8_char : forall c r,
  decode_first (PyStr.utf8_char c ++ r) = Some (c, r).
Proof.
  intros c r. destruct c as [[] [] [] [] [] [] [] []]; reflexivity.
Qed.

Lemma utf8_list_inj : forall l1 l2,
  flat_map PyStr.utf8_char l1 = flat_map PyStr.utf8_char l2 -> l1 = l2.
Proof.
  induction l1 as [|c1 l1 IH]; intros [|c2 l2] H; simpl in H.
  - reflexivity.
  - apply (f_equal decode_first) in H.
    rewrite decode_first_utf8_char in H. discriminate H.
  - apply (f_equal decode_first) in H.
    rewrite decode_first_utf8_char in H. discriminate H.
  - apply (f_equal decode_first) in H.
    rewrite !decode_first_utf8_char in H. injection H as -> Hr.
    now rewrite (IH l2 Hr).
Qed.

Lemma encode_utf8_inj : forall s1 s2,
  PyStr.encode_utf8 s1 = PyStr.encode_utf8 s2 -> s1 = s2.
Proof.
  intros s1 s2 H. apply utf8_list_inj in H.
  rewrite <- (string_of_list_ascii_of_string s1), <- (string_of_list_ascii_of_string s2).
  now rewrite H.
Qed.

End Utf8Facts.

(** ** Concrete primitives for the witnesses: a byte-per-character text
    encoding and a digest that keeps the password bytes. *)
Module Sample.

Definition enc (b : list byte) : string :=
  string_of_list_ascii (map ascii_of_byte b).

Definition dec (s : string) : option (list byte) :=
  Some (map byte_of_ascii (list_ascii_of_string s)).

Definition kdf (password salt : list byte) (iterations : Z) : list byte :=
  password ++ salt.

Lemma dec_enc : forall b, dec (enc b) = Some b.
Proof.
  intros b. unfold dec, enc. rewrite list_ascii_of_string_of_list_ascii, map_map.
  f_equal. induction b as [|x b IH]; simpl; [reflexivity|].
  now rewrite byte_of_ascii_of_byte, IH.
Qed.

Lemma kdf_password_inj : forall p q s n,
  kdf (PyStr.encode_utf8 p) s n = kdf (PyStr.encode_utf8 q) s n -> p = q.
Proof.
  intros p q s n H. apply app_inv_tail in H. now apply Utf8Facts.encode_utf8_inj.
Qed.

Definition empty_db : db := mk_db true true [] 0.
Definition salt1 : list byte := [x01; x02; x03; x04].
Definition salt2 : list byte := [x05; x06; x07; x08].

End Sample.

(** * Claims about the credential store *)

(** C1: whenever [create_user(u, p)] succeeds, [verify_user(u, p)] returns
    the id of the new row, and [verify_user(u, q)] returns [None] for every
    password [q <> p], PBKDF2 being collision-free on passwords. *)
Theorem create_user_verify_round_trip :
  forall (kdf : list byte -> list byte -> Z -> list byte)
         (enc : list byte -> string) (dec : string -> option (list byte)),
  (forall b, dec (enc b) = Some b) ->
  (forall p q s n, kdf (PyStr.encode_utf8 p) s n = kdf (PyStr.encode_utf8 q) s n -> p = q) ->
  forall fresh now now' u p d d',
  create_user kdf enc dec fresh now u p d = (Ok tt, d') ->
  fst (verify_user kdf enc dec now' u p d') = Ok (Some (next_rowid d))
  /\ (forall q, q <> p -> verify_user kdf enc dec now' u q d' = (Ok None, d')).
Proof.
  intros kdf enc dec Hrt Hinj fresh now now' u p d d' Hc.
  destruct (StoreFacts.create_user_ok kdf enc dec fresh now u p d d' Hc)
    as (Ho & Hw & Hx & ->).
  set (r := mk_row (next_rowid d) (normalize u)
              (enc (kdf (PyStr.encode_utf8 p) fresh PBKDF2_ITERATIONS))
              (enc fresh) PBKDF2_ITERATIONS now now None).
  assert (Hsel : select_by_username (normalize u) (db_rows d ++ [r]) = Some r)
    by (apply StoreFacts.select_app_fresh; auto).
  assert (Hit : 1 <= PBKDF2_ITERATIONS <= INT_MAX) by (unfold PBKDF2_ITERATIONS, INT_MAX; lia).
  split.
  - rewrite (StoreFacts.verify_user_row kdf enc dec now' u p
               (mk_db (db_open d) (db_writable d) (db_rows d ++ [r]) (next_rowid d))
               r fresh Ho Hw Hsel (Hrt fresh) Hit).
    simpl. unfold compare_digest. now rewrite String.eqb_refl.
  - intros q Hq.
    apply (StoreFacts.verify_user_mismatch kdf enc dec now' u q
             (mk_db (db_open d) (db_writable d) (db_rows d ++ [r]) (next_rowid d))
             r fresh Ho Hsel (Hrt fresh) Hit).
    unfold compare_digest. simpl row_password_hash; simpl row_iterations.
    destruct (String.eqb_spec (enc (kdf (PyStr.encode_utf8 q) fresh PBKDF2_ITERATIONS))
                (enc (kdf (PyStr.encode_utf8 p) fresh PBKDF2_ITERATIONS))) as [E|E].
    + apply (StoreFacts.enc_inj enc dec Hrt) in E. apply Hinj in E. contradiction.
    + reflexivity.
Qed.

Lemma create_user_verify_round_trip_witness :
  (forall b, Sample.dec (Sample.enc b) = Some b)
  /\ (forall p q s n, Sample.kdf (PyStr.encode_utf8 p) s n
                      = Sample.kdf (PyStr.encode_utf8 q) s n -> p = q)
  /\ create_user Sample.kdf Sample.enc Sample.dec Sample.salt1 "t0" "Alice " "password1" Sample.empty_db
     = (Ok tt, snd (create_user Sample.kdf Sample.enc Sample.dec Sample.salt1 "t0" "Alice " "password1" Sample.empty_db))
  /\ fst (verify_user Sample.kdf Sample.enc Sample.dec "t1" "Alice " "password1"
            (snd (create_user Sample.kdf Sample.enc Sample.dec Sample.salt1 "t0" "Alice " "password1" Sample.empty_db)))
     = Ok (Some (next_rowid Sample.empty_db)).
Proof.
  split; [exact Sample.dec_enc|]. split; [exact Sample.kdf_password_inj|].
  assert (Hc : create_user Sample.kdf Sample.enc Sample.dec Sample.salt1 "t0" "Alice " "password1" Sample.empty_db
     = (Ok tt, snd (create_user Sample.kdf Sample.enc Sample.dec Sample.salt1 "t0" "Alice " "password1" Sample.empty_db)))
    by reflexivity.
  split; [exact Hc|].
  exact (proj1 (create_user_verify_round_trip Sample.kdf Sample.enc Sample.dec
                  Sample.dec_enc Sample.kdf_password_inj _ _ "t1" _ _ _ _ Hc)).
Defined.

(** C2: [verify_user] recomputes the hash with the salt and iteration count
    stored in the user's row (never [PBKDF2_ITERATIONS]) and compares it with
    the stored hash by [secrets.compare_digest]; a row written at any
    iteration count verifies with its own password. *)
Theorem verify_user_uses_stored_salt_and_iterations :
  forall (kdf : list byte -> list byte -> Z -> list byte)
         (enc : list byte -> string) (dec : string -> option (list byte)),
  (forall b, dec (enc b) = Some b) ->
  forall now u p d r s,
  db_open d = true -> db_writable d = true ->
  select_by_username (normalize u) (db_rows d) = Some r ->
  row_salt r = enc s -> 1 <= row_iterations r <= INT_MAX ->
  fst (verify_user kdf enc dec now u p d)
  = Ok (if compare_digest (enc (kdf (PyStr.encode_utf8 p) s (row_iterations r)))
                          (row_password_hash r)
        then Some (row_id r) else None)
  /\ (row_password_hash r = enc (kdf (PyStr.encode_utf8 p) s (row_iterations r)) ->
      fst (verify_user kdf enc dec now u p d) = Ok (Some (row_id r))).
Proof.
  intros kdf enc dec Hrt now u p d r s Ho Hw Hsel Hs Hit.
  assert (Hd : dec (row_salt r) = Some s) by (rewrite Hs; apply Hrt).
  pose proof (StoreFacts.verify_user_row kdf enc dec now u p d r s Ho Hw Hsel Hd Hit) as V.
  split; [exact V|].
  intros Hh. rewrite V, Hh. unfold compare_digest. now rewrite String.eqb_refl.
Qed.

(** A store holding one user created when the default cost was 100000. *)
Definition legacy_row : user_row :=
  mk_row 7 "carol" (Sample.enc (Sample.kdf (PyStr.encode_utf8 "password1") Sample.salt1 100000))
    (Sample.enc Sample.salt1) 100000 "2020-01-01 00:00:00" "2020-01-01 00:00:00" None.

Definition legacy_db : db := mk_db true true [legacy_row] 7.

Lemma verify_user_uses_stored_salt_and_iterations_witness :
  db_open legacy_db = true /\ db_writable legacy_db = true
  /\ select_by_username (normalize " Carol") (db_rows legacy_db) = Some legacy_row
  /\ row_salt legacy_row = Sample.enc Sample.salt1
  /\ 1 <= row_iterations legacy_row <= INT_MAX
  /\ fst (verify_user Sample.kdf Sample.enc Sample.dec "t" " Carol" "password1" legacy_db)
     = Ok (Some 7).
Proof.
  assert (Ho : db_open legacy_db = true) by reflexivity.
  assert (Hw : db_writable legacy_db = true) by reflexivity.
  assert (Hsel : select_by_username (normalize " Carol") (db_rows legacy_db) = Some legacy_row)
    by reflexivity.
  assert (Hs : row_salt legacy_row = Sample.enc Sample.salt1) by reflexivity.
  assert (Hit : 1 <= row_iterations legacy_row <= INT_MAX)
    by (unfold INT_MAX; simpl; lia).
  do 5 (split; [assumption|]).
  exact (proj2 (verify_user_uses_stored_salt_and_iterations Sample.kdf Sample.enc Sample.dec
                  Sample.dec_enc "t" " Carol" "password1" legacy_db legacy_row Sample.salt1
                  Ho Hw Hsel Hs Hit) eq_refl).
Defined.

(** C3: after [create_user(u1, p1)] succeeds, [create_user(u2, p2)] with a
    username of the same normalization fails with the UNIQUE-constraint
    error ([sqlite3.IntegrityError]) and leaves the store unchanged;
    [create_user] makes no pre-check of its own: the refusal comes from the
    [INSERT] itself, which refuses any row whose username is taken. *)
Theorem create_user_duplicate_rejected :
  forall (kdf : list byte -> list byte -> Z -> list byte)
         (enc : list byte -> string) (dec : string -> option (list byte))
         fresh1 fresh2 now1 now2 u1 p1 u2 p2 d d',
  normalize u1 = normalize u2 ->
  create_user kdf enc dec fresh1 now1 u1 p1 d = (Ok tt, d') ->
  create_user kdf enc dec fresh2 now2 u2 p2 d' = (Raise IntegrityError, d')
  /\ (forall d0 n ph sa it c up,
        db_writable d0 = true ->
        existsb (fun r => String.eqb (row_username r) n) (db_rows d0) = true ->
        sql_insert_user n ph sa it c up d0 = (Raise IntegrityError, d0)).
Proof.
  intros kdf enc dec fresh1 fresh2 now1 now2 u1 p1 u2 p2 d d' Hn Hc.
  assert (Hins : forall d0 n ph sa it c up,
        db_writable d0 = true ->
        existsb (fun r => String.eqb (row_username r) n) (db_rows d0) = true ->
        sql_insert_user n ph sa it c up d0 = (Raise IntegrityError, d0)).
  { intros d0 n ph sa it c up Hw Hx.
    cbv [sql_insert_user bind get_db raise]. now rewrite Hw, Hx. }
  split; [|exact Hins].
  destruct (StoreFacts.create_user_ok kdf enc dec fresh1 now1 u1 p1 d d' Hc)
    as (Ho & Hw & _ & Hd').
  unfold create_user. rewrite StoreFacts.hash_password_none.
  cbv [bind lift _ensure_db get_db ret raise].
  assert (Ho' : db_open d' = true) by (rewrite Hd'; exact Ho).
  rewrite Ho'.
  rewrite Hins; [reflexivity| rewrite Hd'; exact Hw |].
  rewrite Hd'. simpl. rewrite existsb_app. simpl.
  rewrite Hn, String.eqb_refl. apply orb_true_r.
Qed.

Lemma create_user_duplicate_rejected_witness :
  normalize "Alice " = normalize " ALICE"
  /\ create_user Sample.kdf Sample.enc Sample.dec Sample.salt1 "t0" "Alice " "password1" Sample.empty_db
     = (Ok tt, snd (create_user Sample.kdf Sample.enc Sample.dec Sample.salt1 "t0" "Alice " "password1" Sample.empty_db))
  /\ create_user Sample.kdf Sample.enc Sample.dec Sample.salt2 "t1" " ALICE" "password2"
       (snd (create_user Sample.kdf Sample.enc Sample.dec Sample.salt1 "t0" "Alice " "password1" Sample.empty_db))
     = (Raise IntegrityError,
        snd (create_user Sample.kdf Sample.enc Sample.dec Sample.salt1 "t0" "Alice " "password1" Sample.empty_db)).
Proof.
  assert (Hn : normalize "Alice " = normalize " ALICE") by reflexivity.
  assert (Hc : create_user Sample.kdf Sample.enc Sample.dec Sample.salt1 "t0" "Alice " "password1" Sample.empty_db
     = (Ok tt, snd (create_user Sample.kdf Sample.enc Sample.dec Sample.salt1 "t0" "Alice " "password1" Sample.empty_db)))
    by reflexivity.
  split; [exact Hn|]. split; [exact Hc|].
  exact (proj1 (create_user_duplicate_rejected Sample.kdf Sample.enc Sample.dec
                  Sample.salt1 Sample.salt2 "t0" "t1" "Alice " "password1" " ALICE" "password2"
                  _ _ Hn Hc)).
Defined.

(** * Store failures during [_submit] *)
Module SubmitFacts.

Section Prims.

Variable kdf : list byte -> list byte -> Z -> list byte.
Variable enc : list byte -> string.
Variable dec : string -> option (list byte).

Lemma verify_user_closed : forall now u p d,
  db_open d = false -> verify_user kdf enc dec now u p d = (Raise OperationalError, d).
Proof.
  intros now u p d Ho. unfold verify_user.
  cbv [bind lift _ensure_db get_db ret raise]. now rewrite Ho.
Qed.

Lemma get_user_closed : forall u d,
  db_open d = false -> get_user u d = (Raise OperationalError, d).
Proof.
  intros u d Ho. unfold get_user.
  cbv [bind lift _ensure_db get_db ret raise]. now rewrite Ho.
Qed.

(** [get_user] only reads. *)
Lemma get_user_pure : forall u d, snd (get_user u d) = d.
Proof.
  intros u d. unfold get_user.
  cbv [bind lift _ensure_db get_db ret raise]. now destruct (db_open d).
Qed.

(** On a read-only database [verify_user] never reports a match: the
    [UPDATE] of [last_login] raises first. *)
Lemma verify_user_readonly : forall now u p d x,
  db_writable d = false -> fst (verify_user kdf enc dec now u p d) <> Ok (Some x).
Proof.
  intros now u p d x Hw. unfold verify_user.
  cbv [bind lift _ensure_db get_db ret raise].
  destruct (db_open d); [|discriminate].
  destruct (select_by_username _ _) as [r|]; [|discriminate].
  destruct (_hash_password _ _ _ _ _ _ _) as [[[computed s] it]|e]; [|discriminate].
  destruct (negb _); [discriminate|].
  cbv [sql_touch_login bind get_db put_db ret raise]. rewrite Hw. discriminate.
Qed.

Lemma create_user_readonly : forall fresh now u p d,
  db_writable d = false ->
  fst (create_user kdf enc dec fresh now u p d) = Raise OperationalError.
Proof.
  intros fresh now u p d Hw. unfold create_user.
  rewrite StoreFacts.hash_password_none.
  cbv [bind lift _ensure_db get_db ret raise sql_insert_user put_db].
  destruct (db_open d); [|reflexivity]. now rewrite Hw.
Qed.

(** The failed [UPDATE] and [INSERT] of a read-only database leave it as
    it was. *)
Lemma verify_user_readonly_state : forall now u p d,
  db_writable d = false -> snd (verify_user kdf enc dec now u p d) = d.
Proof.
  intros now u p d Hw. unfold verify_user.
  cbv [bind lift _ensure_db get_db ret raise].
  destruct (db_open d); [|reflexivity].
  destruct (select_by_username _ _) as [r|]; [|reflexivity].
  destruct (_hash_password _ _ _ _ _ _ _) as [[[computed s] it]|e]; [|reflexivity].
  destruct (negb _); [reflexivity|].
  cbv [sql_touch_login bind get_db put_db ret raise]. rewrite Hw. reflexivity.
Qed.

Lemma create_user_readonly_state : forall fresh now u p d,
  db_writable d = false -> snd (create_user kdf enc dec fresh now u p d) = d.
Proof.
  intros fresh now u p d Hw. unfold create_user.
  rewrite StoreFacts.hash_password_none.
  cbv [bind lift _ensure_db get_db ret raise sql_insert_user put_db].
  destruct (db_open d); [|reflexivity]. now rewrite Hw.
Qed.
End Prims.

End SubmitFacts.

Definition closed_db : db := mk_db false false [] 0.
Definition readonly_db : db := mk_db true false [] 0.

(** The messages [_submit] can set before it calls the store. *)
Definition local_messages : list string :=
  ["Enter both username and password."%string; "Username must be at least 3 characters."%string;
   "Use letters, numbers, and underscores only."%string; "Password must be at least 8 characters."%string;
   "Passwords do not match."%string].

(** The messages [_submit] can set when the store is read-only: the local
    ones and the two answers of a store that could be read. *)
Definition readonly_messages : list string :=
  local_messages ++ ["Invalid username or password."%string;
                     "Username already exists. Choose another."%string].

(** C4 (counterexample): a store that cannot be opened makes [_submit]
    raise out of the handler on a login, and a read-only store makes it
    raise on a registration; no message is set in either case. *)
Lemma submit_store_error_uncaught :
  fst (_submit Sample.kdf Sample.enc Sample.dec Sample.salt1 "t"
         (mk_form Login "alice" "password1" "") closed_db) = Raise OperationalError
  /\ fst (_submit Sample.kdf Sample.enc Sample.dec Sample.salt1 "t"
            (mk_form Register "alice" "password1" "password1") readonly_db) = Raise OperationalError
  /\ (forall m, fst (_submit Sample.kdf Sample.enc Sample.dec Sample.salt1 "t"
                   (mk_form Login "alice" "password1" "") closed_db) <> Ok (Message m)).
Proof.
  split; [reflexivity|]. split; [reflexivity|].
  intros m. vm_compute. discriminate.
Qed.

(** C4 (as amended): [_submit] has no handler around the store calls. In
    login mode an exception of [verify_user], and in register mode one of
    [get_user] or [create_user], comes out of [_submit] as it is, with the
    store the call left. With a store that cannot be opened [_submit]
    either stops at a local check with one of the local messages or raises
    [OperationalError], the store untouched. With a read-only store it
    never authenticates, leaves the store as it was, and either raises or
    sets a local message or one of the two answers of a readable store
    ("Invalid username or password.", "Username already exists."): the
    failed write is never turned into a message. *)
Theorem submit_store_error_propagates :
  forall (kdf : list byte -> list byte -> Z -> list byte)
         (enc : list byte -> string) (dec : string -> option (list byte))
         fresh now f d,
  let username := PyStr.lower (PyStr.strip (username_var f)) in
  let password := password_var f in
  (form_mode f = Login -> String.eqb username "" = false -> String.eqb password "" = false ->
     forall e d', verify_user kdf enc dec now username password d = (Raise e, d') ->
     _submit kdf enc dec fresh now f d = (Raise e, d'))
  /\ (form_mode f = Register -> (PyStr.len username <? 3) = false ->
      PyStr.isalnum (PyStr.remove_underscores username) = true ->
      (PyStr.len password <? 8) = false -> String.eqb password (confirm_var f) = true ->
      (forall e d', get_user username d = (Raise e, d') ->
         _submit kdf enc dec fresh now f d = (Raise e, d'))
      /\ (forall d' e d'', get_user username d = (Ok None, d') ->
          create_user kdf enc dec fresh now username password d' = (Raise e, d'') ->
          _submit kdf enc dec fresh now f d = (Raise e, d'')))
  /\ (db_open d = false ->
     snd (_submit kdf enc dec fresh now f d) = d
     /\ (fst (_submit kdf enc dec fresh now f d) = Raise OperationalError
         \/ exists m, fst (_submit kdf enc dec fresh now f d) = Ok (Message m)
                      /\ In m local_messages))
  /\ (db_writable d = false ->
      snd (_submit kdf enc dec fresh now f d) = d
      /\ (forall uid u, fst (_submit kdf enc dec fresh now f d) <> Ok (Authenticated uid u))
      /\ ((exists e, fst (_submit kdf enc dec fresh now f d) = Raise e)
          \/ exists m, fst (_submit kdf enc dec fresh now f d) = Ok (Message m)
                       /\ In m readonly_messages)).
Proof.
  intros kdf enc dec fresh now f d username password.
  split; [|split; [|split]].
  - intros Hm Hu Hp e d' Hv. unfold _submit. cbv zeta. fold username password.
    rewrite Hm, Hu, Hp. cbn [orb]. cbv [bind]. now rewrite Hv.
  - intros Hm H1 H2 H3 H4. unfold _submit. cbv zeta. fold username password.
    rewrite Hm, H1, H2, H3, H4. cbn [negb]. split.
    + intros e d' Hg. cbv [bind]. now rewrite Hg.
    + intros d' e d'' Hg Hc. cbv [bind]. rewrite Hg. now rewrite Hc.
  - intros Ho. unfold _submit. cbv zeta.
    destruct (form_mode f).
    + destruct (_ || _).
      * cbv [ret]. simpl. split; [reflexivity|]. right. eexists. split; [reflexivity|].
        simpl; tauto.
      * cbv [bind]. rewrite SubmitFacts.verify_user_closed by exact Ho.
        simpl. split; [reflexivity|]. left; reflexivity.
    + destruct (PyStr.len _ <? 3).
      { cbv [ret]. simpl. split; [reflexivity|]. right. eexists. split; [reflexivity|]. simpl; tauto. }
      destruct (negb _).
      { cbv [ret]. simpl. split; [reflexivity|]. right. eexists. split; [reflexivity|]. simpl; tauto. }
      destruct (PyStr.len _ <? 8).
      { cbv [ret]. simpl. split; [reflexivity|]. right. eexists. split; [reflexivity|]. simpl; tauto. }
      destruct (negb _).
      { cbv [ret]. simpl. split; [reflexivity|]. right. eexists. split; [reflexivity|]. simpl; tauto. }
      cbv [bind]. rewrite SubmitFacts.get_user_closed by exact Ho.
      simpl. split; [reflexivity|]. left; reflexivity.
  - intros Hw. unfold _submit. cbv zeta. fold username password.
    assert (Hloc : forall m, In m local_messages -> In m readonly_messages)
      by (intros m Hm; apply in_or_app; left; exact Hm).
    destruct (form_mode f).
    + destruct (_ || _).
      { cbv [ret]. simpl. split; [reflexivity|]. split; [discriminate|].
        right. eexists. split; [reflexivity|]. apply Hloc. simpl; tauto. }
      cbv [bind].
      pose proof (SubmitFacts.verify_user_readonly kdf enc dec now username password d) as V.
      pose proof (SubmitFacts.verify_user_readonly_state kdf enc dec now username password d Hw) as S.
      destruct (verify_user _ _ _ _ _ _ d) as [[[x|]|e] d'] eqn:E; simpl in V, S |- *; subst d'.
      * exfalso. exact (V x Hw eq_refl).
      * split; [reflexivity|]. split; [discriminate|].
        right. eexists. split; [reflexivity|]. unfold readonly_messages. simpl; tauto.
      * split; [reflexivity|]. split; [discriminate|]. left. eexists; reflexivity.
    + destruct (PyStr.len _ <? 3).
      { cbv [ret]. simpl. split; [reflexivity|]. split; [discriminate|].
        right. eexists. split; [reflexivity|]. apply Hloc. simpl; tauto. }
      destruct (negb _).
      { cbv [ret]. simpl. split; [reflexivity|]. split; [discriminate|].
        right. eexists. split; [reflexivity|]. apply Hloc. simpl; tauto. }
      destruct (PyStr.len _ <? 8).
      { cbv [ret]. simpl. split; [reflexivity|]. split; [discriminate|].
        right. eexists. split; [reflexivity|]. apply Hloc. simpl; tauto. }
      destruct (negb _).
      { cbv [ret]. simpl. split; [reflexivity|]. split; [discriminate|].
        right. eexists. split; [reflexivity|]. apply Hloc. simpl; tauto. }
      cbv [bind].
      pose proof (SubmitFacts.get_user_pure username d) as P.
      destruct (get_user _ d) as [[[r|]|e] d'] eqn:E; simpl in P; subst d'.
      * cbv [ret]. split; [reflexivity|]. split; [discriminate|].
        right. eexists. split; [reflexivity|]. unfold readonly_messages. simpl; tauto.
      * pose proof (SubmitFacts.create_user_readonly kdf enc dec fresh now username password d Hw) as C.
        pose proof (SubmitFacts.create_user_readonly_state kdf enc dec fresh now username password d Hw) as CS.
        destruct (create_user _ _ _ _ _ _ _ d) as [[]] eqn:E2; simpl in C, CS; [discriminate|].
        subst d0. split; [reflexivity|]. split; [discriminate|]. left. eexists; reflexivity.
      * split; [reflexivity|]. split; [discriminate|]. left. eexists; reflexivity.
Qed.

Lemma submit_store_error_propagates_witness :
  _submit Sample.kdf Sample.enc Sample.dec Sample.salt1 "t"
    (mk_form Login "alice" "password1" "") closed_db = (Raise OperationalError, closed_db)
  /\ _submit Sample.kdf Sample.enc Sample.dec Sample.salt1 "t"
       (mk_form Register "alice" "password1" "password1") readonly_db
     = (Raise OperationalError, readonly_db)
  /\ (forall uid u, fst (_submit Sample.kdf Sample.enc Sample.dec Sample.salt1 "t"
         (mk_form Register "alice" "password1" "password1") readonly_db)
       <> Ok (Authenticated uid u)).
Proof.
  split; [|split].
  - refine (proj1 (submit_store_error_propagates Sample.kdf Sample.enc Sample.dec Sample.salt1 "t"
                     (mk_form Login "alice" "password1" "") closed_db)
              eq_refl _ _ OperationalError closed_db _).
    + vm_compute. reflexivity.
    + vm_compute. reflexivity.
    + vm_compute. reflexivity.
  - refine (proj2 (proj1 (proj2 (submit_store_error_propagates Sample.kdf Sample.enc Sample.dec
                     Sample.salt1 "t" (mk_form Register "alice" "password1" "password1") readonly_db))
              eq_refl _ _ _ _) readonly_db OperationalError readonly_db _ _).
    + vm_compute. reflexivity.
    + vm_compute. reflexivity.
    + vm_compute. reflexivity.
    + vm_compute. reflexivity.
    + vm_compute. reflexivity.
    + vm_compute. reflexivity.
  - exact (proj1 (proj2 (proj2 (proj2 (proj2 (submit_store_error_propagates Sample.kdf Sample.enc
             Sample.dec Sample.salt1 "t" (mk_form Register "alice" "password1" "password1")
             readonly_db))) eq_refl))).
Defined.

(** C5: registration checks run in the order username length, username
    characters, password length, confirmation, then the [get_user]
    pre-check, stopping at the first failure; a failure of the local checks
    returns with the store untouched and never read, whatever the store
    (so [("ab", mismatched passwords)] reports the username length). *)
Theorem register_validation_order :
  forall (kdf : list byte -> list byte -> Z -> list byte)
         (enc : list byte -> string) (dec : string -> option (list byte))
         fresh now u p c d,
  let n := PyStr.lower (PyStr.strip u) in
  let f := mk_form Register u p c in
  (PyStr.len n < 3 ->
     _submit kdf enc dec fresh now f d
     = (Ok (Message "Username must be at least 3 characters."), d))
  /\ (3 <= PyStr.len n -> PyStr.isalnum (PyStr.remove_underscores n) = false ->
     _submit kdf enc dec fresh now f d
     = (Ok (Message "Use letters, numbers, and underscores only."), d))
  /\ (3 <= PyStr.len n -> PyStr.isalnum (PyStr.remove_underscores n) = true ->
      PyStr.len p < 8 ->
     _submit kdf enc dec fresh now f d
     = (Ok (Message "Password must be at least 8 characters."), d))
  /\ (3 <= PyStr.len n -> PyStr.isalnum (PyStr.remove_underscores n) = true ->
      8 <= PyStr.len p -> p <> c ->
     _submit kdf enc dec fresh now f d = (Ok (Message "Passwords do not match."), d))
  /\ (3 <= PyStr.len n -> PyStr.isalnum (PyStr.remove_underscores n) = true ->
      8 <= PyStr.len p -> p = c ->
      db_open d = true -> select_by_username (normalize n) (db_rows d) <> None ->
     _submit kdf enc dec fresh now f d
     = (Ok (Message "Username already exists. Choose another."), d))
  /\ (forall p' c' d',
       _submit kdf enc dec fresh now (mk_form Register "ab" p' c') d'
       = (Ok (Message "Username must be at least 3 characters."), d')).
Proof.
  intros kdf enc dec fresh now u p c d n f.
  assert (Hn : PyStr.lower (PyStr.strip (username_var f)) = n) by reflexivity.
  split; [|split; [|split; [|split; [|split]]]];
    [ .. | intros p' c' d'; reflexivity];
    unfold _submit; cbv zeta;
    change (form_mode f) with Register; rewrite Hn;
    change (password_var f) with p; change (confirm_var f) with c; cbv iota.
  - intros H1. apply Z.ltb_lt in H1. now rewrite H1.
  - intros H1 H2. apply Z.ltb_ge in H1. now rewrite H1, H2.
  - intros H1 H2 H3. apply Z.ltb_ge in H1. apply Z.ltb_lt in H3. now rewrite H1, H2, H3.
  - intros H1 H2 H3 H4. apply Z.ltb_ge in H1. apply Z.ltb_ge in H3.
    apply String.eqb_neq in H4. now rewrite H1, H2, H3, H4.
  - intros H1 H2 H3 H4 Ho Hx. apply Z.ltb_ge in H1. apply Z.ltb_ge in H3.
    subst c. rewrite H1, H2, H3, String.eqb_refl. simpl.
    cbv [bind get_user lift _ensure_db get_db ret raise]. rewrite Ho.
    destruct (select_by_username (normalize n) (db_rows d)); [reflexivity|].
    exfalso; now apply Hx.
Qed.

Lemma register_validation_order_witness :
  PyStr.len (PyStr.lower (PyStr.strip " AB ")) < 3
  /\ _submit Sample.kdf Sample.enc Sample.dec Sample.salt1 "t"
       (mk_form Register " AB " "password1" "password2") closed_db
     = (Ok (Message "Username must be at least 3 characters."), closed_db).
Proof.
  assert (H : PyStr.len (PyStr.lower (PyStr.strip " AB ")) < 3) by (vm_compute; reflexivity).
  split; [exact H|].
  exact (proj1 (register_validation_order Sample.kdf Sample.enc Sample.dec Sample.salt1 "t"
                  " AB " "password1" "password2" closed_db) H).
Defined.

(** * The username shape check of [_submit] *)
Module UsernameFacts.

Definition not_underscore (ch : ascii) : bool := negb (Ascii.eqb ch "_"%char).

Lemma forallb_filter_isalnum : forall l,
  forallb PyStr.isalnum_char (filter not_underscore l)
  = forallb (fun ch => Ascii.eqb ch "_"%char || PyStr.isalnum_char ch) l.
Proof.
  induction l as [|ch l IH]; simpl; [reflexivity|].
  unfold not_underscore at 1.
  destruct (Ascii.eqb ch "_"%char); simpl; [exact IH|].
  now rewrite IH.
Qed.

Lemma filter_nil_existsb : forall l,
  filter not_underscore l = [] -> existsb not_underscore l = false.
Proof.
  induction l as [|ch l IH]; simpl; [reflexivity|].
  destruct (not_underscore ch); [discriminate|]. exact IH.
Qed.

(** [username.replace("_", "").isalnum()] on a name with a character other
    than [_]: every character is [_] or alphanumeric. *)
Lemma isalnum_remove_underscores : forall n,
  existsb not_underscore (list_ascii_of_string n) = true ->
  PyStr.isalnum (PyStr.remove_underscores n)
  = forallb (fun ch => Ascii.eqb ch "_"%char || PyStr.isalnum_char ch)
            (list_ascii_of_string n).
Proof.
  intros n Hx. unfold PyStr.remove_underscores.
  fold not_underscore.
  rewrite <- forallb_filter_isalnum.
  destruct (filter not_underscore (list_ascii_of_string n)) as [|ch l] eqn:E.
  - rewrite filter_nil_existsb in Hx by exact E. discriminate.
  - simpl. now rewrite list_ascii_of_string_of_list_ascii.
Qed.

End UsernameFacts.

(** The claim's pattern [[A-Za-z0-9_]+], written from the claim. *)
Definition username_pattern_spec (s : string) : bool :=
  negb (String.eqb s "")
  && forallb (fun ch => let k := nat_of_ascii ch in
                        ((48 <=? k) && (k <=? 57))%nat || ((65 <=? k) && (k <=? 90))%nat
                        || ((97 <=? k) && (k <=? 122))%nat || (k =? 95)%nat)
             (list_ascii_of_string s).

(** ["ab"] followed by U+00E9 (LATIN SMALL LETTER E WITH ACUTE). *)
Definition latin_username : string :=
  String "a"%char (String "b"%char (String (ascii_of_nat 233) EmptyString)).

(** C6 (counterexample): a username with a non-ASCII letter passes the
    username checks of [_submit] (it stops at the password confirmation)
    though it does not match [[A-Za-z0-9_]+]. *)
Lemma username_check_accepts_latin1_letter :
  username_pattern_spec (PyStr.lower (PyStr.strip latin_username)) = false
  /\ PyStr.len (PyStr.lower (PyStr.strip latin_username)) = 3
  /\ _submit Sample.kdf Sample.enc Sample.dec Sample.salt1 "t"
       (mk_form Register latin_username "password1" "password2") closed_db
     = (Ok (Message "Passwords do not match."), closed_db).
Proof. vm_compute. repeat split. Qed.

Definition msg_username_length : string := "Username must be at least 3 characters.".
Definition msg_username_chars : string := "Use letters, numbers, and underscores only.".

(** C6 (as amended): for a username that, trimmed and lower-cased, has a
    character other than [_], [_submit] lets it through both username
    checks iff it has at least 3 characters and each of them is [_] or
    alphanumeric for [str.isalnum] (letters and digits beyond ASCII
    included). *)
Theorem username_shape_check_isalnum :
  forall (kdf : list byte -> list byte -> Z -> list byte)
         (enc : list byte -> string) (dec : string -> option (list byte))
         fresh now u p c d,
  let n := PyStr.lower (PyStr.strip u) in
  existsb UsernameFacts.not_underscore (list_ascii_of_string n) = true ->
  (fst (_submit kdf enc dec fresh now (mk_form Register u p c) d) <> Ok (Message msg_username_length)
   /\ fst (_submit kdf enc dec fresh now (mk_form Register u p c) d) <> Ok (Message msg_username_chars))
  <-> (3 <= PyStr.len n
       /\ forallb (fun ch => Ascii.eqb ch "_"%char || PyStr.isalnum_char ch)
                  (list_ascii_of_string n) = true).
Proof.
  intros kdf enc dec fresh now u p c d n Hx.
  rewrite <- (UsernameFacts.isalnum_remove_underscores n Hx).
  pose proof (register_validation_order kdf enc dec fresh now u p c d) as V.
  cbv zeta in V. fold n in V.
  destruct V as (V1 & V2 & _).
  split.
  - intros [Ha Hb].
    destruct (Z_lt_le_dec (PyStr.len n) 3) as [L|L].
    { exfalso. apply Ha. now rewrite (V1 L). }
    split; [exact L|].
    destruct (PyStr.isalnum (PyStr.remove_underscores n)) eqn:E; [reflexivity|].
    exfalso. apply Hb. now rewrite (V2 L eq_refl).
  - intros [L A].
    unfold _submit. cbv zeta. cbn [form_mode username_var password_var confirm_var].
    fold n. apply Z.ltb_ge in L. rewrite L, A. cbn [negb].
    unfold msg_username_length, msg_username_chars.
    destruct (PyStr.len p <? 8); [cbv [ret]; simpl; split; congruence|].
    destruct (negb (String.eqb p c)); [cbv [ret]; simpl; split; congruence|].
    cbv [bind].
    destruct (get_user n d) as [[[r|]|e] d1].
    + cbv [ret]; simpl; split; congruence.
    + destruct (create_user kdf enc dec fresh now n p d1) as [[[]|e] d2].
      * destruct (verify_user kdf enc dec now n p d2) as [[[x|]|e] d3];
          cbv [ret]; simpl; split; congruence.
      * simpl; split; congruence.
    + simpl; split; congruence.
Qed.

Lemma username_shape_check_isalnum_witness :
  existsb UsernameFacts.not_underscore
    (list_ascii_of_string (PyStr.lower (PyStr.strip latin_username))) = true
  /\ 3 <= PyStr.len (PyStr.lower (PyStr.strip latin_username)).
Proof.
  assert (Hx : existsb UsernameFacts.not_underscore
                 (list_ascii_of_string (PyStr.lower (PyStr.strip latin_username))) = true)
    by (vm_compute; reflexivity).
  split; [exact Hx|].
  assert (Hp : fst (_submit Sample.kdf Sample.enc Sample.dec Sample.salt1 "t"
                      (mk_form Register latin_username "password1" "password2") closed_db)
               <> Ok (Message msg_username_length)
               /\ fst (_submit Sample.kdf Sample.enc Sample.dec Sample.salt1 "t"
                      (mk_form Register latin_username "password1" "password2") closed_db)
               <> Ok (Message msg_username_chars))
    by (vm_compute; split; discriminate).
  exact (proj1 (proj1 (username_shape_check_isalnum Sample.kdf Sample.enc Sample.dec
                         Sample.salt1 "t" latin_username "password1" "password2" closed_db Hx) Hp)).
Defined.

(** * The session fast path of [_start_login] *)

Definition alice_row : user_row :=
  mk_row 1 "alice" "hash" "salt" PBKDF2_ITERATIONS "2026-10-01 09:00:00"
    "2026-10-01 09:00:00" None.

Definition alice_db : db := mk_db true true [alice_row] 1.

(** [datetime.now()] in the examples: 2026-10-16 12:00:00, naive. *)
Definition now_example : DateTime.datetime := DateTime.mk_dt 2026 10 16 12 0 0 0 None.

Definition session_cfg (expires : string) : dict :=
  [("AWS_REGION"%string, JStr "us-east-1");
   ("SESSION"%string, JObj [("username"%string, JStr "alice"); ("token"%string, JStr "0f3a");
                            ("expires_at"%string, JStr expires)])].

(** C7 (counterexample): an expiry in 2030 written with a UTC offset parses,
    and the user exists, yet the fast path does not authenticate: comparing
    the aware expiry with the naive [datetime.now()] raises [TypeError],
    which [_start_login] swallows. *)
Lemma session_offset_expiry_not_accepted :
  DateTime.fromisoformat "2030-01-01T00:00:00+00:00"
  = Some (DateTime.mk_dt 2030 1 1 0 0 0 0 (Some 0))
  /\ select_by_username (normalize "alice") (db_rows alice_db) = Some alice_row
  /\ session_check now_example (session_cfg "2030-01-01T00:00:00+00:00") alice_db
     = ShowLoginCard.
Proof. vm_compute. repeat split. Qed.

Module SessionFacts.

Lemma truthy_obj_with_key : forall k v s,
  dict_get k s = Some v -> truthy (JObj s) = true.
Proof. intros k v [|kv s] H; [discriminate H|reflexivity]. Qed.

End SessionFacts.

(** C7 (as amended): with a naive [now], the fast path authenticates as
    [(id, username)] iff [SESSION] is an object whose [username] is a
    non-empty string, whose [expires_at] is a string that
    [datetime.fromisoformat] parses to a naive datetime strictly after
    [now], and the store opens and has a row for the normalized username
    with that id. *)
Theorem session_auto_login_iff :
  forall now cfg d uid u,
  DateTime.tzoffset now = None ->
  session_check now cfg d = AutoLogin uid u
  <-> exists s e dt r,
        dict_get "SESSION" cfg = Some (JObj s)
        /\ dict_get "username" s = Some (JStr u) /\ u <> ""%string
        /\ dict_get "expires_at" s = Some (JStr e)
        /\ DateTime.fromisoformat e = Some dt /\ DateTime.tzoffset dt = None
        /\ DateTime.wall_us now < DateTime.wall_us dt
        /\ db_open d = true
        /\ select_by_username (normalize u) (db_rows d) = Some r
        /\ uid = row_id r.
Proof.
  intros now cfg d uid u Hnow. split.
  - unfold session_check.
    destruct (session_fast_path now cfg d) as [res d'] eqn:E.
    simpl. destruct res as [[[uid' u']|]|e]; try discriminate.
    intros Hr. injection Hr as <- <-.
    unfold session_fast_path in E.
    destruct (dict_get "SESSION" cfg) as [v|] eqn:Es; [|simpl in E; discriminate E].
    destruct (truthy v) eqn:Tv; [|simpl in E; discriminate E].
    destruct v as [| | | |l|s]; try discriminate E.
    destruct (truthy_opt (dict_get "username" s) && truthy_opt (dict_get "expires_at" s))
      eqn:Tt; [|discriminate E].
    apply andb_true_iff in Tt as [Tu Te].
    cbv [bind lift] in E.
    destruct (fromisoformat_json (dict_get "expires_at" s)) as [dt|e] eqn:Ef; [|discriminate E].
    unfold DateTime.gt in E. rewrite Hnow in E.
    destruct (DateTime.tzoffset dt) as [o|] eqn:Edt; [discriminate E|].
    destruct (DateTime.wall_us now <? DateTime.wall_us dt) eqn:Lt; [|discriminate E].
    destruct (dict_get "username" s) as [[| | |un| |]|] eqn:Eu; try discriminate E.
    unfold get_user in E. cbv [bind lift _ensure_db get_db ret raise] in E.
    destruct (db_open d) eqn:Ho; [|discriminate E].
    destruct (select_by_username (normalize un) (db_rows d)) as [r|] eqn:Er; [|discriminate E].
    injection E as <- <- _.
    unfold fromisoformat_json in Ef.
    destruct (dict_get "expires_at" s) as [[| | |ex| |]|] eqn:Ee; try discriminate Ef.
    destruct (DateTime.fromisoformat ex) as [dt'|] eqn:Ep; [|discriminate Ef].
    injection Ef as <-.
    exists s, ex, dt', r.
    simpl in Tu. apply negb_true_iff, String.eqb_neq in Tu.
    apply Z.ltb_lt in Lt.
    repeat split; auto.
  - intros (s & e & dt & r & Es & Eu & Hu & Ee & Ep & Edt & Lt & Ho & Er & ->).
    unfold session_check, session_fast_path.
    rewrite Es, (SessionFacts.truthy_obj_with_key _ _ _ Eu), Eu, Ee.
    cbn [truthy_opt truthy]. apply String.eqb_neq in Hu. rewrite Hu.
    assert (He : String.eqb e "" = false)
      by (destruct e; [vm_compute in Ep; discriminate Ep | reflexivity]).
    rewrite He. cbn [negb andb]. cbv beta iota.
    cbv [bind lift]. unfold fromisoformat_json. rewrite Ep.
    unfold DateTime.gt. rewrite Edt, Hnow.
    apply Z.ltb_lt in Lt. rewrite Lt.
    unfold get_user. cbv [bind lift _ensure_db get_db ret raise].
    rewrite Ho, Er. reflexivity.
Qed.

Lemma session_auto_login_iff_witness :
  DateTime.tzoffset now_example = None
  /\ session_check now_example (session_cfg "2026-10-16T12:00:01") alice_db = AutoLogin 1 "alice"
  /\ session_check now_example (session_cfg "2026-10-16T11:59:59") alice_db = ShowLoginCard.
Proof.
  assert (Hn : DateTime.tzoffset now_example = None) by reflexivity.
  split; [exact Hn|].
  split.
  - apply (proj2 (session_auto_login_iff now_example (session_cfg "2026-10-16T12:00:01")
                    alice_db 1 "alice" Hn)).
    exists [("username"%string, JStr "alice"); ("token"%string, JStr "0f3a");
            ("expires_at"%string, JStr "2026-10-16T12:00:01")],
           "2026-10-16T12:00:01"%string, (DateTime.mk_dt 2026 10 16 12 0 1 0 None), alice_row.
    vm_compute. repeat split; try reflexivity; discriminate.
  - vm_compute. reflexivity.
Defined.

(** * [load_settings] and malformed sessions *)

(** A [SESSION] value that is not an object, lacks [username] or
    [expires_at], or whose [expires_at] is not a string
    [datetime.fromisoformat] parses. *)
Definition session_malformed (v : json) : Prop :=
  match v with
  | JObj s =>
      dict_get "username" s = None \/ dict_get "expires_at" s = None
      \/ ~ (exists e dt, dict_get "expires_at" s = Some (JStr e)
                         /\ DateTime.fromisoformat e = Some dt)
  | _ => True
  end.

Module SessionShape.

(** What the fast path needs before it authenticates. *)
Lemma session_check_auto_inv : forall now cfg d uid u,
  session_check now cfg d = AutoLogin uid u ->
  exists s e dt,
    dict_get "SESSION" cfg = Some (JObj s)
    /\ dict_get "username" s = Some (JStr u)
    /\ dict_get "expires_at" s = Some (JStr e)
    /\ DateTime.fromisoformat e = Some dt.
Proof.
  intros now cfg d uid u. unfold session_check.
  destruct (session_fast_path now cfg d) as [res d'] eqn:E.
  simpl. destruct res as [[[uid' u']|]|e]; try discriminate.
  intros Hr. injection Hr as <- <-.
  unfold session_fast_path in E.
  destruct (dict_get "SESSION" cfg) as [v|] eqn:Es; [|simpl in E; discriminate E].
  destruct (truthy v) eqn:Tv; [|simpl in E; discriminate E].
  destruct v as [| | | |l|s]; try discriminate E.
  destruct (truthy_opt (dict_get "username" s) && truthy_opt (dict_get "expires_at" s));
    [|discriminate E].
  cbv [bind lift] in E.
  destruct (fromisoformat_json (dict_get "expires_at" s)) as [dt|e] eqn:Ef; [|discriminate E].
  destruct (DateTime.gt dt now) as [[]|e]; [|discriminate E|discriminate E].
  destruct (dict_get "username" s) as [[| | |un| |]|] eqn:Eu; try discriminate E.
  unfold get_user in E. cbv [bind lift _ensure_db get_db ret raise] in E.
  destruct (db_open d); [|discriminate E].
  destruct (select_by_username (normalize un) (db_rows d)); [|discriminate E].
  injection E as _ <- _.
  unfold fromisoformat_json in Ef.
  destruct (dict_get "expires_at" s) as [[| | |ex| |]|] eqn:Ee; try discriminate Ef.
  destruct (DateTime.fromisoformat ex) as [dt'|] eqn:Ep; [|discriminate Ef].
  exists s, ex, dt'. repeat split; assumption.
Qed.

End SessionShape.

Definition tokenless_cfg : dict :=
  [("SESSION"%string, JObj [("username"%string, JStr "alice");
                            ("expires_at"%string, JStr "2026-10-23T12:00:00")])].

(** C8 (counterexample): a [SESSION] without its [token] field still
    authenticates at startup; the fast path never reads [token]. *)
Lemma session_without_token_accepted :
  (forall v, dict_get "SESSION" tokenless_cfg = Some v ->
     exists s, v = JObj s /\ dict_get "token" s = None)
  /\ session_check now_example tokenless_cfg alice_db = AutoLogin 1 "alice"
  /\ (forall (json_loads : string -> option json) raw,
        PyStr.strip raw <> ""%string -> json_loads raw = Some (JObj tokenless_cfg) ->
        _start_login json_loads now_example (FileText raw) alice_db = AutoLogin 1 "alice").
Proof.
  split; [|split].
  - intros v Hv. vm_compute in Hv. injection Hv as <-. eexists. split; reflexivity.
  - vm_compute. reflexivity.
  - intros json_loads raw Hs Hl. unfold _start_login, load_settings, load_settings_try.
    apply String.eqb_neq in Hs. rewrite Hs, Hl. vm_compute. reflexivity.
Qed.

(** C8 (as amended): [load_settings] is total and gives [{}] for an absent,
    unreadable, blank, unparseable or non-object file, the object itself
    otherwise; a [SESSION] that is not an object, lacks [username] or
    [expires_at], or has an unparseable [expires_at] makes [_start_login]
    fall through to the login card. *)
Theorem load_settings_total_and_malformed_session :
  forall (json_loads : string -> option json),
  load_settings json_loads FileAbsent = []
  /\ load_settings json_loads FileUnreadable = []
  /\ (forall raw, PyStr.strip raw = ""%string -> load_settings json_loads (FileText raw) = [])
  /\ (forall raw, PyStr.strip raw <> ""%string -> json_loads raw = None ->
        load_settings json_loads (FileText raw) = [])
  /\ (forall raw j, PyStr.strip raw <> ""%string -> json_loads raw = Some j ->
        (forall kvs, j <> JObj kvs) -> load_settings json_loads (FileText raw) = [])
  /\ (forall raw kvs, PyStr.strip raw <> ""%string -> json_loads raw = Some (JObj kvs) ->
        load_settings json_loads (FileText raw) = kvs)
  /\ (forall now f d v,
        dict_get "SESSION" (load_settings json_loads f) = Some v ->
        session_malformed v ->
        _start_login json_loads now f d = ShowLoginCard).
Proof.
  intros json_loads.
  split; [reflexivity|]. split; [reflexivity|].
  split; [intros raw Hs; unfold load_settings, load_settings_try; now rewrite Hs|].
  split; [intros raw Hs Hl; unfold load_settings, load_settings_try;
          apply String.eqb_neq in Hs; now rewrite Hs, Hl|].
  split; [intros raw j Hs Hl Hj; unfold load_settings, load_settings_try;
          apply String.eqb_neq in Hs; rewrite Hs, Hl;
          destruct j; try reflexivity; exfalso; eapply Hj; reflexivity|].
  split; [intros raw kvs Hs Hl; unfold load_settings, load_settings_try;
          apply String.eqb_neq in Hs; now rewrite Hs, Hl|].
  intros now f d v Hv Hm. unfold _start_login.
  destruct (session_check now (load_settings json_loads f) d) as [uid u|] eqn:E; [|reflexivity].
  exfalso.
  destruct (SessionShape.session_check_auto_inv _ _ _ _ _ E) as (s & e & dt & Es & Eu & Ee & Ep).
  rewrite Hv in Es. injection Es as ->. simpl in Hm.
  destruct Hm as [Hm|[Hm|Hm]].
  - congruence.
  - congruence.
  - apply Hm. eauto.
Qed.

Lemma load_settings_total_and_malformed_session_witness :
  dict_get "SESSION" (load_settings (fun _ => Some (JObj (session_cfg "soon"))) (FileText "{}"))
  = Some (JObj [("username"%string, JStr "alice"); ("token"%string, JStr "0f3a");
                ("expires_at"%string, JStr "soon")])
  /\ session_malformed (JObj [("username"%string, JStr "alice"); ("token"%string, JStr "0f3a");
                              ("expires_at"%string, JStr "soon")])
  /\ _start_login (fun _ => Some (JObj (session_cfg "soon"))) now_example (FileText "{}") alice_db
     = ShowLoginCard.
Proof.
  assert (Hv : dict_get "SESSION" (load_settings (fun _ => Some (JObj (session_cfg "soon"))) (FileText "{}"))
    = Some (JObj [("username"%string, JStr "alice"); ("token"%string, JStr "0f3a");
                  ("expires_at"%string, JStr "soon")])) by reflexivity.
  assert (Hm : session_malformed (JObj [("username"%string, JStr "alice"); ("token"%string, JStr "0f3a");
                                        ("expires_at"%string, JStr "soon")])).
  { simpl. right; right. intros (e & dt & He & Hp). injection He as <-.
    vm_compute in Hp. discriminate Hp. }
  split; [exact Hv|]. split; [exact Hm|].
  destruct (load_settings_total_and_malformed_session (fun _ => Some (JObj (session_cfg "soon"))))
    as (_ & _ & _ & _ & _ & _ & H).
  exact (H now_example (FileText "{}") alice_db _ Hv Hm).
Defined.

(** * [LoginFrame._finalize] and the settings document *)
Module DictFacts.

Lemma get_set_other : forall k k' v d,
  k <> k' -> dict_get k (dict_set k' v d) = dict_get k d.
Proof.
  intros k k' v d Hk. unfold dict_set.
  destruct (has_key k' d).
  - induction d as [|[k0 v0] d IH]; simpl; [reflexivity|].
    destruct (String.eqb_spec k0 k') as [->|Hne]; simpl.
    + apply String.eqb_neq in Hk. rewrite String.eqb_sym, Hk. exact IH.
    + destruct (String.eqb k0 k); [reflexivity|exact IH].
  - induction d as [|[k0 v0] d IH]; simpl.
    + apply String.eqb_neq in Hk. now rewrite String.eqb_sym, Hk.
    + destruct (String.eqb k0 k); [reflexivity|exact IH].
Qed.

Lemma get_pop_other : forall k k' d,
  k <> k' -> dict_get k (dict_pop k' d) = dict_get k d.
Proof.
  intros k k' d Hk. induction d as [|[k0 v0] d IH]; simpl; [reflexivity|].
  destruct (String.eqb_spec k0 k') as [->|Hne]; simpl.
  - apply String.eqb_neq in Hk. rewrite String.eqb_sym, Hk. exact IH.
  - destruct (String.eqb k0 k); [reflexivity|exact IH].
Qed.

Lemma get_pop_same : forall k d, dict_get k (dict_pop k d) = None.
Proof.
  intros k d. induction d as [|[k0 v0] d IH]; simpl; [reflexivity|].
  destruct (String.eqb_spec k0 k) as [->|Hne]; simpl; [exact IH|].
  apply String.eqb_neq in Hne. now rewrite Hne.
Qed.

Lemma pop_set : forall k v d, dict_pop k (dict_set k v d) = dict_pop k d.
Proof.
  intros k v d. unfold dict_set, dict_pop.
  destruct (has_key k d).
  - induction d as [|[k0 v0] d IH]; simpl; [reflexivity|].
    destruct (String.eqb k0 k) eqn:E; simpl; rewrite E; simpl; [exact IH|now rewrite IH].
  - rewrite filter_app. simpl. rewrite String.eqb_refl. simpl. apply app_nil_r.
Qed.

Lemma pop_pop : forall k d, dict_pop k (dict_pop k d) = dict_pop k d.
Proof.
  intros k d. induction d as [|[k0 v0] d IH]; simpl; [reflexivity|].
  destruct (String.eqb k0 k) eqn:E; simpl; [exact IH|].
  rewrite E. simpl. now rewrite IH.
Qed.

End DictFacts.

(** C9: when the settings file can be written, [_finalize] writes back the
    document it loaded with only [SESSION] changed: every other key keeps
    its value, and the entries other than [SESSION] stay as they were, in
    order. *)
Theorem finalize_preserves_sibling_keys :
  forall (json_loads : string -> option json) (json_dumps : json -> string)
         keep token expires username fs,
  cfg_writable fs = true ->
  exists cfg',
    _finalize json_loads json_dumps keep token expires username fs
    = mk_fs (FileText (json_dumps (JObj cfg'))) true
    /\ (forall k, k <> "SESSION"%string ->
          dict_get k cfg' = dict_get k (load_settings json_loads (cfg_file fs)))
    /\ dict_pop "SESSION" cfg' = dict_pop "SESSION" (load_settings json_loads (cfg_file fs)).
Proof.
  intros json_loads json_dumps keep token expires username fs Hw.
  unfold _finalize, save_settings. rewrite Hw.
  set (cfg := load_settings json_loads (cfg_file fs)).
  destruct keep as [[]|].
  - eexists. split; [reflexivity|]. split.
    + intros k Hk. now apply DictFacts.get_set_other.
    + apply DictFacts.pop_set.
  - eexists. split; [reflexivity|]. split.
    + intros k Hk. now apply DictFacts.get_pop_other.
    + apply DictFacts.pop_pop.
  - eexists. split; [reflexivity|]. split.
    + intros k Hk. now apply DictFacts.get_pop_other.
    + apply DictFacts.pop_pop.
Qed.

Definition writable_settings (raw : string) : settings_fs := mk_fs (FileText raw) true.

Lemma finalize_preserves_sibling_keys_witness :
  cfg_writable (writable_settings "{...}") = true
  /\ exists cfg',
       _finalize (fun _ => Some (JObj (session_cfg "2026-10-17T00:00:00"))) (fun _ => "written"%string)
         (Some true) "9e1c" "2026-10-23T12:00:00" "alice" (writable_settings "{...}")
       = mk_fs (FileText "written") true
       /\ dict_get "AWS_REGION" cfg' = Some (JStr "us-east-1").
Proof.
  assert (Hw : cfg_writable (writable_settings "{...}") = true) by reflexivity.
  split; [exact Hw|].
  destruct (finalize_preserves_sibling_keys (fun _ => Some (JObj (session_cfg "2026-10-17T00:00:00")))
              (fun _ => "written"%string) (Some true) "9e1c" "2026-10-23T12:00:00" "alice"
              (writable_settings "{...}") Hw) as (cfg' & Hf & Hk & _).
  exists cfg'. split; [exact Hf|].
  rewrite (Hk "AWS_REGION"%string) by discriminate. reflexivity.
Defined.

(** C10: when the user did not opt into staying signed in and the settings
    file can be written, [_finalize] removes [SESSION] from the loaded
    document before saving it: the written document has no [SESSION]. *)
Theorem finalize_without_keep_removes_session :
  forall (json_loads : string -> option json) (json_dumps : json -> string)
         keep token expires username fs,
  keep <> Some true -> cfg_writable fs = true ->
  _finalize json_loads json_dumps keep token expires username fs
  = mk_fs (FileText (json_dumps (JObj (dict_pop "SESSION" (load_settings json_loads (cfg_file fs))))))
          true
  /\ dict_get "SESSION" (dict_pop "SESSION" (load_settings json_loads (cfg_file fs))) = None.
Proof.
  intros json_loads json_dumps keep token expires username fs Hk Hw.
  split; [|apply DictFacts.get_pop_same].
  unfold _finalize, save_settings. rewrite Hw.
  destruct keep as [[]|]; [exfalso; now apply Hk| reflexivity | reflexivity].
Qed.

Lemma finalize_without_keep_removes_session_witness :
  Some false <> Some true
  /\ cfg_writable (writable_settings "{...}") = true
  /\ dict_get "SESSION" (load_settings (fun _ => Some (JObj (session_cfg "2026-10-17T00:00:00")))
                                       (FileText "{...}")) <> None
  /\ _finalize (fun _ => Some (JObj (session_cfg "2026-10-17T00:00:00"))) (fun j => match j with
                                                                    | JObj kvs => if has_key "SESSION" kvs then "with session" else "without session"
                                                                    | _ => "other" end%string)
       (Some false) "9e1c" "2026-10-23T12:00:00" "alice" (writable_settings "{...}")
     = mk_fs (FileText "without session") true.
Proof.
  assert (Hk : Some false <> Some true) by discriminate.
  assert (Hw : cfg_writable (writable_settings "{...}") = true) by reflexivity.
  split; [exact Hk|]. split; [exact Hw|]. split; [vm_compute; discriminate|].
  rewrite (proj1 (finalize_without_keep_removes_session
                    (fun _ => Some (JObj (session_cfg "2026-10-17T00:00:00")))
                    (fun j => match j with
                              | JObj kvs => if has_key "SESSION" kvs then "with session" else "without session"
                              | _ => "other" end%string)
                    (Some false) "9e1c" "2026-10-23T12:00:00" "alice" (writable_settings "{...}") Hk Hw)).
  vm_compute. reflexivity.
Defined.

(** * More of the credential store *)
Module StoreMore.

Section Hashing.

Variable kdf : list byte -> list byte -> Z -> list byte.
Variable enc : list byte -> string.
Variable dec : string -> option (list byte).

Definition new_credentials (fresh : list byte) (now : string) (uid : Z) (q : string)
    (r : user_row) : user_row :=
  if Z.eqb (row_id r) uid
  then mk_row (row_id r) (row_username r) (enc (kdf (PyStr.encode_utf8 q) fresh PBKDF2_ITERATIONS))
         (enc fresh) PBKDF2_ITERATIONS (row_created_at r) now (row_last_login r)
  else r.

Lemma change_password_ok : forall fresh now uid q d d',
  change_password kdf enc dec fresh now uid q d = (Ok tt, d') ->
  db_open d = true /\ db_writable d = true
  /\ d' = mk_db (db_open d) (db_writable d)
            (map (new_credentials fresh now uid q) (db_rows d)) (db_seq d).
Proof.
  intros fresh now uid q d d' H.
  unfold change_password in H.
  rewrite (StoreFacts.hash_password_none kdf enc dec fresh q) in H.
  cbv [bind lift _ensure_db get_db ret raise sql_update_password put_db] in H.
  destruct (db_open d) eqn:Eo; [|discriminate H].
  destruct (db_writable d) eqn:Ew; [|discriminate H].
  simpl in H. injection H as <-. repeat split; try reflexivity; rewrite Eo; reflexivity.
Qed.

End Hashing.

Lemma select_map_username : forall (f : user_row -> user_row) n rows,
  (forall r, row_username (f r) = row_username r) ->
  select_by_username n (map f rows) = option_map f (select_by_username n rows).
Proof.
  intros f n rows Hf. induction rows as [|r rows IH]; simpl; [reflexivity|].
  rewrite Hf. destruct (String.eqb (row_username r) n); [reflexivity|exact IH].
Qed.

Lemma bytes_leb_total : forall a b, bytes_leb a b = false -> bytes_leb b a = true.
Proof.
  induction a as [|x a IH]; intros [|y b] H; simpl in *; try discriminate; try reflexivity.
  destruct (Nat.ltb_spec (Strings.Byte.to_nat x) (Strings.Byte.to_nat y)); [discriminate|].
  destruct (Nat.ltb_spec (Strings.Byte.to_nat y) (Strings.Byte.to_nat x)); [reflexivity|].
  destruct (Nat.ltb_spec (Strings.Byte.to_nat x) (Strings.Byte.to_nat y)); [lia|].
  now apply IH.
Qed.

Definition text_le (a b : string) : Prop := text_leb a b = true.

Lemma insert_text_sorted : forall s l,
  Sorted text_le l -> Sorted text_le (insert_text s l).
Proof.
  intros s l H. induction H as [|t r Hr IH Hhd]; simpl.
  - constructor; constructor.
  - destruct (text_leb s t) eqn:E.
    + constructor; [constructor; assumption|constructor; exact E].
    + constructor; [exact IH|].
      assert (Ht : text_le t s) by (apply bytes_leb_total; exact E).
      destruct r as [|t' r']; simpl; [constructor; exact Ht|].
      destruct (text_leb s t'); constructor; [exact Ht|].
      now inversion Hhd.
Qed.

Lemma sort_text_sorted : forall l, Sorted text_le (sort_text l).
Proof.
  induction l as [|s l IH]; simpl; [constructor|]. now apply insert_text_sorted.
Qed.

Lemma in_insert_text : forall s t l, In t (insert_text s l) <-> t = s \/ In t l.
Proof.
  intros s t l. induction l as [|u l IH]; simpl.
  - intuition.
  - destruct (text_leb s u); simpl; [intuition|]. rewrite IH. intuition.
Qed.

Lemma in_sort_text : forall t l, In t (sort_text l) <-> In t l.
Proof.
  intros t l. induction l as [|s l IH]; simpl; [reflexivity|].
  rewrite in_insert_text, IH. intuition.
Qed.

(** The columns a login does not touch. *)
Definition row_credentials (r : user_row) : Z * string * string * string * Z * string :=
  (row_id r, row_username r, row_password_hash r, row_salt r, row_iterations r,
   row_created_at r).

Lemma select_in : forall n rows r, select_by_username n rows = Some r -> In r rows.
Proof.
  intros n rows r H. unfold select_by_username in H. now apply find_some in H as [H _].
Qed.

Lemma user_count_after_create :
  forall (kdf : list byte -> list byte -> Z -> list byte)
         (enc : list byte -> string) (dec : string -> option (list byte))
         fresh now u p d d',
  create_user kdf enc dec fresh now u p d = (Ok tt, d') ->
  user_count d = (Ok (Z.of_nat (length (db_rows d))), d)
  /\ user_count d' = (Ok (Z.of_nat (length (db_rows d)) + 1), d').
Proof.
  intros kdf enc dec fresh now u p d d' H.
  destruct (StoreFacts.create_user_ok kdf enc dec fresh now u p d d' H) as (Ho & Hw & _ & ->).
  cbv [user_count bind _ensure_db get_db ret raise]. cbn [db_open db_rows]. rewrite Ho.
  split; [reflexivity|]. cbn [db_rows]. rewrite length_app. cbn [length].
  now rewrite Nat2Z.inj_add.
Qed.

End StoreMore.

(** The number of users grows by one with each successful [create_user]. *)
Theorem create_user_increments_user_count :
  forall (kdf : list byte -> list byte -> Z -> list byte)
         (enc : list byte -> string) (dec : string -> option (list byte))
         fresh now u p d d',
  create_user kdf enc dec fresh now u p d = (Ok tt, d') ->
  user_count d = (Ok (Z.of_nat (length (db_rows d))), d)
  /\ user_count d' = (Ok (Z.of_nat (length (db_rows d)) + 1), d').
Proof. exact StoreMore.user_count_after_create. Qed.

Lemma create_user_increments_user_count_witness :
  create_user Sample.kdf Sample.enc Sample.dec Sample.salt1 "t0" "Alice " "password1" Sample.empty_db
     = (Ok tt, snd (create_user Sample.kdf Sample.enc Sample.dec Sample.salt1 "t0" "Alice " "password1" Sample.empty_db))
  /\ user_count (snd (create_user Sample.kdf Sample.enc Sample.dec Sample.salt1 "t0" "Alice " "password1" Sample.empty_db))
     = (Ok 1, snd (create_user Sample.kdf Sample.enc Sample.dec Sample.salt1 "t0" "Alice " "password1" Sample.empty_db)).
Proof.
  assert (Hc : create_user Sample.kdf Sample.enc Sample.dec Sample.salt1 "t0" "Alice " "password1" Sample.empty_db
     = (Ok tt, snd (create_user Sample.kdf Sample.enc Sample.dec Sample.salt1 "t0" "Alice " "password1" Sample.empty_db)))
    by reflexivity.
  split; [exact Hc|].
  exact (proj2 (create_user_increments_user_count _ _ _ _ _ _ _ _ _ Hc)).
Defined.

(** [LoginFrame] opens in [register] mode exactly when the store has no
    user; once a [create_user] has succeeded it opens in [login] mode. *)
Theorem login_frame_mode_follows_user_count :
  forall (kdf : list byte -> list byte -> Z -> list byte)
         (enc : list byte -> string) (dec : string -> option (list byte)),
  (forall d, db_open d = true ->
     initial_mode d = (Ok (if Nat.eqb (length (db_rows d)) 0 then Register else Login), d))
  /\ (forall d, db_open d = false -> initial_mode d = (Raise OperationalError, d))
  /\ (forall fresh now u p d d',
        create_user kdf enc dec fresh now u p d = (Ok tt, d') ->
        initial_mode d' = (Ok Login, d')).
Proof.
  intros kdf enc dec. split; [|split].
  - intros d Ho. cbv [initial_mode user_count bind _ensure_db get_db ret raise].
    rewrite Ho. destruct (length (db_rows d)); reflexivity.
  - intros d Ho. cbv [initial_mode user_count bind _ensure_db get_db ret raise].
    now rewrite Ho.
  - intros fresh now u p d d' H.
    destruct (StoreMore.user_count_after_create kdf enc dec fresh now u p d d' H) as [_ Hc].
    cbv [initial_mode bind ret]. rewrite Hc.
    destruct (Z.eqb_spec (Z.of_nat (length (db_rows d)) + 1) 0); [lia|reflexivity].
Qed.

Lemma login_frame_mode_follows_user_count_witness :
  initial_mode Sample.empty_db = (Ok Register, Sample.empty_db)
  /\ initial_mode legacy_db = (Ok Login, legacy_db)
  /\ initial_mode (mk_db false true [] 0) = (Raise OperationalError, mk_db false true [] 0).
Proof.
  destruct (login_frame_mode_follows_user_count Sample.kdf Sample.enc Sample.dec)
    as [Ho [Hc _]].
  split; [exact (Ho Sample.empty_db eq_refl)|].
  split; [exact (Ho legacy_db eq_refl)|exact (Hc (mk_db false true [] 0) eq_refl)].
Defined.

(** [change_password] followed by [verify_user]: the new password signs the
    user in, every other password (the old one included) is refused,
    PBKDF2 being collision-free on passwords. *)
Theorem change_password_round_trip :
  forall (kdf : list byte -> list byte -> Z -> list byte)
         (enc : list byte -> string) (dec : string -> option (list byte)),
  (forall b, dec (enc b) = Some b) ->
  (forall p q s n, kdf (PyStr.encode_utf8 p) s n = kdf (PyStr.encode_utf8 q) s n -> p = q) ->
  forall fresh now now' u q d d' r,
  select_by_username (normalize u) (db_rows d) = Some r ->
  change_password kdf enc dec fresh now (row_id r) q d = (Ok tt, d') ->
  fst (verify_user kdf enc dec now' u q d') = Ok (Some (row_id r))
  /\ (forall p, p <> q -> verify_user kdf enc dec now' u p d' = (Ok None, d')).
Proof.
  intros kdf enc dec Hrt Hinj fresh now now' u q d d' r Hsel H.
  destruct (StoreMore.change_password_ok kdf enc dec fresh now (row_id r) q d d' H)
    as (Ho & Hw & ->).
  set (f := StoreMore.new_credentials kdf enc fresh now (row_id r) q).
  assert (Hf : forall x, row_username (f x) = row_username x)
    by (intros x; unfold f, StoreMore.new_credentials; now destruct (Z.eqb _ _)).
  assert (Hsel' : select_by_username (normalize u) (map f (db_rows d)) = Some (f r))
    by (rewrite (StoreMore.select_map_username f _ _ Hf), Hsel; reflexivity).
  assert (Hr : f r = mk_row (row_id r) (row_username r)
                       (enc (kdf (PyStr.encode_utf8 q) fresh PBKDF2_ITERATIONS))
                       (enc fresh) PBKDF2_ITERATIONS (row_created_at r) now (row_last_login r))
    by (unfold f, StoreMore.new_credentials; now rewrite Z.eqb_refl).
  rewrite Hr in Hsel'.
  assert (Hit : 1 <= PBKDF2_ITERATIONS <= INT_MAX) by (unfold PBKDF2_ITERATIONS, INT_MAX; lia).
  split.
  - rewrite (StoreFacts.verify_user_row kdf enc dec now' u q
               (mk_db (db_open d) (db_writable d) (map f (db_rows d)) (db_seq d))
               _ fresh Ho Hw Hsel' (Hrt fresh) Hit).
    simpl. unfold compare_digest. now rewrite String.eqb_refl.
  - intros p Hp.
    apply (StoreFacts.verify_user_mismatch kdf enc dec now' u p
             (mk_db (db_open d) (db_writable d) (map f (db_rows d)) (db_seq d))
             _ fresh Ho Hsel' (Hrt fresh) Hit).
    unfold compare_digest. simpl row_password_hash; simpl row_iterations.
    destruct (String.eqb_spec (enc (kdf (PyStr.encode_utf8 p) fresh PBKDF2_ITERATIONS))
                (enc (kdf (PyStr.encode_utf8 q) fresh PBKDF2_ITERATIONS))) as [E|E].
    + apply (StoreFacts.enc_inj enc dec Hrt) in E. apply Hinj in E. contradiction.
    + reflexivity.
Qed.

Definition carol_db : db :=
  mk_db true true
    [mk_row 7 "carol" (Sample.enc (Sample.kdf (PyStr.encode_utf8 "password1") Sample.salt1 PBKDF2_ITERATIONS))
       (Sample.enc Sample.salt1) PBKDF2_ITERATIONS "t0" "t0" None] 7.

Lemma change_password_round_trip_witness :
  select_by_username (normalize "Carol") (db_rows carol_db)
    = Some (hd (mk_row 0 "" "" "" 0 "" "" None) (db_rows carol_db))
  /\ change_password Sample.kdf Sample.enc Sample.dec Sample.salt2 "t1" 7 "new-secret" carol_db
     = (Ok tt, snd (change_password Sample.kdf Sample.enc Sample.dec Sample.salt2 "t1" 7 "new-secret" carol_db))
  /\ verify_user Sample.kdf Sample.enc Sample.dec "t2" "Carol" "password1"
       (snd (change_password Sample.kdf Sample.enc Sample.dec Sample.salt2 "t1" 7 "new-secret" carol_db))
     = (Ok None, snd (change_password Sample.kdf Sample.enc Sample.dec Sample.salt2 "t1" 7 "new-secret" carol_db)).
Proof.
  assert (Hs : select_by_username (normalize "Carol") (db_rows carol_db)
               = Some (hd (mk_row 0 "" "" "" 0 "" "" None) (db_rows carol_db))) by reflexivity.
  assert (Hc : change_password Sample.kdf Sample.enc Sample.dec Sample.salt2 "t1"
                 (row_id (hd (mk_row 0 "" "" "" 0 "" "" None) (db_rows carol_db))) "new-secret" carol_db
     = (Ok tt, snd (change_password Sample.kdf Sample.enc Sample.dec Sample.salt2 "t1" 7 "new-secret" carol_db)))
    by reflexivity.
  split; [exact Hs|]. split; [exact Hc|].
  apply (proj2 (change_password_round_trip Sample.kdf Sample.enc Sample.dec Sample.dec_enc
                  Sample.kdf_password_inj _ _ "t2" _ _ _ _ _ Hs Hc)).
  discriminate.
Defined.

(** [change_password] keeps every username and id, leaves the rows of the
    other users as they were, and with an id no row has it succeeds
    without changing anything. *)
Theorem change_password_frame :
  forall (kdf : list byte -> list byte -> Z -> list byte)
         (enc : list byte -> string) (dec : string -> option (list byte))
         fresh now uid q d d',
  change_password kdf enc dec fresh now uid q d = (Ok tt, d') ->
  map row_username (db_rows d') = map row_username (db_rows d)
  /\ map row_id (db_rows d') = map row_id (db_rows d)
  /\ (forall r, In r (db_rows d) -> row_id r <> uid -> In r (db_rows d'))
  /\ (~ In uid (map row_id (db_rows d)) -> db_rows d' = db_rows d).
Proof.
  intros kdf enc dec fresh now uid q d d' H.
  destruct (StoreMore.change_password_ok kdf enc dec fresh now uid q d d' H) as (_ & _ & ->).
  simpl. unfold StoreMore.new_credentials.
  split; [|split; [|split]].
  - rewrite map_map. apply map_ext. intros r. now destruct (Z.eqb _ _).
  - rewrite map_map. apply map_ext. intros r. now destruct (Z.eqb _ _).
  - intros r Hin Hne. apply in_map_iff. exists r. split; [|exact Hin].
    apply Z.eqb_neq in Hne. now rewrite Hne.
  - clear H. induction (db_rows d) as [|r rows IH]; simpl; intros Hn; [reflexivity|].
    destruct (Z.eqb_spec (row_id r) uid) as [E|E]; [tauto|].
    f_equal. apply IH. tauto.
Qed.

Lemma change_password_frame_witness :
  change_password Sample.kdf Sample.enc Sample.dec Sample.salt2 "t1" 99 "new-secret" carol_db
     = (Ok tt, snd (change_password Sample.kdf Sample.enc Sample.dec Sample.salt2 "t1" 99 "new-secret" carol_db))
  /\ db_rows (snd (change_password Sample.kdf Sample.enc Sample.dec Sample.salt2 "t1" 99 "new-secret" carol_db))
     = db_rows carol_db.
Proof.
  assert (Hc : change_password Sample.kdf Sample.enc Sample.dec Sample.salt2 "t1" 99 "new-secret" carol_db
     = (Ok tt, snd (change_password Sample.kdf Sample.enc Sample.dec Sample.salt2 "t1" 99 "new-secret" carol_db)))
    by reflexivity.
  split; [exact Hc|].
  destruct (change_password_frame _ _ _ _ _ _ _ _ _ Hc) as (_ & _ & _ & H).
  apply H. simpl. intros [E|E]; [discriminate E|exact E].
Defined.

(** After a successful [create_user], [list_usernames] lists the new
    normalized name with all earlier ones, in the byte order of the UTF-8
    text. *)
Theorem list_usernames_after_create :
  forall (kdf : list byte -> list byte -> Z -> list byte)
         (enc : list byte -> string) (dec : string -> option (list byte))
         fresh now u p d d',
  create_user kdf enc dec fresh now u p d = (Ok tt, d') ->
  exists l, list_usernames d' = (Ok l, d')
    /\ Sorted StoreMore.text_le l
    /\ (forall s, In s l <-> s = normalize u \/ In s (map row_username (db_rows d))).
Proof.
  intros kdf enc dec fresh now u p d d' H.
  destruct (StoreFacts.create_user_ok kdf enc dec fresh now u p d d' H) as (Ho & _ & _ & ->).
  eexists. split.
  - cbv [list_usernames bind _ensure_db get_db ret raise]. cbn [db_open db_rows]. now rewrite Ho.
  - split; [apply StoreMore.sort_text_sorted|].
    intros s. rewrite StoreMore.in_sort_text. cbn [db_rows]. rewrite map_app, in_app_iff. simpl. intuition.
Qed.

Lemma list_usernames_after_create_witness :
  create_user Sample.kdf Sample.enc Sample.dec Sample.salt1 "t0" "Alice " "password1" carol_db
     = (Ok tt, snd (create_user Sample.kdf Sample.enc Sample.dec Sample.salt1 "t0" "Alice " "password1" carol_db))
  /\ exists l, list_usernames (snd (create_user Sample.kdf Sample.enc Sample.dec Sample.salt1 "t0" "Alice " "password1" carol_db))
                = (Ok l, snd (create_user Sample.kdf Sample.enc Sample.dec Sample.salt1 "t0" "Alice " "password1" carol_db))
               /\ In "alice"%string l /\ In "carol"%string l.
Proof.
  assert (Hc : create_user Sample.kdf Sample.enc Sample.dec Sample.salt1 "t0" "Alice " "password1" carol_db
     = (Ok tt, snd (create_user Sample.kdf Sample.enc Sample.dec Sample.salt1 "t0" "Alice " "password1" carol_db)))
    by reflexivity.
  split; [exact Hc|].
  destruct (list_usernames_after_create _ _ _ _ _ _ _ _ _ Hc) as (l & Hl & _ & Hin).
  exists l. split; [exact Hl|]. split.
  - apply Hin. left. reflexivity.
  - apply Hin. right. left. reflexivity.
Defined.

(** [verify_user] writes to the store only when it returns an id, and then
    only [last_login] and [updated_at] of that user's row, both set to the
    time of the login; a refused or failing login leaves the store as it
    was. *)
Theorem verify_user_writes_only_login_columns :
  forall (kdf : list byte -> list byte -> Z -> list byte)
         (enc : list byte -> string) (dec : string -> option (list byte))
         now u p d res d',
  verify_user kdf enc dec now u p d = (res, d') ->
  ((forall uid, res <> Ok (Some uid)) -> d' = d)
  /\ (forall uid, res = Ok (Some uid) ->
        db_open d' = db_open d /\ db_writable d' = db_writable d /\ db_seq d' = db_seq d
        /\ map StoreMore.row_credentials (db_rows d') = map StoreMore.row_credentials (db_rows d)
        /\ (forall r, In r (db_rows d') -> row_id r = uid ->
              row_last_login r = Some now /\ row_updated_at r = now)
        /\ (forall r, In r (db_rows d) -> row_id r <> uid -> In r (db_rows d'))).
Proof.
  intros kdf enc dec now u p d res d' H.
  unfold verify_user in H. cbv [bind lift _ensure_db get_db ret raise] in H.
  destruct (db_open d) eqn:Eo;
    [|injection H as <- <-; split; [reflexivity|intros uid E; discriminate E]].
  destruct (select_by_username (normalize u) (db_rows d)) as [r|] eqn:Es;
    [|injection H as <- <-; split; [reflexivity|intros uid E; discriminate E]].
  destruct (_hash_password kdf enc dec [] p (SaltText (row_salt r)) (row_iterations r))
    as [[[c s0] it]|e];
    [|injection H as <- <-; split; [reflexivity|intros uid E; discriminate E]].
  destruct (negb (compare_digest c (row_password_hash r)));
    [injection H as <- <-; split; [reflexivity|intros uid E; discriminate E]|].
  cbv [sql_touch_login bind get_db put_db ret raise] in H.
  destruct (db_writable d) eqn:Ew; simpl in H;
    [|injection H as <- <-; split; [reflexivity|intros uid E; discriminate E]].
  injection H as <- <-. split.
  - intros Hn. exfalso. exact (Hn (row_id r) eq_refl).
  - intros uid E. injection E as <-. cbn [db_open db_writable db_seq db_rows].
    split; [exact Eo|]. split; [reflexivity|]. split; [reflexivity|].
    split; [|split].
    + rewrite map_map. apply map_ext. intros x. now destruct (Z.eqb _ _).
    + intros x Hx Hid. apply in_map_iff in Hx as (y & <- & _).
      destruct (Z.eqb_spec (row_id y) (row_id r)) as [E|E]; [split; reflexivity|].
      contradiction.
    + intros x Hx Hne. apply in_map_iff. exists x. split; [|exact Hx].
      apply Z.eqb_neq in Hne. now rewrite Hne.
Qed.

Lemma verify_user_writes_only_login_columns_witness :
  verify_user Sample.kdf Sample.enc Sample.dec "t2" "Carol" "password1" carol_db
    = (Ok (Some 7), snd (verify_user Sample.kdf Sample.enc Sample.dec "t2" "Carol" "password1" carol_db))
  /\ map row_last_login (db_rows (snd (verify_user Sample.kdf Sample.enc Sample.dec "t2" "Carol" "password1" carol_db)))
     = [Some "t2"%string]
  /\ snd (verify_user Sample.kdf Sample.enc Sample.dec "t2" "Carol" "wrong-password" carol_db) = carol_db.
Proof.
  assert (Hv : verify_user Sample.kdf Sample.enc Sample.dec "t2" "Carol" "password1" carol_db
    = (Ok (Some 7), snd (verify_user Sample.kdf Sample.enc Sample.dec "t2" "Carol" "password1" carol_db)))
    by reflexivity.
  assert (Hw : verify_user Sample.kdf Sample.enc Sample.dec "t2" "Carol" "wrong-password" carol_db
    = (Ok None, snd (verify_user Sample.kdf Sample.enc Sample.dec "t2" "Carol" "wrong-password" carol_db)))
    by reflexivity.
  split; [exact Hv|]. split.
  - destruct (proj2 (verify_user_writes_only_login_columns _ _ _ _ _ _ _ _ _ Hv) 7 eq_refl)
      as (_ & _ & _ & _ & Hl & _).
    destruct (db_rows (snd (verify_user Sample.kdf Sample.enc Sample.dec "t2" "Carol" "password1" carol_db)))
      as [|x [|y l]] eqn:E; [discriminate E| |discriminate E].
    simpl. f_equal. f_equal. apply (Hl x); [left; reflexivity|].
    injection E as <-. reflexivity.
  - apply (proj1 (verify_user_writes_only_login_columns _ _ _ _ _ _ _ _ _ Hw)).
    intros uid E. discriminate E.
Defined.

Lemma max_id_ge : forall rows r, In r rows -> row_id r <= max_id rows.
Proof.
  induction rows as [|r0 rows IH]; intros r Hin; [destruct Hin|].
  destruct Hin as [<-|Hin]; simpl; [lia|]. specialize (IH r Hin). lia.
Qed.

(** [create_user] gives the new row an id above every id in the table and
    above every id ever handed out ([sqlite_sequence]): ids are never
    reused. *)
Theorem create_user_assigns_fresh_id :
  forall (kdf : list byte -> list byte -> Z -> list byte)
         (enc : list byte -> string) (dec : string -> option (list byte))
         fresh now u p d d',
  create_user kdf enc dec fresh now u p d = (Ok tt, d') ->
  exists r, db_rows d' = db_rows d ++ [r]
    /\ row_username r = normalize u
    /\ db_seq d < row_id r
    /\ (forall r0, In r0 (db_rows d) -> row_id r0 < row_id r)
    /\ db_seq d' = row_id r.
Proof.
  intros kdf enc dec fresh now u p d d' H.
  destruct (StoreFacts.create_user_ok kdf enc dec fresh now u p d d' H) as (_ & _ & _ & ->).
  eexists. split; [reflexivity|]. cbn [row_id row_username db_seq].
  split; [reflexivity|]. unfold next_rowid. split; [lia|]. split; [|reflexivity].
  intros r0 Hin. pose proof (max_id_ge _ _ Hin). lia.
Qed.

Lemma create_user_assigns_fresh_id_witness :
  create_user Sample.kdf Sample.enc Sample.dec Sample.salt1 "t0" "Alice " "password1" carol_db
     = (Ok tt, snd (create_user Sample.kdf Sample.enc Sample.dec Sample.salt1 "t0" "Alice " "password1" carol_db))
  /\ exists r, db_rows (snd (create_user Sample.kdf Sample.enc Sample.dec Sample.salt1 "t0" "Alice " "password1" carol_db))
               = db_rows carol_db ++ [r] /\ 7 < row_id r.
Proof.
  assert (Hc : create_user Sample.kdf Sample.enc Sample.dec Sample.salt1 "t0" "Alice " "password1" carol_db
     = (Ok tt, snd (create_user Sample.kdf Sample.enc Sample.dec Sample.salt1 "t0" "Alice " "password1" carol_db)))
    by reflexivity.
  split; [exact Hc|].
  destruct (create_user_assigns_fresh_id _ _ _ _ _ _ _ _ _ Hc) as (r & Hr & _ & Hs & _).
  exists r. split; [exact Hr|]. exact Hs.
Defined.

(** Right after [_toggle_mode], a submit never reaches the store: in
    [register] mode the cleared username fails the length check, in
    [login] mode the cleared password asks for both fields. *)
Theorem submit_after_toggle_mode_is_local :
  forall (kdf : list byte -> list byte -> Z -> list byte)
         (enc : list byte -> string) (dec : string -> option (list byte))
         fresh now f d,
  _submit kdf enc dec fresh now (_toggle_mode f) d
  = (Ok (Message (match form_mode f with
                  | Login => "Username must be at least 3 characters."
                  | Register => "Enter both username and password."
                  end)), d).
Proof.
  intros kdf enc dec fresh now f d.
  destruct f as [[] un pw cf]; unfold _toggle_mode, _submit; cbn [form_mode username_var password_var].
  - reflexivity.
  - rewrite orb_true_r. reflexivity.
Qed.

Lemma re_search_false_nil : forall cls s, re_search cls s = true -> s <> EmptyString.
Proof. intros cls s H E. subst s. discriminate H. Qed.

(** [_password_strength_score] is [0] exactly for the empty password, at
    least [6] and at most [100] otherwise, and reaches [100] exactly when
    the password has at least 7 characters and an ASCII upper-case letter,
    an ASCII lower-case letter, a digit and a character that is neither a
    word character nor white space. *)
Theorem password_strength_score_range :
  forall pw,
  (_password_strength_score pw = 0 <-> pw = EmptyString)
  /\ (pw <> EmptyString -> 6 <= _password_strength_score pw <= 100)
  /\ (_password_strength_score pw = 100
      <-> 7 <= PyStr.len pw /\ re_search re_upper pw = true /\ re_search re_lower pw = true
          /\ re_search re_digit pw = true /\ re_search re_symbol pw = true).
Proof.
  intros pw. unfold _password_strength_score.
  destruct (String.eqb_spec pw "") as [->|Hne].
  - split; [tauto|]. split; [tauto|]. split; [discriminate|].
    intros (_ & H & _). discriminate H.
  - assert (Hl : 1 <= PyStr.len pw)
      by (unfold PyStr.len; destruct pw; [contradiction|simpl; lia]).
    destruct (re_search re_upper pw), (re_search re_lower pw), (re_search re_digit pw),
      (re_search re_symbol pw), (Z.leb_spec 12 (PyStr.len pw));
      (split; [split; [lia|intros E; contradiction]|split; [intros _; lia|]]);
      (split; [intros E; try (split; [lia|]); repeat split; lia
              |intros (H7 & H1 & H2 & H3 & H4); try discriminate; lia]).
Qed.

Lemma password_strength_score_range_witness :
  "Passw0rd!"%string <> EmptyString /\ _password_strength_score "Passw0rd!" = 100
  /\ 6 <= _password_strength_score "abc" <= 100.
Proof.
  assert (Hne : "Passw0rd!"%string <> EmptyString) by discriminate.
  split; [exact Hne|]. split.
  - apply (proj2 (proj2 (proj2 (password_strength_score_range "Passw0rd!")))).
    split; [unfold PyStr.len; simpl; lia|repeat split; reflexivity].
  - apply (proj1 (proj2 (password_strength_score_range "abc"))). discriminate.
Defined.

(** * The settings document across [app.py] and [s3.py] *)
Module SettingsFacts.

Definition no_lead_space (l : list ascii) : Prop :=
  match l with c :: _ => PyStr.isspace c = false | [] => True end.

Lemma drop_space_no_lead : forall l, no_lead_space (PyStr.drop_space l).
Proof.
  induction l as [|c l IH]; simpl; [exact I|].
  destruct (PyStr.isspace c) eqn:E; [exact IH|exact E].
Qed.

Lemma drop_space_id : forall l, no_lead_space l -> PyStr.drop_space l = l.
Proof. intros [|c l] H; simpl in *; [reflexivity|now rewrite H]. Qed.

Lemma drop_space_suffix : forall l, exists t, l = t ++ PyStr.drop_space l.
Proof.
  induction l as [|c l IH]; simpl; [now exists []|].
  destruct (PyStr.isspace c); [|now exists []].
  destruct IH as [t Ht]. exists (c :: t). simpl. now rewrite <- Ht.
Qed.

Lemma strip_list_idem : forall l,
  let s := rev (PyStr.drop_space (rev (PyStr.drop_space l))) in
  rev (PyStr.drop_space (rev (PyStr.drop_space s))) = s.
Proof.
  intros l s.
  set (l1 := PyStr.drop_space l).
  set (m := PyStr.drop_space (rev l1)).
  assert (Hn1 : no_lead_space l1) by apply drop_space_no_lead.
  destruct (drop_space_suffix (rev l1)) as [t Ht].
  fold m in Ht.
  assert (Hl1 : l1 = rev m ++ rev t)
    by (rewrite <- (rev_involutive l1), Ht, rev_app_distr; reflexivity).
  assert (Hns : no_lead_space (rev m)).
  { destruct (rev m) as [|c r] eqn:E; [exact I|]. rewrite Hl1 in Hn1. exact Hn1. }
  unfold s. fold l1. fold m.
  rewrite (drop_space_id _ Hns), rev_involutive.
  unfold m at 1. rewrite (drop_space_id _ (drop_space_no_lead _)). reflexivity.
Qed.

Lemma strip_idem : forall s, PyStr.strip (PyStr.strip s) = PyStr.strip s.
Proof.
  intros s. unfold PyStr.strip at 1 2. rewrite list_ascii_of_string_of_list_ascii.
  unfold PyStr.strip. f_equal. apply strip_list_idem.
Qed.

Lemma dec_digits_cons : forall fuel n acc, PyRepr.dec_digits (S fuel) n acc <> [].
Proof.
  induction fuel as [|f IH]; intros n acc; simpl.
  - destruct (N.eqb _ 0); discriminate.
  - destruct (N.eqb _ 0); [discriminate|apply IH].
Qed.

Lemma str_Z_nonempty : forall z, PyRepr.str_Z z <> EmptyString.
Proof.
  intros z. unfold PyRepr.str_Z. destruct (z <? 0); [discriminate|].
  unfold PyRepr.str_N. intros E.
  apply (f_equal list_ascii_of_string) in E.
  rewrite list_ascii_of_string_of_list_ascii in E. exact (dec_digits_cons _ _ _ E).
Qed.

Lemma py_str_nonempty : forall v, truthy v = true -> PyRepr.py_str v <> EmptyString.
Proof.
  intros [|[]|n|s|l|kvs] H; simpl in *; try discriminate.
  - apply str_Z_nonempty.
  - intros E. rewrite E in H. discriminate H.
Qed.

Lemma resolve_truthy : forall e k s d,
  opt_truthy d = true -> opt_truthy (_resolve_setting e k s d) = true.
Proof.
  intros e k s d Hd. unfold _resolve_setting.
  assert (Hs : opt_truthy (match dict_get k s with
                           | Some v => if truthy v then Some (PyRepr.py_str v) else d
                           | None => d end) = true).
  { destruct (dict_get k s) as [v|]; [|exact Hd].
    destruct (truthy v) eqn:Ev; [|exact Hd]. simpl.
    destruct (String.eqb_spec (PyRepr.py_str v) ""); [|reflexivity].
    exfalso. exact (py_str_nonempty v Ev e0). }
  destruct (env_get k e) as [x|]; [|exact Hs].
  destruct (String.eqb_spec x ""); [exact Hs|]. simpl.
  destruct (String.eqb_spec x ""); [contradiction|reflexivity].
Qed.

Lemma env_get_pop : forall k k' e,
  env_get k (env_pop k' e) = if String.eqb k' k then None else env_get k e.
Proof.
  intros k k' e. induction e as [|[k0 v0] e IH]; simpl.
  - now destruct (String.eqb k' k).
  - destruct (String.eqb_spec k0 k') as [->|Hne]; simpl.
    + rewrite IH. now destruct (String.eqb k' k).
    + destruct (String.eqb_spec k0 k) as [->|Hk].
      * destruct (String.eqb_spec k' k) as [->|]; [contradiction|reflexivity].
      * exact IH.
Qed.

Lemma env_get_set : forall k k' v e,
  env_get k (env_set k' v e) = if String.eqb k' k then Some v else env_get k e.
Proof.
  intros k k' v e. unfold env_set. simpl. rewrite env_get_pop.
  now destruct (String.eqb k' k).
Qed.

Section RoundTrip.

Variable json_loads : string -> option json.
Variable json_dumps : json -> string.

(** What [save_settings] wrote is what [load_settings] reads. *)
Lemma load_saved : forall d,
  json_loads (json_dumps (JObj d)) = Some (JObj d) ->
  PyStr.strip (json_dumps (JObj d)) <> ""%string ->
  load_settings json_loads (FileText (json_dumps (JObj d))) = d.
Proof.
  intros d Hrt Hnb. unfold load_settings, load_settings_try.
  destruct (String.eqb_spec (PyStr.strip (json_dumps (JObj d))) ""); [contradiction|].
  now rewrite Hrt.
Qed.

End RoundTrip.

Lemma session_check_no_session : forall now cfg d,
  dict_get "SESSION" cfg = None -> session_check now cfg d = ShowLoginCard.
Proof.
  intros now cfg d H. unfold session_check, session_fast_path. rewrite H. reflexivity.
Qed.

End SettingsFacts.

(** [_settings_bool] reads back the flags that [_collect_settings] writes:
    the stored [AWS_S3_SECURE] and [AWS_S3_PATH_STYLE] strings give the
    check boxes' values, whatever the defaults. *)
Theorem settings_bool_reads_collected_flags : forall v d1 d2,
  _settings_bool (dict_get "AWS_S3_SECURE" (_collect_settings v)) d1 = cfg_secure v /\
  _settings_bool (dict_get "AWS_S3_PATH_STYLE" (_collect_settings v)) d2 = cfg_path_style v.
Proof.
  intros [r a s ep cu sec ps p] d1 d2. cbn -[PyStr.strip PyStr.lower].
  split; [destruct sec|destruct ps]; reflexivity.
Qed.

(** The endpoint [_effective_endpoint] derives from the form: the stripped
    endpoint field for MinIO or a custom endpoint, otherwise the default
    AWS endpoint of the region for provider [aws] (the endpoint field is
    then ignored), and [""] for any other provider. *)
Theorem effective_endpoint_of_form : forall v,
  _effective_endpoint (_collect_settings v) =
  Ok (if String.eqb (cfg_provider v) PROVIDER_MINIO || cfg_custom_endpoint v
      then PyStr.strip (cfg_endpoint v)
      else if String.eqb (cfg_provider v) PROVIDER_AWS then _default_endpoint (cfg_region v)
      else ""%string).
Proof.
  intros [r a s ep cu sec p pv]. unfold _effective_endpoint, _collect_settings, _default_endpoint.
  cbn [cfg_region cfg_access_key cfg_secret_key cfg_endpoint cfg_custom_endpoint
       cfg_secure cfg_path_style cfg_provider].
  assert (HR : PyStr.strip (PyStr.strip r) = PyStr.strip r) by apply SettingsFacts.strip_idem.
  assert (HE : PyStr.strip (PyStr.strip ep) = PyStr.strip ep) by apply SettingsFacts.strip_idem.
  remember (PyStr.strip r) as R eqn:ER. remember (PyStr.strip ep) as E eqn:EE.
  unfold PROVIDER_MINIO, PROVIDER_AWS.
  destruct (String.eqb R "") eqn:Er;
  destruct (String.eqb E "") eqn:Ee;
  destruct (String.eqb pv "minio") eqn:Em;
  destruct (String.eqb pv "aws") eqn:Ea; destruct cu;
  cbn -[PyStr.strip]; rewrite ?Er, ?Ee, ?Em, ?Ea, ?HR, ?HE; cbn -[PyStr.strip];
  rewrite ?Er, ?Ee, ?Em, ?Ea; try reflexivity;
  try (apply String.eqb_eq in Ee; rewrite Ee; reflexivity).
  all: rewrite ?HR, ?Er; reflexivity.
Qed.

Module SaveFacts.

Local Open Scope string_scope.

Definition nonempty_opt (s : string) : option string :=
  if String.eqb s "" then None else Some s.

Lemma apply_env_collect : forall v e, exists e',
  _apply_env_from_settings (_collect_settings v) e = Ok e' /\
  env_get "AWS_REGION" e' = nonempty_opt (PyStr.strip (cfg_region v)) /\
  env_get "AWS_ACCESS_KEY_ID" e' = nonempty_opt (PyStr.strip (cfg_access_key v)) /\
  env_get "AWS_SECRET_ACCESS_KEY" e' = nonempty_opt (PyStr.strip (cfg_secret_key v)) /\
  env_get "AWS_S3_ENDPOINT" e' =
    (if String.eqb (cfg_provider v) PROVIDER_MINIO || cfg_custom_endpoint v
     then nonempty_opt (PyStr.strip (cfg_endpoint v)) else None) /\
  env_get "AWS_S3_PATH_STYLE" e' = Some (if cfg_path_style v then "true" else "false") /\
  env_get "AWS_S3_SECURE" e' = Some (if cfg_secure v then "true" else "false").
Proof.
  intros [r a s ep cu sec p pv] e. unfold _apply_env_from_settings, _collect_settings, nonempty_opt.
  cbn [cfg_region cfg_access_key cfg_secret_key cfg_endpoint cfg_custom_endpoint
       cfg_secure cfg_path_style cfg_provider].
  remember (PyStr.strip r) as R. remember (PyStr.strip a) as A.
  remember (PyStr.strip s) as S. remember (PyStr.strip ep) as E.
  remember ((pv =? PROVIDER_MINIO) || cu) as U.
  destruct (String.eqb R "") eqn:Er; destruct (String.eqb A "") eqn:Ea;
  destruct (String.eqb S "") eqn:Es; destruct (String.eqb E "") eqn:Ee; destruct U, p, sec;
  cbn -[env_set env_pop]; rewrite ?Er, ?Ea, ?Es, ?Ee; cbn -[env_set env_pop];
  eexists; (split; [reflexivity|]);
  repeat (rewrite SettingsFacts.env_get_set || rewrite SettingsFacts.env_get_pop);
  cbn; repeat split; reflexivity.
Qed.

Lemma get_set_same : forall k v d, dict_get k (dict_set k v d) = Some v.
Proof.
  intros k v d. unfold dict_set. destruct (has_key k d) eqn:H.
  - induction d as [|[k0 v0] d IH]; simpl in *; [discriminate|].
    destruct (String.eqb k0 k) eqn:E; simpl; rewrite ?E; [reflexivity|].
    rewrite ?E in H. exact (IH H).
  - induction d as [|[k0 v0] d IH]; simpl in *; [now rewrite String.eqb_refl|].
    destruct (String.eqb k0 k) eqn:E; [discriminate|]. exact (IH H).
Qed.

Lemma on_settings_save_saved : forall json_dumps v fs e fs' e',
  _on_settings_save json_dumps v fs e = Ok ("Connection settings saved."%string, fs', e') ->
  save_missing v (_collect_settings v) = [] /\ cfg_writable fs = true /\
  fs' = mk_fs (FileText (json_dumps (JObj (_collect_settings v)))) true /\
  _apply_env_from_settings (_collect_settings v) e = Ok e'.
Proof.
  intros json_dumps v fs e fs' e' H. unfold _on_settings_save, save_settings in H.
  destruct (save_missing v (_collect_settings v)) as [|m ms]; [|discriminate H].
  destruct (cfg_writable fs) eqn:Hw; [|discriminate H].
  destruct (_apply_env_from_settings (_collect_settings v) e) as [e''|x]; [|discriminate H].
  injection H as <- <-. now repeat split.
Qed.

Lemma on_settings_save_ok : forall json_dumps v fs e,
  save_missing v (_collect_settings v) = [] -> cfg_writable fs = true ->
  exists e', _on_settings_save json_dumps v fs e
    = Ok ("Connection settings saved."%string,
          mk_fs (FileText (json_dumps (JObj (_collect_settings v)))) true, e').
Proof.
  intros json_dumps v fs e Hm Hw.
  destruct (apply_env_collect v e) as [e' [He _]].
  exists e'. unfold _on_settings_save, save_settings. now rewrite Hm, Hw, He.
Qed.

End SaveFacts.

Module SettingsSample.

Local Open Scope string_scope.

(** A filled-in form for AWS, with a padded region. *)
Definition form : settings_vars :=
  mk_vars " us-east-1 " "AKIAEXAMPLE" "s3cr3t" "" false true false PROVIDER_AWS.

(** A settings file that can be written, holding some earlier document. *)
Definition old_fs : settings_fs := mk_fs (FileText "old") true.

Definition dumps (j : json) : string := "doc".

(** Reads back the document of [form]. *)
Definition loads_form (raw : string) : option json := Some (JObj (_collect_settings form)).

Definition remembered : dict :=
  [("UI_DARK", JStr "0");
   ("SESSION", JObj [("username", JStr "carol"); ("token", JStr "t");
                     ("expires_at", JStr "2099-01-01T00:00:00")])].

(** The earlier document is [remembered]; what is written reads back as
    [remembered] without its session. *)
Definition loads_session (raw : string) : option json :=
  if String.eqb raw "doc" then Some (JObj (dict_pop "SESSION" remembered))
  else Some (JObj remembered).

End SettingsSample.

(** Saving the connection settings with every required field filled and a
    writable settings file replaces the whole settings document by the
    eight keys of [_collect_settings]: a remembered [SESSION] and the
    [UI_DARK] choice are dropped, so the next start shows the login card. *)
Theorem settings_save_replaces_document :
  forall json_loads json_dumps v fs e now d,
  cfg_writable fs = true ->
  save_missing v (_collect_settings v) = [] ->
  json_loads (json_dumps (JObj (_collect_settings v))) = Some (JObj (_collect_settings v)) ->
  PyStr.strip (json_dumps (JObj (_collect_settings v))) <> ""%string ->
  exists fs' e',
    _on_settings_save json_dumps v fs e = Ok ("Connection settings saved."%string, fs', e') /\
    load_settings json_loads (cfg_file fs') = _collect_settings v /\
    dict_get "SESSION" (load_settings json_loads (cfg_file fs')) = None /\
    dict_get "UI_DARK" (load_settings json_loads (cfg_file fs')) = None /\
    _start_login json_loads now (cfg_file fs') d = ShowLoginCard.
Proof.
  intros json_loads json_dumps v fs e now d Hw Hm Hrt Hnb.
  destruct (SaveFacts.on_settings_save_ok json_dumps v fs e Hm Hw) as [e' He].
  eexists; exists e'. split; [exact He|]. cbn [cfg_file].
  rewrite (SettingsFacts.load_saved _ _ _ Hrt Hnb).
  unfold _start_login. rewrite (SettingsFacts.load_saved _ _ _ Hrt Hnb).
  assert (Hs : dict_get "SESSION" (_collect_settings v) = None) by reflexivity.
  split; [reflexivity|]. split; [exact Hs|]. split; [reflexivity|].
  now apply SettingsFacts.session_check_no_session.
Qed.

Lemma settings_save_replaces_document_witness :
  cfg_writable SettingsSample.old_fs = true /\
  save_missing SettingsSample.form (_collect_settings SettingsSample.form) = [] /\
  SettingsSample.loads_form (SettingsSample.dumps (JObj (_collect_settings SettingsSample.form)))
    = Some (JObj (_collect_settings SettingsSample.form)) /\
  PyStr.strip (SettingsSample.dumps (JObj (_collect_settings SettingsSample.form))) <> ""%string /\
  exists fs' e',
    _on_settings_save SettingsSample.dumps SettingsSample.form SettingsSample.old_fs [] =
      Ok ("Connection settings saved."%string, fs', e') /\
    load_settings SettingsSample.loads_form (cfg_file fs') = _collect_settings SettingsSample.form /\
    dict_get "SESSION" (load_settings SettingsSample.loads_form (cfg_file fs')) = None /\
    dict_get "UI_DARK" (load_settings SettingsSample.loads_form (cfg_file fs')) = None /\
    _start_login SettingsSample.loads_form now_example (cfg_file fs') carol_db = ShowLoginCard.
Proof.
  assert (H1 : cfg_writable SettingsSample.old_fs = true) by reflexivity.
  assert (H2 : save_missing SettingsSample.form (_collect_settings SettingsSample.form) = [])
    by (vm_compute; reflexivity).
  assert (H3 : SettingsSample.loads_form (SettingsSample.dumps (JObj (_collect_settings SettingsSample.form)))
               = Some (JObj (_collect_settings SettingsSample.form))) by reflexivity.
  assert (H4 : PyStr.strip (SettingsSample.dumps (JObj (_collect_settings SettingsSample.form)))
               <> ""%string) by (vm_compute; discriminate).
  exact (conj H1 (conj H2 (conj H3 (conj H4
    (settings_save_replaces_document SettingsSample.loads_form SettingsSample.dumps
       SettingsSample.form SettingsSample.old_fs [] now_example carol_db H1 H2 H3 H4))))).
Defined.

(** After a successful save for provider [aws] or [minio],
    [_require_saved_credentials] accepts the reloaded settings: the fields
    [_on_settings_save] insists on cover the ones the later check asks
    for. *)
Theorem settings_save_passes_credential_check :
  forall json_loads json_dumps v fs e fs' e' cur,
  cfg_provider v = PROVIDER_AWS \/ cfg_provider v = PROVIDER_MINIO ->
  json_loads (json_dumps (JObj (_collect_settings v))) = Some (JObj (_collect_settings v)) ->
  PyStr.strip (json_dumps (JObj (_collect_settings v))) <> ""%string ->
  _on_settings_save json_dumps v fs e = Ok ("Connection settings saved."%string, fs', e') ->
  _require_saved_credentials cur (load_settings json_loads (cfg_file fs')) = true.
Proof.
  intros json_loads json_dumps v fs e fs' e' cur Hp Hrt Hnb H.
  destruct (SaveFacts.on_settings_save_saved _ _ _ _ _ _ H) as [Hm [_ [-> _]]].
  cbn [cfg_file]. rewrite (SettingsFacts.load_saved _ _ _ Hrt Hnb).
  clear H Hrt Hnb. revert Hm.
  destruct v as [r a s ep cu sec p pv]. cbn [cfg_provider] in Hp.
  unfold _require_saved_credentials, save_missing, _collect_settings.
  cbn [cfg_region cfg_access_key cfg_secret_key cfg_endpoint cfg_custom_endpoint
       cfg_secure cfg_path_style cfg_provider].
  assert (HR := SettingsFacts.strip_idem r). assert (HA := SettingsFacts.strip_idem a).
  assert (HS := SettingsFacts.strip_idem s). assert (HE := SettingsFacts.strip_idem ep).
  remember (PyStr.strip r) as R. remember (PyStr.strip a) as A.
  remember (PyStr.strip s) as S. remember (PyStr.strip ep) as E.
  destruct Hp as [-> | ->]; unfold PROVIDER_AWS, PROVIDER_MINIO;
  destruct (String.eqb R "") eqn:Er; destruct (String.eqb A "") eqn:Ea;
  destruct (String.eqb S "") eqn:Es; destruct (String.eqb E "") eqn:Ee; destruct cu;
  cbn -[PyStr.strip]; rewrite ?Er, ?Ea, ?Es, ?Ee; cbn -[PyStr.strip];
  intros Hm; try discriminate Hm;
  rewrite ?HR, ?HA, ?HS, ?HE, ?Er, ?Ea, ?Es, ?Ee; reflexivity.
Qed.

Lemma settings_save_passes_credential_check_witness :
  exists fs' e',
    _on_settings_save SettingsSample.dumps SettingsSample.form SettingsSample.old_fs [] =
      Ok ("Connection settings saved."%string, fs', e') /\
    _require_saved_credentials "aws" (load_settings SettingsSample.loads_form (cfg_file fs')) = true.
Proof.
  do 2 eexists. split; [vm_compute; reflexivity|].
  eapply (settings_save_passes_credential_check SettingsSample.loads_form SettingsSample.dumps
           SettingsSample.form SettingsSample.old_fs [] _ _ "aws"%string).
  - left; reflexivity.
  - reflexivity.
  - vm_compute; discriminate.
  - vm_compute; reflexivity.
Defined.

(** After a successful save for provider [aws] or [minio], with the
    environment [_apply_env_from_settings] left, [get_client3] builds its
    client from the saved fields: the endpoint [_effective_endpoint]
    computes, the stripped keys, the secure and path-style check boxes, and
    the stripped region ([None] when blank). *)
Theorem get_client3_after_settings_save :
  forall json_loads json_dumps v fs e fs' e',
  cfg_provider v = PROVIDER_AWS \/ cfg_provider v = PROVIDER_MINIO ->
  json_loads (json_dumps (JObj (_collect_settings v))) = Some (JObj (_collect_settings v)) ->
  PyStr.strip (json_dumps (JObj (_collect_settings v))) <> ""%string ->
  _on_settings_save json_dumps v fs e = Ok ("Connection settings saved."%string, fs', e') ->
  exists ep, _effective_endpoint (_collect_settings v) = Ok ep /\
  get_client3 json_loads e' (cfg_file fs') =
    MinioArgs ep (PyStr.strip (cfg_access_key v)) (PyStr.strip (cfg_secret_key v))
      (cfg_secure v)
      (if String.eqb (PyStr.strip (cfg_region v)) ""%string then None
       else Some (PyStr.strip (cfg_region v)))
      (if cfg_path_style v then "path" else "auto")%string.
Proof.
  intros json_loads json_dumps v fs e fs' e' Hp Hrt Hnb H.
  destruct (SaveFacts.on_settings_save_saved _ _ _ _ _ _ H) as [Hm [_ [-> Ha]]].
  destruct (SaveFacts.apply_env_collect v e) as [e'' [Ha' [G1 [G2 [G3 [G4 [G5 G6]]]]]]].
  rewrite Ha' in Ha. injection Ha as <-.
  unfold get_client3. cbn [cfg_file]. rewrite (SettingsFacts.load_saved _ _ _ Hrt Hnb).
  unfold _resolve_setting. rewrite G1, G2, G3, G4, G5, G6.
  clear H Hrt Hnb G1 G2 G3 G4 G5 G6 Ha'. revert Hm.
  destruct v as [r a s ep cu sec p pv]. cbn [cfg_provider] in Hp.
  unfold _effective_endpoint, get_stripped, _default_endpoint, save_missing,
    _collect_settings, SaveFacts.nonempty_opt.
  cbn [cfg_region cfg_access_key cfg_secret_key cfg_endpoint cfg_custom_endpoint
       cfg_secure cfg_path_style cfg_provider].
  assert (HR := SettingsFacts.strip_idem r). assert (HE := SettingsFacts.strip_idem ep).
  remember (PyStr.strip r) as R. remember (PyStr.strip a) as A.
  remember (PyStr.strip s) as S. remember (PyStr.strip ep) as E.
  destruct Hp as [-> | ->]; unfold PROVIDER_AWS, PROVIDER_MINIO;
  destruct (String.eqb R "") eqn:Er; destruct (String.eqb A "") eqn:Ea;
  destruct (String.eqb S "") eqn:Es; destruct (String.eqb E "") eqn:Ee; destruct cu;
  cbn -[PyStr.strip PyStr.lower]; rewrite ?Er, ?Ea, ?Es, ?Ee; cbn -[PyStr.strip PyStr.lower];
  intros Hm; try discriminate Hm;
  rewrite ?HR, ?HE, ?Er, ?Ea, ?Es, ?Ee; cbn -[PyStr.strip];
  eexists; (split; [reflexivity|]);
  destruct sec, p; reflexivity.
Qed.

Lemma get_client3_after_settings_save_witness :
  exists fs' e',
    _on_settings_save SettingsSample.dumps SettingsSample.form SettingsSample.old_fs [] =
      Ok ("Connection settings saved."%string, fs', e') /\
    exists ep, _effective_endpoint (_collect_settings SettingsSample.form) = Ok ep /\
    get_client3 SettingsSample.loads_form e' (cfg_file fs') =
      MinioArgs ep "AKIAEXAMPLE" "s3cr3t" true (Some "us-east-1"%string) "auto".
Proof.
  do 2 eexists. split; [vm_compute; reflexivity|].
  eapply (get_client3_after_settings_save SettingsSample.loads_form SettingsSample.dumps
           SettingsSample.form SettingsSample.old_fs [] _ _).
  - left; reflexivity.
  - reflexivity.
  - vm_compute; discriminate.
  - vm_compute; reflexivity.
Defined.

(** [_toggle_theme] flips the theme: the next toggle sees the opposite
    setting, which it reads from [UI_DARK] in the environment ("1" or
    "0"), and no other variable of the environment changes. With a
    writable settings file the loaded document is saved with [UI_DARK]
    set and every other key kept (a remembered [SESSION] included);
    when the file cannot be written, [_initial_settings] and the file
    stay as they were. *)
Theorem toggle_theme_flips_and_keeps_other_keys :
  forall json_loads json_dumps e initial fs e' initial' fs',
  _toggle_theme json_loads json_dumps e initial fs = (e', initial', fs') ->
  theme_is_dark e' initial' = negb (theme_is_dark e initial) /\
  env_get "UI_DARK" e' = Some (if theme_is_dark e' initial' then "1" else "0")%string /\
  (forall k, k <> "UI_DARK"%string -> env_get k e' = env_get k e) /\
  (cfg_writable fs = true ->
     dict_get "UI_DARK" initial' = Some (JStr (if theme_is_dark e' initial' then "1" else "0"))%string /\
     (forall k, k <> "UI_DARK"%string ->
        dict_get k initial' = dict_get k (load_settings json_loads (cfg_file fs))) /\
     fs' = mk_fs (FileText (json_dumps (JObj initial'))) true) /\
  (cfg_writable fs = false -> initial' = initial /\ fs' = fs).
Proof.
  intros json_loads json_dumps e initial fs e' initial' fs' H.
  unfold _toggle_theme, save_settings in H.
  fold (theme_is_dark e initial) in H.
  assert (He : env_get "UI_DARK" e' = Some (if negb (theme_is_dark e initial) then "1" else "0")%string).
  { destruct (cfg_writable fs); injection H as <- _ _;
    rewrite SettingsFacts.env_get_set; reflexivity. }
  assert (Hd : theme_is_dark e' initial' = negb (theme_is_dark e initial)).
  { unfold theme_is_dark at 1. rewrite He. now destruct (theme_is_dark e initial). }
  split; [exact Hd|]. split; [now rewrite Hd, He|].
  split.
  - intros k Hk. destruct (cfg_writable fs); injection H as <- _ _;
    rewrite SettingsFacts.env_get_set;
    destruct (String.eqb_spec "UI_DARK"%string k); [congruence|reflexivity|congruence|reflexivity].
  - split; intros Hw; rewrite Hw in H; injection H as <- <- <-; [|split; reflexivity].
    split; [rewrite SaveFacts.get_set_same, Hd; reflexivity|].
    split; [intros k Hk; now apply DictFacts.get_set_other|reflexivity].
Qed.

Lemma toggle_theme_flips_and_keeps_other_keys_witness :
  exists e' initial' fs',
    _toggle_theme SettingsSample.loads_session SettingsSample.dumps [] [] SettingsSample.old_fs
      = (e', initial', fs') /\
    theme_is_dark e' initial' = false /\
    dict_get "SESSION" initial' = dict_get "SESSION" SettingsSample.remembered.
Proof.
  do 3 eexists. split; [vm_compute; reflexivity|].
  destruct (toggle_theme_flips_and_keeps_other_keys SettingsSample.loads_session
              SettingsSample.dumps [] [] SettingsSample.old_fs _ _ _ eq_refl)
    as [Hd [_ [_ [Hw _]]]].
  split; [etransitivity; [exact Hd|vm_compute; reflexivity]|].
  destruct (Hw eq_refl) as [_ [Hk _]].
  etransitivity; [apply Hk; discriminate|vm_compute; reflexivity].
Defined.

(** * Deleting objects and buckets *)
Module DeleteFacts.

Definition removal_ok (x : option string) : bool :=
  match x with None => true | Some _ => false end.

Section Loops.

Variable remove_object : string -> option string -> option string.

Lemma versions_loop_spec : forall key objs c e calls err c' e' calls' err',
  versions_loop remove_object key objs c e calls err = (c', e', calls', err') ->
  let m := filter (fun o => String.eqb (object_name o) key) objs in
  c' = c + Z.of_nat (length (filter (fun o => removal_ok (remove_object key (version_id o))) m)) /\
  e' = e + Z.of_nat (length (filter (fun o => negb (removal_ok (remove_object key (version_id o)))) m)) /\
  calls' = calls ++ map (fun o => RemoveObject key (version_id o)) m.
Proof.
  intros key objs. induction objs as [|o r IH]; intros c e calls err c' e' calls' err' H m.
  - injection H as <- <- <- <-. subst m. cbn. repeat split; lia || now rewrite app_nil_r.
  - subst m. cbn in H |- *.
    destruct (String.eqb (object_name o) key) eqn:Ek; cbn in H |- *.
    + destruct (remove_object key (version_id o)) as [x|] eqn:Er; cbn.
      * destruct (IH _ _ _ _ _ _ _ _ H) as [H1 [H2 H3]].
        rewrite H1, H2, H3, <- app_assoc. cbn. repeat split; lia.
      * destruct (IH _ _ _ _ _ _ _ _ H) as [H1 [H2 H3]].
        rewrite H1, H2, H3, <- app_assoc. cbn. repeat split; lia.
    + exact (IH _ _ _ _ _ _ _ _ H).
Qed.

Lemma empty_loop_spec : forall inc objs rm_ er calls err r' e' calls' err',
  empty_loop remove_object inc objs rm_ er calls err = (r', e', calls', err') ->
  let vid o := if inc then version_id o else None in
  r' = rm_ + Z.of_nat (length (filter (fun o => removal_ok (remove_object (object_name o) (vid o))) objs)) /\
  e' = er + Z.of_nat (length (filter (fun o => negb (removal_ok (remove_object (object_name o) (vid o)))) objs)) /\
  calls' = calls ++ map (fun o => RemoveObject (object_name o) (vid o)) objs.
Proof.
  intros inc objs. induction objs as [|o r IH]; intros rm_ er calls err r' e' calls' err' H vid.
  - injection H as <- <- <- <-. cbn. repeat split; lia || now rewrite app_nil_r.
  - cbn in H |- *. subst vid. cbv zeta in *.
    destruct (remove_object (object_name o) (if inc then version_id o else None)) as [x|] eqn:Er;
    cbn; destruct (IH _ _ _ _ _ _ _ _ H) as [H1 [H2 H3]];
    rewrite H1, H2, H3, <- app_assoc; cbn; repeat split; lia.
Qed.

End Loops.

Lemma filter_length_split : forall (A : Type) (f : A -> bool) l,
  (length (filter f l) + length (filter (fun x => negb (f x)) l) = length l)%nat.
Proof.
  intros A f l. induction l as [|x l IH]; cbn; [reflexivity|].
  destruct (f x); cbn; lia.
Qed.

Lemma filter_nil_forall : forall (A : Type) (f : A -> bool) l,
  filter f l = [] <-> forall x, In x l -> f x = false.
Proof.
  intros A f l. induction l as [|x l IH]; cbn; [tauto|].
  destruct (f x) eqn:E; split.
  - discriminate.
  - intros H. rewrite (H x (or_introl eq_refl)) in E. discriminate.
  - intros H y [<-|Hy]; [exact E|]. now apply IH.
  - intros H. apply IH. intros y Hy. apply H. now right.
Qed.

Lemma removal_ok_none : forall x, DeleteFacts.removal_ok x = true <-> x = None.
Proof. intros [x|]; cbn; split; congruence. Qed.

Lemma length_zero_nil : forall (A : Type) (l : list A), Z.of_nat (length l) = 0 <-> l = [].
Proof. intros A [|x l]; cbn; split; intros H; try reflexivity; try discriminate; lia. Qed.

(** [empty_bucket] raises exactly the error of the listing. *)
Lemma empty_bucket_raises : forall remove_object inc l e,
  fst (empty_bucket remove_object inc l) = S3Raises e <-> list_error l = Some e.
Proof.
  intros rm inc [objs lerr] e. unfold empty_bucket. cbn [listed list_error].
  destruct (empty_loop rm inc objs 0 0 [] []) as [[[r x] calls] err].
  destruct lerr; cbn; split; congruence.
Qed.

End DeleteFacts.




(** * Bucket names *)

Module BucketFacts.

Lemma length_list_ascii : forall s, length (list_ascii_of_string s) = String.length s.
Proof. induction s as [|c s IH]; cbn; [reflexivity|now rewrite IH]. Qed.

Lemma split_dots_no_dot : forall l, ~ In "."%char l -> split_dots l = [l].
Proof.
  induction l as [|c r IH]; intros H; [reflexivity|]. cbn.
  destruct (Ascii.eqb_spec c "."%char) as [->|Hc]; [exfalso; apply H; now left|].
  rewrite IH; [reflexivity|]. intros Hr. apply H. now right.
Qed.

Lemma dotted_quad_no_dot : forall l, ~ In "."%char l -> dotted_quad l = false.
Proof. intros l H. unfold dotted_quad. now rewrite split_dots_no_dot. Qed.

Lemma ip_re_match_no_dot : forall s,
  ~ In "."%char (list_ascii_of_string s) -> ip_re_match s = false.
Proof.
  intros s H. unfold ip_re_match. rewrite (dotted_quad_no_dot _ H). cbn [orb].
  destruct (rev (list_ascii_of_string s)) as [|c r] eqn:E; [reflexivity|].
  rewrite dotted_quad_no_dot; [apply andb_false_r|].
  intros Hr. apply H. rewrite <- (rev_involutive (list_ascii_of_string s)), E.
  cbn. apply in_or_app. now left.
Qed.

Lemma nth_firstn_lt : forall (A : Type) n k (l : list A) d,
  (n < k)%nat -> nth n (firstn k l) d = nth n l d.
Proof.
  intros A n k l d. revert n k. induction l as [|x l IH]; intros n k Hn.
  - now rewrite firstn_nil.
  - destruct k as [|k]; [lia|]. destruct n as [|n]; cbn; [reflexivity|]. apply IH. lia.
Qed.

Lemma nth_length_cons : forall (A : Type) (b : list A) x d,
  nth (length b) (x :: b) d = last (x :: b) d.
Proof.
  intros A b. induction b as [|y b IH]; intros x d; [reflexivity|].
  change (nth (length b) (y :: b) d = last (y :: b) d). apply IH.
Qed.

Lemma nth_last : forall (A : Type) (b : list A) d,
  b <> [] -> nth (length b - 1) b d = last b d.
Proof.
  intros A [|x b] d H; [congruence|]. cbn [length].
  rewrite Nat.sub_succ, Nat.sub_0_r. apply nth_length_cons.
Qed.

Lemma dollar_at_shape : forall l k,
  (k <= length l)%nat -> dollar_at l k = true ->
  l = firstn k l \/ l = firstn k l ++ ["010"%char].
Proof.
  intros l k Hk H. unfold dollar_at in H.
  apply orb_true_iff in H as [H|H].
  - apply Nat.eqb_eq in H. left. subst k. now rewrite firstn_all.
  - apply andb_true_iff in H as [H1 H2]. apply Nat.eqb_eq in H1.
    apply Ascii.eqb_eq in H2. right.
    rewrite <- (firstn_skipn k l) at 1. f_equal.
    assert (Hl : length (skipn k l) = 1%nat) by (rewrite length_skipn; lia).
    destruct (skipn k l) as [|c [|c' r]] eqn:E; cbn in Hl; try lia.
    assert (Hn : nth k l "a"%char = c).
    { rewrite <- (firstn_skipn k l), E, app_nth2; rewrite length_firstn; [|lia].
      replace (k - Nat.min k (length l))%nat with 0%nat by lia. reflexivity. }
    now rewrite <- Hn, H2.
Qed.

Lemma is_bucket_char_not_dot : is_bucket_char "."%char = false.
Proof. reflexivity. Qed.

Lemma hd_nth : forall (A : Type) (b : list A) d, hd d b = nth 0 b d.
Proof. intros A [|x b] d; reflexivity. Qed.

Lemma firstn_length_app : forall (A : Type) (b c : list A), firstn (length b) (b ++ c) = b.
Proof. intros A b c. induction b as [|x b IH]; cbn; [reflexivity|now rewrite IH]. Qed.

Lemma bucket_re_match_shape : forall s, bucket_re_match s = true ->
  exists b, (list_ascii_of_string s = b \/ list_ascii_of_string s = b ++ ["010"%char]) /\
    (3 <= length b <= 63)%nat /\ forallb is_bucket_char b = true /\
    hd "-"%char b <> "-"%char /\ last b "-"%char <> "-"%char.
Proof.
  intros s H. unfold bucket_re_match in H. set (l := list_ascii_of_string s) in *.
  apply existsb_exists in H as [k [Hk H]]. apply in_seq in Hk.
  apply andb_true_iff in H as [H Hd]. apply andb_true_iff in H as [H Hlast].
  apply andb_true_iff in H as [H Hfirst]. apply andb_true_iff in H as [Hle Hall].
  apply Nat.leb_le in Hle. apply negb_true_iff in Hfirst, Hlast.
  exists (firstn k l).
  assert (Hlen : length (firstn k l) = k) by (rewrite length_firstn; lia).
  split; [exact (dollar_at_shape l k Hle Hd)|].
  split; [lia|]. split; [exact Hall|]. split.
  - rewrite hd_nth, nth_firstn_lt by lia. intros E. rewrite E in Hfirst. discriminate.
  - rewrite <- nth_last, Hlen, nth_firstn_lt by (lia || (intros E; rewrite E in Hlen; cbn in Hlen; lia)).
    intros E. rewrite E in Hlast. discriminate.
Qed.

Lemma bucket_re_match_no_dot : forall s,
  bucket_re_match s = true -> ~ In "."%char (list_ascii_of_string s).
Proof.
  intros s H Hin. destruct (bucket_re_match_shape s H) as [b [Hs [_ [Hall _]]]].
  assert (Hb : ~ In "."%char b).
  { intros Hb. rewrite forallb_forall in Hall. specialize (Hall _ Hb). discriminate Hall. }
  destruct Hs as [Hs|Hs]; rewrite Hs in Hin; [contradiction|].
  apply in_app_or in Hin as [Hin|[Hin|[]]]; [contradiction|discriminate Hin].
Qed.



End BucketFacts.

(** [is_valid_bucket_name]: every string that [_BUCKET_RE] accepts has
    no dot, so the IP-address check after it never rejects anything. *)
Theorem bucket_ip_check_unreachable : forall s,
  bucket_re_match s = true -> ip_re_match s = false.
Proof.
  intros s H. apply BucketFacts.ip_re_match_no_dot, BucketFacts.bucket_re_match_no_dot, H.
Qed.

(** [is_valid_bucket_name] accepts exactly the names of at most 63
    characters made of a body [b] of at least 3 ASCII lowercase letters,
    digits or hyphens that neither starts nor ends with a hyphen, optionally
    followed by one newline ([$] matches before a final newline). *)
Theorem is_valid_bucket_name_iff : forall s,
  is_valid_bucket_name s = true <->
  exists b, (list_ascii_of_string s = b \/ list_ascii_of_string s = b ++ ["010"%char]) /\
    (String.length s <= 63)%nat /\ (3 <= length b)%nat /\ forallb is_bucket_char b = true /\
    hd "-"%char b <> "-"%char /\ last b "-"%char <> "-"%char.
Proof.
  intros s. unfold is_valid_bucket_name. split.
  - intros H.
    destruct (String.eqb s "" || (String.length s <? 3)%nat || (63 <? String.length s)%nat) eqn:E1;
      [discriminate|].
    destruct (bucket_re_match s) eqn:E2; [|discriminate].
    apply orb_false_iff in E1 as [_ E1]. apply Nat.ltb_ge in E1.
    destruct (BucketFacts.bucket_re_match_shape s E2) as [b [Hs [Hb [Hall [Hh Hl]]]]].
    exists b. repeat split; try assumption; lia.
  - intros [b [Hs [H63 [H3 [Hall [Hh Hl]]]]]].
    rewrite <- BucketFacts.length_list_ascii in H63 |- *.
    assert (Hlen : (length b <= length (list_ascii_of_string s))%nat)
      by (destruct Hs as [-> | ->]; [lia|rewrite length_app; lia]).
    assert (Hne : b <> []) by (intros ->; cbn in H3; lia).
    assert (Hm : bucket_re_match s = true).
    { unfold bucket_re_match. apply existsb_exists. exists (length b).
      split; [apply in_seq; lia|].
      assert (Hf : firstn (length b) (list_ascii_of_string s) = b)
        by (destruct Hs as [-> | ->]; [apply firstn_all|apply BucketFacts.firstn_length_app]).
      assert (H0 : nth 0 (list_ascii_of_string s) "-"%char = hd "-"%char b).
      { rewrite BucketFacts.hd_nth, <- Hf, BucketFacts.nth_firstn_lt; [reflexivity|lia]. }
      assert (Hk : nth (length b - 1) (list_ascii_of_string s) "-"%char = last b "-"%char).
      { rewrite <- BucketFacts.nth_last by exact Hne.
        transitivity (nth (length b - 1) (firstn (length b) (list_ascii_of_string s)) "-"%char);
          [symmetry; apply BucketFacts.nth_firstn_lt; lia|now rewrite Hf]. }
      rewrite Hf, H0, Hk, Hall.
      apply Nat.leb_le in Hlen. rewrite Hlen.
      destruct (Ascii.eqb_spec (hd "-"%char b) "-"%char); [contradiction|].
      destruct (Ascii.eqb_spec (last b "-"%char) "-"%char); [contradiction|]. cbn.
      unfold dollar_at. destruct Hs as [-> | ->].
      - now rewrite Nat.eqb_refl.
      - rewrite length_app, app_nth2, Nat.sub_diag by lia. cbn.
        rewrite Nat.add_1_r, Nat.eqb_refl. apply orb_true_r. }
    rewrite (BucketFacts.ip_re_match_no_dot s (BucketFacts.bucket_re_match_no_dot s Hm)).
    destruct (String.eqb_spec s ""); [subst s; cbn in H3, Hlen; lia|].
    assert (Hn3 : (length (list_ascii_of_string s) <? 3)%nat = false) by (apply Nat.ltb_ge; lia).
    assert (Hn63 : (63 <? length (list_ascii_of_string s))%nat = false) by (apply Nat.ltb_ge; lia).
    rewrite Hn3, Hn63, Hm. reflexivity.
Qed.

Lemma bucket_ip_check_unreachable_witness :
  bucket_re_match "my-bucket" = true /\ ip_re_match "my-bucket" = false.
Proof.
  split; [vm_compute; reflexivity|].
  apply bucket_ip_check_unreachable. vm_compute. reflexivity.
Defined.

Lemma is_valid_bucket_name_iff_witness :
  is_valid_bucket_name
    (String "a"%char (String "b"%char (String "c"%char (String "010"%char EmptyString))))
  = true.
Proof.
  apply (proj2 (is_valid_bucket_name_iff _)).
  exists ["a"%char; "b"%char; "c"%char].
  split; [right; reflexivity|].
  split; [cbn; lia|]. split; [cbn; lia|]. split; [reflexivity|].
  split; cbn; discriminate.
Defined.


(** * Truncating and formatting for display *)

(** [_truncate_middle]: a text that fits is returned as it is; a longer one
    keeps [(max_len-1)/2] characters from the start, an ellipsis and the
    rest of [max_len-1] from the end, [max_len] characters in all; with
    [max_len = 1] the right part is [text[-0:]], that is the whole text,
    which follows the ellipsis. *)
Theorem truncate_middle_shape : forall text max_len,
  (Z.of_nat (length text) <= max_len -> _truncate_middle text max_len = text) /\
  (2 <= max_len -> max_len < Z.of_nat (length text) ->
     _truncate_middle text max_len =
       firstn (Z.to_nat ((max_len - 1) / 2)) text ++ [ELLIPSIS]
       ++ skipn (length text - Z.to_nat (max_len - 1 - (max_len - 1) / 2)) text /\
     Z.of_nat (length (_truncate_middle text max_len)) = max_len) /\
  ((2 <= length text)%nat -> _truncate_middle text 1 = ELLIPSIS :: text).
Proof.
  intros text m. unfold _truncate_middle. split; [|split].
  - intros H. destruct text as [|c r]; [reflexivity|].
    apply Z.leb_le in H. now rewrite H.
  - intros H2 Hlt.
    assert (Hne : text <> []) by (intros ->; cbn in Hlt; lia).
    destruct text as [|c r] eqn:Et; [congruence|]. rewrite <- Et in Hlt.
    change (match c :: r with [] => [] | _ :: _ => ?X end) with X. rewrite <- Et.
    assert (Hb : (Z.of_nat (length text) <=? m) = false) by (apply Z.leb_gt; lia).
    rewrite Hb.
    assert (Hl0 : 0 <= (m - 1) / 2) by (apply Z.div_pos; lia).
    assert (Hl1 : (m - 1) / 2 <= (m - 1) / 2 * 2) by lia.
    pose proof (Z.mul_div_le (m - 1) 2 ltac:(lia)) as Hd.
    pose proof (Z.mod_pos_bound (m - 1) 2 ltac:(lia)) as Hmod.
    pose proof (Z.div_mod (m - 1) 2 ltac:(lia)) as Hdm.
    set (left := (m - 1) / 2) in *. set (right := m - 1 - left).
    assert (Hr : 1 <= right) by (unfold right; lia).
    unfold py_slice_to, py_slice_from, py_slice_index.
    assert (E1 : (left <? 0) = false) by (apply Z.ltb_ge; lia).
    assert (E2 : (- right <? 0) = true) by (apply Z.ltb_lt; lia).
    rewrite E1, E2.
    rewrite Z.min_l by lia. rewrite Z.max_r by lia.
    replace (Z.to_nat (Z.of_nat (length text) + - right))
      with (length text - Z.to_nat right)%nat by lia.
    split; [reflexivity|].
    rewrite !length_app, length_firstn, length_skipn. cbn [length]. lia.
  - intros H. destruct text as [|c r]; [cbn in H; lia|].
    assert (Hb : (Z.of_nat (length (c :: r)) <=? 1) = false) by (apply Z.leb_gt; lia).
    rewrite Hb. reflexivity.
Qed.

Lemma truncate_middle_shape_witness :
  _truncate_middle [104; 101; 108; 108; 111; 119] 4 = [104; ELLIPSIS; 111; 119] /\
  Z.of_nat (length (_truncate_middle [104; 101; 108; 108; 111; 119] 4)) = 4.
Proof.
  destruct (proj1 (proj2 (truncate_middle_shape [104; 101; 108; 108; 111; 119] 4))
              ltac:(lia) ltac:(cbn; lia)) as [E L].
  split; [rewrite E; reflexivity|exact L].
Defined.

Lemma pad2_two_digits : forall n, 0 <= n < 60 -> String.length (pad2 n) = 2%nat.
Proof.
  intros n Hn.
  assert (H : forall k, (k < 60)%nat -> String.length (pad2 (Z.of_nat k)) = 2%nat).
  { intros k Hk. do 60 (destruct k as [|k]; [reflexivity|]). lia. }
  replace n with (Z.of_nat (Z.to_nat n)) by lia. apply H. lia.
Qed.

(** [human_eta] of a positive number of seconds prints [HH:MM:SS] where
    the fields read back to the seconds rounded up, minutes and seconds
    below 60 and printed with two digits. *)
Theorem human_eta_round_trip : forall q : Q, (0 < q)%Q ->
  exists h m s,
    human_eta (EtaFinite q) = Ok (zstr (pad2 h ++ ":" ++ pad2 m ++ ":" ++ pad2 s)) /\
    0 <= h /\ 0 <= m < 60 /\ 0 <= s < 60 /\
    String.length (pad2 m) = 2%nat /\ String.length (pad2 s) = 2%nat /\
    3600 * h + 60 * m + s = Qceiling q /\
    (inject_Z (3600 * h + 60 * m + s - 1) < q)%Q /\ (q <= inject_Z (3600 * h + 60 * m + s))%Q.
Proof.
  intros q Hq. unfold human_eta.
  assert (Hle : Qle_bool q 0 = false).
  { destruct (Qle_bool q 0) eqn:E; [|reflexivity].
    apply Qle_bool_iff in E. exfalso. apply (Qlt_not_le _ _ Hq E). }
  rewrite Hle.
  set (c := Qceiling q).
  assert (Hc : 0 <= c).
  { assert (H : (0 < inject_Z c)%Q) by (apply (Qlt_le_trans _ _ _ Hq), Qle_ceiling).
    change 0%Q with (inject_Z 0) in H. rewrite <- Zlt_Qlt in H. lia. }
  exists (c / 3600), ((c mod 3600) / 60), (c mod 60).
  pose proof (Z.mod_pos_bound c 3600 ltac:(lia)).
  pose proof (Z.mod_pos_bound c 60 ltac:(lia)).
  assert (Hm : 0 <= c mod 3600 / 60 < 60)
    by (split; [apply Z.div_pos; lia|apply Z.div_lt_upper_bound; lia]).
  assert (Hsum : 3600 * (c / 3600) + 60 * (c mod 3600 / 60) + c mod 60 = c).
  { pose proof (Z.div_mod c 3600 ltac:(lia)).
    pose proof (Z.div_mod (c mod 3600) 60 ltac:(lia)).
    assert (c mod 3600 mod 60 = c mod 60).
    { apply Z.mod_mod_divide. exists 60; lia. }
    lia. }
  split; [reflexivity|].
  split; [apply Z.div_pos; lia|]. split; [exact Hm|]. split; [lia|].
  split; [apply pad2_two_digits; exact Hm|]. split; [apply pad2_two_digits; lia|].
  rewrite Hsum. split; [reflexivity|]. split; [apply Qceiling_lt|apply Qle_ceiling].
Qed.

Lemma human_eta_round_trip_witness :
  human_eta (EtaFinite (7451 # 2)) = Ok (zstr "01:02:06") /\
  exists h m s,
    human_eta (EtaFinite (7451 # 2)) = Ok (zstr (pad2 h ++ ":" ++ pad2 m ++ ":" ++ pad2 s)) /\
    0 <= h /\ 0 <= m < 60 /\ 0 <= s < 60 /\
    String.length (pad2 m) = 2%nat /\ String.length (pad2 s) = 2%nat /\
    3600 * h + 60 * m + s = Qceiling (7451 # 2) /\
    (inject_Z (3600 * h + 60 * m + s - 1) < 7451 # 2)%Q /\
    (7451 # 2 <= inject_Z (3600 * h + 60 * m + s))%Q.
Proof.
  split; [vm_compute; reflexivity|].
  apply human_eta_round_trip. vm_compute. reflexivity.
Defined.


(** * The upload busy flag *)

Lemma fold_handlers_busy : forall hs u,
  Forall (fun h : upload_ui -> upload_ui => forall v, ui_busy (h v) = ui_busy v) hs ->
  ui_busy (fold_left (fun v h => h v) hs u) = ui_busy u.
Proof.
  induction hs as [|h hs IH]; intros u H; [reflexivity|].
  inversion H as [|? ? Hh Hs]; subst. cbn. rewrite IH by exact Hs. apply Hh.
Qed.

(** [upload_start] sets [_upload_busy] before its checks; when it returns
    early (bad bucket, missing file, no credentials, failed [os.stat]) the
    flag stays set and Cancel is left as it was (disabled again after a
    failed [os.stat]), so any run of handlers that leave the flag alone,
    followed by the periodic [_refresh_upload_button], keeps Start Upload
    disabled. *)
Theorem upload_start_early_exit_keeps_busy : forall isfile creds_ok stat_ok u u' e hs,
  upload_start isfile creds_ok stat_ok u = (u', e) -> e <> WorkerStarted ->
  Forall (fun h : upload_ui -> upload_ui => forall v, ui_busy (h v) = ui_busy v) hs ->
  ui_busy u' = true /\
  (e = StatFailed -> ui_cancel_enabled u' = false) /\
  (e <> StatFailed -> ui_cancel_enabled u' = ui_cancel_enabled u) /\
  ui_start_enabled (_refresh_upload_button (fold_left (fun v h => h v) hs u')) = false.
Proof.
  intros isfile c s u u' e hs H He Hs.
  assert (Hb : ui_busy u' = true /\
               (e = StatFailed -> ui_cancel_enabled u' = false) /\
               (e <> StatFailed -> ui_cancel_enabled u' = ui_cancel_enabled u)).
  { unfold upload_start in H.
    destruct (is_valid_bucket_name _); cbn in H;
      [|injection H as <- <-; repeat split; intros; congruence].
    destruct (isfile _); cbn in H;
      [|injection H as <- <-; repeat split; intros; congruence].
    destruct c; cbn in H;
      [|injection H as <- <-; repeat split; intros; congruence].
    destruct s; cbn in H; injection H as <- <-; [congruence|].
    repeat split; congruence. }
  destruct Hb as (Hbusy & Hst & Hc). repeat split; try assumption.
  unfold _refresh_upload_button. cbn [ui_start_enabled set_start].
  rewrite fold_handlers_busy by exact Hs. now rewrite Hbusy.
Qed.

Lemma maybe_enable_upload_busy : forall v, ui_busy (_maybe_enable_upload v) = ui_busy v.
Proof. reflexivity. Qed.

Lemma refresh_upload_button_busy : forall v, ui_busy (_refresh_upload_button v) = ui_busy v.
Proof. reflexivity. Qed.

Lemma upload_start_early_exit_keeps_busy_witness :
  let u := mk_ui "" "f.txt" "k" false false false in
  fst (upload_start (fun _ => true) true true u) = set_busy true u /\
  snd (upload_start (fun _ => true) true true u) = BadBucket /\
  ui_start_enabled (_refresh_upload_button
     (fold_left (fun v h => h v) [_maybe_enable_upload; _refresh_upload_button]
        (set_busy true u))) = false.
Proof.
  intros u. split; [reflexivity|]. split; [reflexivity|].
  refine (proj2 (proj2 (proj2 (upload_start_early_exit_keeps_busy
            (fun _ => true) true true u (set_busy true u) BadBucket
            [_maybe_enable_upload; _refresh_upload_button] _ _ _)))).
  - vm_compute. reflexivity.
  - discriminate.
  - constructor; [exact maybe_enable_upload_busy|].
    constructor; [exact refresh_upload_button_busy|constructor].
Defined.

(** [upload_cancel] and [_rearm] clear [_upload_busy], after which Start
    Upload is enabled exactly when the bucket, file and key fields are
    non-blank; [_rearm] on the upload buttons also disables Cancel, on the
    download buttons it leaves Cancel as it was. *)
Theorem cancel_and_rearm_follow_fields : forall u,
  let ok := negb (String.eqb (PyStr.strip (ui_bucket u)) "")
            && negb (String.eqb (PyStr.strip (ui_file u)) "")
            && negb (String.eqb (PyStr.strip (ui_key u)) "") in
  ui_busy (upload_cancel u) = false /\ ui_start_enabled (upload_cancel u) = ok /\
  ui_cancel_enabled (upload_cancel u) = ui_cancel_enabled u /\
  ui_busy (_rearm true u) = false /\ ui_start_enabled (_rearm true u) = ok /\
  ui_cancel_enabled (_rearm true u) = false /\
  ui_busy (_rearm false u) = false /\ ui_start_enabled (_rearm false u) = ok /\
  ui_cancel_enabled (_rearm false u) = ui_cancel_enabled u.
Proof. intros u ok. repeat split. Qed.
